(** * libRSF: resampling utilities and the GNSS application loop

    A shallow embedding of [src/Resampling.cpp] and of [App_GNSS.cpp]
    (functions [Predict], [Measure], [InitGraph], [CreateGraphAndSolve] and
    [main]).

    Numbers.  The source computes with C++ [double].  The embedding has two
    parts.  The first computes with the rationals [Q]: comparisons are the
    numerical ones ([Qle_bool], [Qeq_bool]), arithmetic is exact, and there
    is no NaN or infinity.  It carries the statements about control flow,
    about the order and the grouping of the measurements, and about the
    graph.  The second part, [Binary64], computes with IEEE 754 binary64
    numbers as the compiled code does.  It carries the statements about the
    values computed: the averages of [AverageMeasurement], the force flag of
    [Solve], and the calls of every pass of the loop with their
    arguments. *)

From Stdlib Require Import String QArith Qround ZArith List Bool Lia Lqa.
From Stdlib Require Import Sorted.
From Stdlib Require Floats.
Import ListNotations.

Open Scope Q_scope.

(** ** Numeric helpers *)

Module Num.

(** [a < b] on doubles. *)
Definition ltb (a b : Q) : bool := negb (Qle_bool b a).

(** [a > b] on doubles. *)
Definition gtb (a b : Q) : bool := ltb b a.

(** [a >= b] on doubles. *)
Definition geb (a b : Q) : bool := Qle_bool b a.

(** [a == b] on doubles. *)
Definition eqb (a b : Q) : bool := Qeq_bool a b.

(** Rounding towards zero, as C's conversion and [fmod] do. *)
Definition trunc (q : Q) : Z := Z.quot (Qnum q) (Zpos (Qden q)).

(** C's [fmod(x, y)]: [x - n*y] with [n] the quotient [x/y] rounded
    towards zero; the result has the sign of [x]. *)
Definition fmod (x y : Q) : Q := x - inject_Z (trunc (x / y)) * y.

(** The conversion of a [size_t] to [double]. *)
Definition of_nat (n : nat) : Q := inject_Z (Z.of_nat n).

End Num.

(** ** Vectors

    [libRSF::Vector] is a dynamically sized Eigen column of doubles. *)

Definition Vector := list Q.

Module Vec.

(** [Vector v(n); v.setZero();] *)
Definition zero (n : nat) : Vector := repeat 0 n.

(** [a += b].  Eigen demands equal sizes; on such inputs this is the
    componentwise sum.  (On inputs Eigen rejects, the model keeps the
    common prefix.) *)
Fixpoint add (a b : Vector) : Vector :=
  match a, b with
  | x :: a', y :: b' => (x + y) :: add a' b'
  | _, _ => []
  end.

(** [v.cwiseInverse()].  In the rationals the inverse of 0 is 0; a double
    gives infinity there, see [Binary64.Vec.cwiseInverse]. *)
Definition cwiseInverse (v : Vector) : Vector := map Qinv v.

(** [v /= s] *)
Definition div (v : Vector) (s : Q) : Vector := map (fun x => x / s) v.

(** [v(i)], with 0 outside the vector. *)
Definition at_ (v : Vector) (i : nat) : Q := nth i v 0.

(** [v(i) = x] *)
Fixpoint set (v : Vector) (i : nat) (x : Q) : Vector :=
  match v, i with
  | [], _ => []
  | _ :: v', O => x :: v'
  | y :: v', S i' => y :: set v' i' x
  end.

(** [v.tail(n)]: the last [n] coefficients. *)
Definition tail (v : Vector) (n : nat) : Vector := skipn (length v - n) v.

End Vec.

(** ** Measurements ([SensorData])

    The class behind [SensorData] and [libRSF::Data] is declared outside the
    files under study.  Modelled from the spec: a measurement is "{type,
    timestamp, mean vector, covariance/information}".  The covariance is
    kept as the vector of its coefficients, which is what [cwiseInverse]
    works on. *)

Inductive DataType : Type :=
| Point3
| Odom3
| IterationSummary
| OtherData (tag : nat).

Record SensorData : Type := mkSensorData {
  getType : option DataType;
  getTimestamp : Q;
  getMean : Vector;
  getCovariance : Vector
}.

Definition setTimestamp (d : SensorData) (t : Q) : SensorData :=
  mkSensorData (getType d) t (getMean d) (getCovariance d).

Definition setMean (d : SensorData) (m : Vector) : SensorData :=
  mkSensorData (getType d) (getTimestamp d) m (getCovariance d).

Definition setCovariance (d : SensorData) (c : Vector) : SensorData :=
  mkSensorData (getType d) (getTimestamp d) (getMean d) c.

(** [SensorData Output;]: the default-constructed object, with no type and
    no content. *)
Definition DefaultSensorData : SensorData := mkSensorData None 0 [] [].

(** ** Resampling.cpp *)

Module Resampling.

(** [PRINT_ERROR] writes a line to the error log; a computation returns
    its value together with the lines it logged. *)
Definition Logged (A : Type) : Type := (A * list string)%type.

Definition ret {A} (a : A) : Logged A := (a, []).

Definition bind {A B} (m : Logged A) (f : A -> Logged B) : Logged B :=
  let (a, l1) := m in let (b, l2) := f a in (b, l1 ++ l2).

Definition PRINT_ERROR (msg : string) : Logged unit := (tt, [msg]).

Definition NoMeasurement : string := "There is no Measurement!"%string.

(** The three accumulators of the loop in [AverageMeasurement]. *)
Record Sums : Type := mkSums {
  Time : Q;
  MeanSum : Vector;
  Info : Vector
}.

(** One pass of [for (const SensorData & Measurement : Input)]. *)
Definition accumulate (s : Sums) (Measurement : SensorData) : Sums :=
  mkSums (Time s + getTimestamp Measurement)
         (Vec.add (MeanSum s) (getMean Measurement))
         (Vec.add (Info s) (Vec.cwiseInverse (getCovariance Measurement))).

(** The sums and the quotients are exact here;
    [Binary64.Resampling.AverageMeasurement] rounds them as the source
    does. *)
Definition AverageMeasurement (Input : list SensorData) : Logged SensorData :=
  match Input with
  | [] =>
      bind (PRINT_ERROR NoMeasurement) (fun _ => ret DefaultSensorData)
  | [single] => ret single
  | front :: _ =>
      let start := mkSums 0 (Vec.zero (length (getMean front)))
                            (Vec.zero (length (getCovariance front))) in
      let s := fold_left accumulate Input start in
      let size := Num.of_nat (length Input) in
      let Mean := Vec.div (MeanSum s) size in
      let Time := Time s / size in
      let Output := last Input DefaultSensorData in
      let Output := setTimestamp Output Time in
      let Output := setMean Output Mean in
      let Output := setCovariance Output (Vec.cwiseInverse (Info s)) in
      ret Output
  end.

(** The variables the loop of [SampleMeasurementsDown] updates. *)
Record Sampler : Type := mkSampler {
  Output : list SensorData;
  AveragingWindow : list SensorData;
  TimeNext : Q;
  Errors : list string
}.

(** One pass of [for (const SensorData &Sensor : Input)].  The end of the
    window, [TimeNext + SampleTime], is exact here;
    [Binary64.Resampling.sample_step] rounds it as the source does. *)
Definition sample_step (SampleTime TimeMax : Q) (st : Sampler) (Sensor : SensorData)
  : Sampler :=
  let Window := AveragingWindow st ++ [Sensor] in
  if Num.geb (getTimestamp Sensor) (TimeNext st)
     || Num.eqb (getTimestamp Sensor) TimeMax
  then
    let (Average, logged) := AverageMeasurement Window in
    let Stamped := setTimestamp Average (getTimestamp (last Window DefaultSensorData)) in
    mkSampler (Output st ++ [Stamped]) [] (TimeNext st + SampleTime)
              (Errors st ++ logged)
  else
    mkSampler (Output st) Window (TimeNext st) (Errors st).

(** The loop, from the state the function sets up before it. *)
Definition sample_loop (Input : list SensorData) (SampleTime : Q) : Sampler :=
  match Input with
  | [] => mkSampler [] [] 0 []
  | front :: _ =>
      let Time := getTimestamp front in
      let TimeNext := Time + SampleTime in
      let TimeMax := getTimestamp (last Input DefaultSensorData) in
      fold_left (sample_step SampleTime TimeMax) Input (mkSampler [] [] TimeNext [])
  end.

Definition SampleMeasurementsDown (Input : list SensorData) (SampleTime : Q)
  : Logged (list SensorData) :=
  match Input with
  | [] => bind (PRINT_ERROR NoMeasurement) (fun _ => ret [])
  | _ :: _ =>
      let st := sample_loop Input SampleTime in
      (Output st, Errors st)
  end.

(** What one averaging window turns into: its average, stamped with the
    time of its last measurement. *)
Definition flush (Window : list SensorData) : SensorData :=
  setTimestamp (fst (AverageMeasurement Window))
               (getTimestamp (last Window DefaultSensorData)).

(** The successive contents of [AveragingWindow] at the moments it is
    averaged and cleared, in order, together with what is left in it when
    the loop ends. *)
Fixpoint windows_from (SampleTime TimeMax TimeNext : Q)
         (Window : list SensorData) (Input : list SensorData)
  : list (list SensorData) * list SensorData :=
  match Input with
  | [] => ([], Window)
  | Sensor :: rest =>
      let Window' := Window ++ [Sensor] in
      if Num.geb (getTimestamp Sensor) TimeNext
         || Num.eqb (getTimestamp Sensor) TimeMax
      then
        let (ws, left) :=
          windows_from SampleTime TimeMax (TimeNext + SampleTime) [] rest in
        (Window' :: ws, left)
      else
        windows_from SampleTime TimeMax TimeNext Window' rest
  end.

Definition Windows (Input : list SensorData) (SampleTime : Q)
  : list (list SensorData) * list SensorData :=
  match Input with
  | [] => ([], [])
  | front :: _ =>
      windows_from SampleTime (getTimestamp (last Input DefaultSensorData))
                   (getTimestamp front + SampleTime) [] Input
  end.

End Resampling.

(** ** The factor graph engine

    [FactorGraph], [StateID], [GaussianDiagonal] and the factor types are
    declared in headers and sources of the library that are not part of the
    files under study.  Their model below follows the description of the
    engine in sections 3 and 4.1 of the specification. *)

Module Engine.

(** Modelled from the spec: the "closed set of factor kinds"; the
    application names [Prior3] and hands the others through. *)
Inductive FactorType : Type :=
| Prior3
| OtherFactor (tag : nat).

Definition FactorType_eqb (a b : FactorType) : bool :=
  match a, b with
  | Prior3, Prior3 => true
  | OtherFactor m, OtherFactor n => Nat.eqb m n
  | _, _ => false
  end.

(** Modelled from the spec: the key of a state variable, "(name,
    timestamp[, index])"; [StateID(Name, Time)] has index 0. *)
Record StateID : Type := mkStateID {
  ID : string;
  Timestamp : Q;
  Number : nat
}.

(** Modelled from the spec: a state variable, "{name, timestamp,
    optional instance index, semantic type, mean vector, free|frozen
    flag}".  [Constant] is the frozen flag. *)
Record StateVariable : Type := mkState {
  Key : StateID;
  Kind : DataType;
  Mean : Vector;
  Constant : bool
}.

(** Modelled from the spec: the diagonal noise model, "per-component
    inverse standard deviation". *)
Record GaussianDiagonal : Type := mkGaussianDiagonal {
  SqrtInformationDiagonal : Vector
}.

(** Modelled from the spec: [Noise.setSqrtInformationDiagonal(v)] stores
    the square-root information it is given. *)
Definition setSqrtInformationDiagonal (v : Vector) : GaussianDiagonal :=
  mkGaussianDiagonal v.

(** Modelled from the spec: [GaussianDiagonal<Dim> Noise;
    Noise.setStdDevSharedDiagonal(s)] gives every component the standard
    deviation [s], that is the square-root information [1/s]. *)
Definition setStdDevSharedDiagonal (Dim : nat) (s : Q) : GaussianDiagonal :=
  mkGaussianDiagonal (repeat (/ s) Dim).

(** The standard deviations a noise model stands for. *)
Definition StdDev (n : GaussianDiagonal) : Vector :=
  Vec.cwiseInverse (SqrtInformationDiagonal n).

(** Modelled from the spec: a factor, "{factor kind, ordered list of
    StateVariable keys it connects, measurement payload, NoiseModel}". *)
Record Factor : Type := mkFactor {
  FactorKind : FactorType;
  States : list StateID;
  Measurement : SensorData;
  Noise : GaussianDiagonal
}.

(** Modelled from the spec: the graph owns the state variables and an
    append-only list of factors. *)
Record FactorGraph : Type := mkGraph {
  StateData : list StateVariable;
  Factors : list Factor
}.

(** Modelled from the spec: [libRSF::FactorGraph Graph;], a graph without
    variables and factors. *)
Definition EmptyGraph : FactorGraph := mkGraph [] [].

(** Modelled from the spec: how the engine answers a request, "an explicit
    result type"; the callers in [App_GNSS.cpp] do not look at it. *)
Inductive Status : Type :=
| Success
| DuplicateStateError
| UnknownStateError.

Definition same_key (a b : StateID) : bool :=
  String.eqb (ID a) (ID b) && Num.eqb (Timestamp a) (Timestamp b)
  && Nat.eqb (Number a) (Number b).

Definition find_state (g : FactorGraph) (k : StateID) : option StateVariable :=
  find (fun s => same_key (Key s) k) (StateData g).

Definition has_state (g : FactorGraph) (k : StateID) : bool :=
  match find_state g k with Some _ => true | None => false end.

(** Modelled from the spec: the mean a freshly constructed datum of a
    given type starts with (the zero vector; only [Point3] data are
    constructed by the code under study). *)
Definition DefaultMean (ty : DataType) : Vector :=
  match ty with
  | Point3 => Vec.zero 3
  | _ => []
  end.

(** Modelled from the spec: [libRSF::Data D(Type, Time);], a datum of the
    given type and time with the default mean. *)
Definition NewData (ty : DataType) (t : Q) : SensorData :=
  mkSensorData (Some ty) t (DefaultMean ty) [].

(** Modelled from the spec: [addState(name, type, timestamp)] "creates a
    new free StateVariable with a caller-supplied or default mean" and
    "fails with DuplicateStateError if the exact key already exists". *)
Definition addState (g : FactorGraph) (Name : string) (ty : DataType) (t : Q)
  : Status * FactorGraph :=
  let k := mkStateID Name t 0 in
  if has_state g k then (DuplicateStateError, g)
  else (Success,
        mkGraph (StateData g ++ [mkState k ty (DefaultMean ty) false]) (Factors g)).

(** Modelled from the spec: [addFactor(kind, stateKeys, measurement,
    noiseModel)] "validates every key exists; fails with
    UnknownStateError otherwise and adds nothing.  On success appends one
    Factor". *)
Definition addFactor (g : FactorGraph) (kind : FactorType) (keys : list StateID)
           (m : SensorData) (n : GaussianDiagonal) : Status * FactorGraph :=
  if forallb (has_state g) keys
  then (Success, mkGraph (StateData g) (Factors g ++ [mkFactor kind keys m n]))
  else (UnknownStateError, g).

Definition freeze (s : StateVariable) : StateVariable :=
  mkState (Key s) (Kind s) (Mean s) true.

(** Modelled from the spec: [setAllConstantOutsideWindow(windowLength,
    currentTime)], "every StateVariable with [timestamp < currentTime -
    windowLength] transitions free->frozen (one-directional)". *)
Definition setAllConstantOutsideWindow (g : FactorGraph) (TimeWindow CurrentTime : Q)
  : FactorGraph :=
  mkGraph
    (map (fun s =>
            if Num.ltb (Timestamp (Key s)) (CurrentTime - TimeWindow)
            then freeze s else s)
         (StateData g))
    (Factors g).

(** Modelled from the spec: [Graph.getStateData().getElement(Name,
    Time).getMean()].  The specification leaves the lookup of an absent
    key open; the model answers with an empty vector there. *)
Definition getElementMean (g : FactorGraph) (Name : string) (t : Q) : Vector :=
  match find_state g (mkStateID Name t 0) with
  | Some s => Mean s
  | None => []
  end.

(** Counting, for the statements below. *)
Definition states_named (g : FactorGraph) (Name : string) : list StateVariable :=
  filter (fun s => String.eqb (ID (Key s)) Name) (StateData g).

Definition factors_of_kind (g : FactorGraph) (kind : FactorType) : list Factor :=
  filter (fun f => FactorType_eqb (FactorKind f) kind) (Factors g).

End Engine.

(** ** App_GNSS.cpp *)

Module App.

Import Engine.

(** *** Declarations the application relies on *)

(** Modelled from the spec: the names of the state series, "a named state
    series (by StateVariable name)"; they are [#define]s of the application
    headers, and only their being different matters. *)
Definition POSITION_STATE : string := "Position"%string.
Definition ORIENTATION_STATE : string := "Orientation"%string.
Definition ANGLE_STATE : string := "Angle"%string.
Definition SOLVE_TIME_STATE : string := "SolveTime"%string.

(** Modelled from the spec: the configuration, "{GNSS: active + type,
    IMU: active, Odom: active + type, Prior: active + type + parameter
    vector, window length, solver tolerances, input path, output path}". *)
Record SensorConfig : Type := mkSensorConfig {
  IsActive : bool;
  Type_ : FactorType;
  Param : Vector
}.

Record SolverOptions : Type := mkSolverOptions {
  Tolerances : list Q
}.

Record FactorGraphConfig : Type := mkConfig {
  GNSS : SensorConfig;
  IMU : SensorConfig;
  Odom : SensorConfig;
  Prior : SensorConfig;
  WindowLength : Q;
  SolverConfig : SolverOptions;
  InputFile : string;
  OutputFile : string
}.

(** The measurements read from the input file. *)
Definition SensorDataSet : Type := list SensorData.

(** The named state series handed to the output writer. *)
Definition StateDataSet : Type := list (string * SensorData).

(** Modelled from the spec: the frame converter, "{initialized flag,
    origin, rotation}". *)
Record TangentPlaneConverter : Type := mkConverter {
  isInitialized : bool;
  Origin : Vector;
  Rotation : list Vector
}.

(** [libRSF::TangentPlaneConverter LocalFrame;], not yet initialized. *)
Definition NewConverter : TangentPlaneConverter := mkConverter false [] [].

(** The functions [App_GNSS.cpp] calls and does not define: the helpers
    of the application pool, the solver entry points, and input and
    output.  Each takes what the source passes, and gives back what the
    source lets it change (arguments taken by non-const reference). *)
Class AppPool : Type := {
  ReadCommandLineOptions : list string -> FactorGraphConfig;
  ReadDataFromFile : string -> SensorDataSet;
  GetFirstTimestamp : SensorDataSet -> FactorGraphConfig -> option Q;
  GetLastTimestamp : SensorDataSet -> FactorGraphConfig -> option Q;
  IncrementTime :
    FactorGraphConfig -> SensorDataSet -> Q -> Q -> Q -> bool * (Q * Q);
  InitWithGNSS :
    FactorGraph -> SensorDataSet -> FactorGraphConfig -> TangentPlaneConverter ->
    Q -> Q -> FactorGraph * SensorDataSet * TangentPlaneConverter;
  InitIMU : FactorGraph -> SensorDataSet -> Q -> Q -> FactorGraph * SensorDataSet;
  InitOdom : FactorGraph -> FactorType -> Q -> FactorGraph;
  AddIMU : FactorGraph -> FactorGraphConfig -> SensorDataSet -> Q -> Q -> FactorGraph;
  AddOdometry :
    FactorGraph -> FactorType -> DataType -> SensorDataSet -> Q -> Q -> FactorGraph;
  AddGNSS : FactorGraph -> FactorGraphConfig -> SensorDataSet -> Q -> Q -> FactorGraph;
  (** [Graph.solve(Options)] *)
  solve : FactorGraph -> SolverOptions -> FactorGraph;
  (** [Solve(Graph, Config, Summary, ForceSolve)] *)
  Solve :
    FactorGraph -> FactorGraphConfig -> SensorData -> bool -> FactorGraph * SensorData;
  Save :
    FactorGraph -> FactorGraphConfig -> SensorData -> StateDataSet -> bool ->
    SensorData * StateDataSet;
  (** [Summary.setValueScalar(DurationTotal, IterationTimer.getSeconds())] *)
  StampDuration : SensorData -> SensorData;
  convertAllStatesToGlobal :
    TangentPlaneConverter -> StateDataSet -> string -> StateDataSet
}.

(** *** Calls and state *)

(** The calls to the helpers of the application pool, the solver and
    input and output, with the arguments that tell them apart.  The methods
    of the factor graph ([addState], [addFactor],
    [setAllConstantOutsideWindow], [getElement]) are not among them: in this
    part they act on the modelled graph.  [Binary64.App.Call] lists them
    too. *)
Inductive Call : Type :=
| CallReadDataFromFile (File : string)
| CallPRINT_ERROR (Message : string)
| CallInitWithGNSS (TimeInitial Sigma : Q)
| CallInitIMU (TimeInitial Window : Q)
| CallInitOdom (TimeInitial : Q)
| CallAddIMU (TimeOld TimeNow : Q)
| CallAddOdometry (TimeOld TimeNow : Q)
| CallAddGNSS (TimeOld TimeNow : Q)
| CallGraphSolve
| CallSolve (SummaryTime : Q) (ForceSolve : bool)
| CallSave (Final : bool)
| CallPrintProgress (Percent : Q)
| CallWriteDataToFile (File Name : string) (Append : bool)
| CallConvertAllStatesToGlobal
| CallPrintReport.

(** The objects [CreateGraphAndSolve] owns and hands around by
    reference. *)
Record State : Type := mkAppState {
  Graph : FactorGraph;
  Measurements : SensorDataSet;
  LocalFrame : TangentPlaneConverter;
  Result : StateDataSet;
  Summary : SensorData
}.

Definition setGraph (s : State) (g : FactorGraph) : State :=
  mkAppState g (Measurements s) (LocalFrame s) (Result s) (Summary s).

Definition setSummary (s : State) (d : SensorData) : State :=
  mkAppState (Graph s) (Measurements s) (LocalFrame s) (Result s) d.

Definition setResult (s : State) (r : StateDataSet) : State :=
  mkAppState (Graph s) (Measurements s) (LocalFrame s) r (Summary s).

(** A computation changes the state and records the calls it makes. *)
Definition M (A : Type) : Type := State -> A * State * list Call.

Definition ret {A} (a : A) : M A := fun s => (a, s, []).

Definition bind {A B} (m : M A) (f : A -> M B) : M B :=
  fun s =>
    let '(a, s1, c1) := m s in
    let '(b, s2, c2) := f a s1 in
    (b, s2, c1 ++ c2).

Declare Scope app_scope.
Delimit Scope app_scope with app.
Notation "m1 ;; m2" := (bind m1 (fun _ => m2))
  (at level 61, right associativity) : app_scope.
Notation "x <- m1 ;; m2" := (bind m1 (fun x => m2))
  (at level 61, m1 at next level, right associativity) : app_scope.
Open Scope app_scope.

Definition get : M State := fun s => (s, s, []).
Definition put (s : State) : M unit := fun _ => (tt, s, []).
Definition call (c : Call) : M unit := fun s => (tt, s, [c]).
Definition onGraph (f : FactorGraph -> FactorGraph) : M unit :=
  fun s => (tt, setGraph s (f (Graph s)), []).
Definition when (b : bool) (m : M unit) : M unit := if b then m else ret tt.

Definition calls_of {A} (m : M A) (s : State) : list Call := snd (m s).
Definition state_of {A} (m : M A) (s : State) : State := snd (fst (m s)).

Section WithPool.

Context {Pool : AppPool}.

(** *** Predict *)

Definition Predict (Config : FactorGraphConfig) (TimeOld TimeNow : Q) : M unit :=
  (** IMU *)
  when (IsActive (IMU Config))
    (s <- get ;;
     call (CallAddIMU TimeOld TimeNow) ;;
     put (setGraph s (AddIMU (Graph s) Config (Measurements s) TimeOld TimeNow))) ;;
  (** Odometry *)
  when (IsActive (Odom Config))
    (s <- get ;;
     call (CallAddOdometry TimeOld TimeNow) ;;
     put (setGraph s (AddOdometry (Graph s) (Type_ (Odom Config)) Odom3
                                  (Measurements s) TimeOld TimeNow))).

(** *** Measure *)

(** The body of the [Prior3] branch, on the graph. *)
Definition AddPrior (Config : FactorGraphConfig) (TimeNow : Q) (g : FactorGraph)
  : FactorGraph :=
  (** prior position *)
  let PriorPoint := NewData Point3 TimeNow in
  (** define prior point *)
  let Point := getElementMean g POSITION_STATE TimeNow in
  let Point := Vec.set Point 2 (Vec.at_ (Param (Prior Config)) 2) in
  let PriorPoint := setMean PriorPoint Point in
  (** prior uncertainty *)
  let PriorNoise :=
    setSqrtInformationDiagonal (Vec.tail (Param (Prior Config)) 3) in
  (** prior factor *)
  snd (addFactor g Prior3 [mkStateID POSITION_STATE TimeNow 0] PriorPoint PriorNoise).

Definition Measure (Config : FactorGraphConfig) (TimeOld TimeNow : Q) : M unit :=
  (** pseudo range measurements from GNSS *)
  when (IsActive (GNSS Config))
    (s <- get ;;
     call (CallAddGNSS TimeOld TimeNow) ;;
     put (setGraph s (AddGNSS (Graph s) Config (Measurements s) TimeOld TimeNow))) ;;
  (** optional prior for the first position *)
  when (IsActive (Prior Config) && FactorType_eqb (Type_ (Prior Config)) Prior3)
    (onGraph (AddPrior Config TimeNow)).

(** *** InitGraph *)

(** The body of [if (!IsInitialized)], on the graph. *)
Definition AddAnchor (TimeInitial : Q) (g : FactorGraph) : FactorGraph :=
  (** add the first position *)
  let g := snd (addState g POSITION_STATE Point3 TimeInitial) in
  (** add position prior at [0,0,0] *)
  let Pos := NewData Point3 TimeInitial in
  let Pos := setMean Pos (Vec.zero 3) in
  let Gauss := setStdDevSharedDiagonal 3 1 in
  let g := snd (addFactor g Prior3 [mkStateID POSITION_STATE TimeInitial 0] Pos Gauss) in
  (** freeze initial states *)
  setAllConstantOutsideWindow g 1 TimeInitial.

Definition InitGraph (Config : FactorGraphConfig) (TimeInitial : Q) : M unit :=
  IsInitialized <-
    (if IsActive (GNSS Config) then
       (** use the first GNSS measurements to init the position as well
           as the tangent plane *)
       s <- get ;;
       call (CallInitWithGNSS TimeInitial (1 # 10)) ;;
       (let '(g, m, f) :=
          InitWithGNSS (Graph s) (Measurements s) Config (LocalFrame s)
                       TimeInitial (1 # 10) in
        put (mkAppState g m f (Result s) (Summary s))) ;;
       ret true
     else ret false) ;;
  (if IsActive (IMU Config) then
     (** uses all IMU measurements in the first 2 seconds to init the
         IMU biases *)
     s <- get ;;
     call (CallInitIMU TimeInitial 2) ;;
     (let '(g, m) := InitIMU (Graph s) (Measurements s) TimeInitial 2 in
      put (mkAppState g m (LocalFrame s) (Result s) (Summary s)))
   else if IsActive (Odom Config) then
     (** add generic rotation prior *)
     s <- get ;;
     call (CallInitOdom TimeInitial) ;;
     put (setGraph s (InitOdom (Graph s) (Type_ (Odom Config)) TimeInitial))
   else ret tt) ;;
  (** add prior if no initialization was done *)
  when (negb IsInitialized) (onGraph (AddAnchor TimeInitial)).

(** *** CreateGraphAndSolve *)

(** [Solve(Graph, Config, Summary, ForceSolve)] *)
Definition doSolve (Config : FactorGraphConfig) (ForceSolve : bool) : M unit :=
  s <- get ;;
  call (CallSolve (getTimestamp (Summary s)) ForceSolve) ;;
  (let '(g, d) := Solve (Graph s) Config (Summary s) ForceSolve in
   put (setSummary (setGraph s g) d)).

(** [Summary.setValueScalar(DurationTotal, IterationTimer.getSeconds())] *)
Definition doStampDuration : M unit :=
  s <- get ;; put (setSummary s (StampDuration (Summary s))).

(** [Save(Graph, Config, Summary, Result, Final)] *)
Definition doSave (Config : FactorGraphConfig) (Final : bool) : M unit :=
  s <- get ;;
  call (CallSave Final) ;;
  (let '(d, r) := Save (Graph s) Config (Summary s) (Result s) Final in
   put (setResult (setSummary s d) r)).

(** The body of the [do ... while] loop.  The force flag and the progress
    are computed exactly here; [Binary64.App.Iteration] computes them in
    double precision. *)
Definition Iteration (Config : FactorGraphConfig)
           (TimeFirst TimeLast TimeOld TimeNow : Q) : M unit :=
  (** update current timestamp and reset durations *)
  s <- get ;;
  put (setSummary s (NewData IterationSummary TimeNow)) ;;
  (** predict next state *)
  when (Num.gtb TimeNow TimeFirst) (Predict Config TimeOld TimeNow) ;;
  (** add measurements *)
  Measure Config TimeOld TimeNow ;;
  (** refine error model initially *)
  when (Num.eqb TimeNow TimeFirst)
    (call CallGraphSolve ;;
     onGraph (fun g => solve g (SolverConfig Config))) ;;
  (** solve graph, force solve every 60 seconds *)
  doSolve Config
          (Num.ltb (Num.fmod TimeNow 60) ((TimeNow - TimeOld) * (11 # 10))) ;;
  (** save iteration timestamp *)
  doStampDuration ;;
  (** save result *)
  doSave Config false ;;
  (** print progress every 10% *)
  call (CallPrintProgress ((TimeNow - TimeFirst) / (TimeLast - TimeFirst) * 100)).

(** One pass of the loop body, as the loop saw it: the values of
    [TimeOld] and [TimeNow] and the calls made. *)
Record Step : Type := mkStep {
  StepTimeOld : Q;
  StepTimeNow : Q;
  StepCalls : list Call
}.

Record LoopResult : Type := mkLoopResult {
  LoopSteps : list Step;
  (** [false] when the passes allowed were used up before
      [IncrementTime] answered [false] *)
  LoopFinished : bool;
  LoopTimeOld : Q;
  LoopTimeNow : Q;
  LoopState : State
}.

(** [do { ... } while (IncrementTime(Config, Measurements, TimeOld,
    TimeNow, TimeLast));], for at most [fuel] passes. *)
Fixpoint UpdateLoop (fuel : nat) (Config : FactorGraphConfig)
         (TimeFirst TimeLast TimeOld TimeNow : Q) (s : State) : LoopResult :=
  match fuel with
  | O => mkLoopResult [] false TimeOld TimeNow s
  | S fuel' =>
      let '(_, s1, calls) := Iteration Config TimeFirst TimeLast TimeOld TimeNow s in
      let step := mkStep TimeOld TimeNow calls in
      match IncrementTime Config (Measurements s1) TimeOld TimeNow TimeLast with
      | (true, (TimeOld', TimeNow')) =>
          let r := UpdateLoop fuel' Config TimeFirst TimeLast TimeOld' TimeNow' s1 in
          mkLoopResult (step :: LoopSteps r) (LoopFinished r)
                       (LoopTimeOld r) (LoopTimeNow r) (LoopState r)
      | (false, (TimeOld', TimeNow')) =>
          mkLoopResult [step] true TimeOld' TimeNow' s1
      end
  end.

(** What follows the loop. *)
Definition Finish (TESTMODE : bool) (Config : FactorGraphConfig) (TimeNow : Q)
  : M unit :=
  (** calculate and save final solution *)
  s <- get ;;
  put (setSummary s (setTimestamp (Summary s) TimeNow)) ;;
  doSolve Config true ;;
  doStampDuration ;;
  doSave Config true ;;
  (** convert back in a global frame *)
  s <- get ;;
  when (IsActive (GNSS Config) && isInitialized (LocalFrame s))
    ((** save position in a local coordinate system (don't do this for
         automated tests) *)
     when (negb TESTMODE)
       (call (CallWriteDataToFile (OutputFile Config ++ "_local") POSITION_STATE
                                  false)) ;;
     (** convert to global frame *)
     call CallConvertAllStatesToGlobal ;;
     put (setResult s (convertAllStatesToGlobal (LocalFrame s) (Result s)
                                                POSITION_STATE))) ;;
  (** print last report *)
  call CallPrintReport.

Definition NoFirstTimestamp : string :=
  "Could not find first Timestamp! Exit now!"%string.
Definition NoLastTimestamp : string :=
  "Could not find last Timestamp! Exit now!"%string.

(** A run of [CreateGraphAndSolve]: the value it returns ([None] when
    the loop was cut short by [fuel]), the calls before the loop, the
    passes of the loop, the calls after it, and the objects at the
    end. *)
Record Run : Type := mkRun {
  Returned : option Z;
  Prologue : list Call;
  Steps : list Step;
  Epilogue : list Call;
  Final : State
}.

(** [TESTMODE] is the compile-time switch of the same name; [Result0] is
    the result set the caller passes in.  The source asks for the first
    timestamp twice in a row; the second answer is the one it tests. *)
Definition CreateGraphAndSolve (TESTMODE : bool) (fuel : nat)
           (Config : FactorGraphConfig) (Result0 : StateDataSet) : Run :=
  (** read input data *)
  let Input := ReadDataFromFile (InputFile Config) in
  let read := [CallReadDataFromFile (InputFile Config)] in
  (** the graph, the converter and the summary *)
  let s0 := mkAppState EmptyGraph Input NewConverter Result0
                       (NewData IterationSummary 0) in
  (** get relevant timestamps *)
  match GetFirstTimestamp Input Config with
  | None => mkRun (Some 1%Z) (read ++ [CallPRINT_ERROR NoFirstTimestamp]) [] [] s0
  | Some TimeFirst =>
      match GetLastTimestamp Input Config with
      | None => mkRun (Some 1%Z) (read ++ [CallPRINT_ERROR NoLastTimestamp]) [] [] s0
      | Some TimeLast =>
          (** init factor graph *)
          let '(_, s1, init) := InitGraph Config TimeFirst s0 in
          (** update loop *)
          let r := UpdateLoop fuel Config TimeFirst TimeLast
                              (TimeFirst - 1) TimeFirst s1 in
          if LoopFinished r then
            let '(_, s2, fin) := Finish TESTMODE Config (LoopTimeNow r) (LoopState r) in
            (** successful end *)
            mkRun (Some 0%Z) (read ++ init) (LoopSteps r) fin s2
          else
            mkRun None (read ++ init) (LoopSteps r) [] (LoopState r)
      end
  end.

(** *** main (compiled without [TESTMODE])

    The set-up of the logging library in the first line of [main] is left
    out. *)

Definition SomethingWrong : string :=
  "Something gone wrong while estimating GNSS position!"%string.

(** The exit status of the process ([None] when the loop was cut short)
    and the calls [main] itself makes after [CreateGraphAndSolve]. *)
Definition main (fuel : nat) (ArgV : list string)
  : option Z * Run * list Call :=
  (** parse command line arguments *)
  let Config := ReadCommandLineOptions ArgV in
  (** solve the estimation problem, with a fresh result set *)
  let run := CreateGraphAndSolve false fuel Config [] in
  match Returned run with
  | None => (None, run, [])
  | Some code =>
      if negb (Z.eqb code 0) then
        (Some 0%Z, run, [CallPRINT_ERROR SomethingWrong])
      else
        (Some 0%Z, run,
         [ (** export position estimate to file *)
           CallWriteDataToFile (OutputFile Config) POSITION_STATE false;
           (** export additional estimates *)
           CallWriteDataToFile (OutputFile Config) ORIENTATION_STATE true;
           CallWriteDataToFile (OutputFile Config) ANGLE_STATE true;
           (** export timing information *)
           CallWriteDataToFile (OutputFile Config) SOLVE_TIME_STATE true ])
  end.

End WithPool.

End App.

(** ** What the statements need *)

Module Props.

Import Engine App.

(** The assumptions on [IncrementTime], a helper the application calls
    and does not define. *)

(** On success time moves forward. *)
Definition moves_forward (Pool : AppPool) : Prop :=
  forall Config m TimeOld TimeNow TimeLast TimeOld' TimeNow',
    IncrementTime Config m TimeOld TimeNow TimeLast = (true, (TimeOld', TimeNow')) ->
    TimeNow < TimeNow'.

(** Each success uses up some of a finite supply. *)
Definition bounded_by (Pool : AppPool) (rank : SensorDataSet -> Q -> nat) : Prop :=
  forall Config m TimeOld TimeNow TimeLast TimeOld' TimeNow',
    IncrementTime Config m TimeOld TimeNow TimeLast = (true, (TimeOld', TimeNow')) ->
    (rank m TimeNow' < rank m TimeNow)%nat.

(** The calls that start an optimisation. *)
Definition is_solver_call (c : Call) : bool :=
  match c with
  | CallGraphSolve | CallSolve _ _ => true
  | _ => false
  end.

Definition is_Solve (c : Call) : bool :=
  match c with
  | CallSolve _ _ => true
  | _ => false
  end.

(** The calls of the prediction phase. *)
Definition is_motion_call (c : Call) : bool :=
  match c with
  | CallAddIMU _ _ | CallAddOdometry _ _ => true
  | _ => false
  end.

(** The calls that build or solve the graph. *)
Definition is_graph_call (c : Call) : bool :=
  match c with
  | CallReadDataFromFile _ | CallPRINT_ERROR _ | CallPrintProgress _
  | CallWriteDataToFile _ _ _ | CallPrintReport => false
  | _ => true
  end.

(** The calls of one pass of the loop, in order. *)
Definition pass_calls (Config : FactorGraphConfig)
           (TimeFirst TimeLast TimeOld TimeNow : Q) : list Call :=
  (if Num.gtb TimeNow TimeFirst then
     (if IsActive (IMU Config) then [CallAddIMU TimeOld TimeNow] else [])
     ++ (if IsActive (Odom Config) then [CallAddOdometry TimeOld TimeNow] else [])
   else [])
  ++ (if IsActive (GNSS Config) then [CallAddGNSS TimeOld TimeNow] else [])
  ++ (if Num.eqb TimeNow TimeFirst then [CallGraphSolve] else [])
  ++ [CallSolve TimeNow
                (Num.ltb (Num.fmod TimeNow 60) ((TimeNow - TimeOld) * (11 # 10)));
      CallSave false;
      CallPrintProgress ((TimeNow - TimeFirst) / (TimeLast - TimeFirst) * 100)].

(** The readings of the claims that the code does not meet. *)


(** "The run aborts with a nonzero process exit status." *)
Definition nonzero_exit (status : option Z) : Prop :=
  exists code, status = Some code /\ code <> 0%Z.

(** "Exactly one position StateVariable at the initial timestamp with
    mean [0,0,0] and exactly one prior factor whose standard deviation
    equals the one given in the parameter vector." *)
Definition prior_as_configured (Config : FactorGraphConfig) (TimeInitial : Q)
           (g : FactorGraph) : Prop :=
  (exists v, states_named g POSITION_STATE = [v]
             /\ Timestamp (Key v) = TimeInitial
             /\ Mean v = [0; 0; 0])
  /\ (exists f, factors_of_kind g Prior3 = [f]
                /\ Forall2 Qeq (StdDev (Noise f))
                           (Vec.tail (Param (Prior Config)) 3)).

(** "That single anchor variable is frozen." *)
Definition anchor_frozen (TimeInitial : Q) (g : FactorGraph) : Prop :=
  exists v, StateData g = [v]
            /\ Key v = mkStateID POSITION_STATE TimeInitial 0
            /\ Constant v = true.

(** More kinds of calls. *)


Definition is_Save (c : Call) : bool :=
  match c with
  | CallSave _ => true
  | _ => false
  end.

Definition is_write (c : Call) : bool :=
  match c with
  | CallWriteDataToFile _ _ _ => true
  | _ => false
  end.

(** The calls of the back-conversion at the end of a run. *)
Definition is_conversion_call (c : Call) : bool :=
  match c with
  | CallWriteDataToFile _ _ _ | CallConvertAllStatesToGlobal => true
  | _ => false
  end.

(** All calls of a run, in order. *)
Definition all_calls (run : Run) : list Call :=
  Prologue run ++ concat (map StepCalls (Steps run)) ++ Epilogue run.

(** The objects [CreateGraphAndSolve] sets up before it looks at the
    timestamps. *)
Definition initial_state (Pool : AppPool) (Config : FactorGraphConfig)
           (Result0 : StateDataSet) : State :=
  mkAppState EmptyGraph (ReadDataFromFile (InputFile Config)) NewConverter Result0
             (NewData IterationSummary 0).

End Props.

(** ** A small pool to run the application on examples

    Modelled from the spec: the time helpers walk through "the first/last
    timestamp in the relevant active streams", and the loop is "strictly
    sequential over increasing timestamps".  Here every measurement of the
    data set is relevant.  The graph helpers add the position variable they
    are about; the solver leaves the graph as it is. *)

Module Timeline.

Import Engine App.

Definition stamps (m : SensorDataSet) : list Q := map getTimestamp m.

Definition qmin (a b : Q) : Q := if Qle_bool a b then a else b.
Definition qmax (a b : Q) : Q := if Qle_bool a b then b else a.

Definition minimum (ts : list Q) : option Q :=
  match ts with
  | [] => None
  | t :: rest => Some (fold_left qmin rest t)
  end.

Definition maximum (ts : list Q) : option Q :=
  match ts with
  | [] => None
  | t :: rest => Some (fold_left qmax rest t)
  end.

(** The earliest timestamp after [t]. *)
Definition next_after (t : Q) (ts : list Q) : option Q :=
  minimum (filter (Num.ltb t) ts).

(** How many timestamps lie after [t]. *)
Definition remaining (m : SensorDataSet) (t : Q) : nat :=
  length (filter (Num.ltb t) (stamps m)).

Definition increment (m : SensorDataSet) (TimeOld TimeNow TimeLast : Q)
  : bool * (Q * Q) :=
  match next_after TimeNow (stamps m) with
  | Some t =>
      if Num.gtb t TimeLast then (false, (TimeOld, TimeNow))
      else (true, (TimeNow, t))
  | None => (false, (TimeOld, TimeNow))
  end.

Definition addPosition (g : FactorGraph) (t : Q) : FactorGraph :=
  snd (addState g POSITION_STATE Point3 t).

Definition Pool (Config : FactorGraphConfig) (Data : SensorDataSet) : AppPool := {|
  ReadCommandLineOptions := fun _ => Config;
  ReadDataFromFile := fun _ => Data;
  GetFirstTimestamp := fun m _ => minimum (stamps m);
  GetLastTimestamp := fun m _ => maximum (stamps m);
  IncrementTime := fun _ m TimeOld TimeNow TimeLast =>
                     increment m TimeOld TimeNow TimeLast;
  InitWithGNSS := fun g m _ f TimeInitial _ =>
                    (addPosition g TimeInitial, m,
                     mkConverter true (Origin f) (Rotation f));
  InitIMU := fun g m _ _ => (g, m);
  InitOdom := fun g _ _ => g;
  AddIMU := fun g _ _ _ TimeNow => addPosition g TimeNow;
  AddOdometry := fun g _ _ _ _ TimeNow => addPosition g TimeNow;
  AddGNSS := fun g _ _ _ TimeNow => addPosition g TimeNow;
  solve := fun g _ => g;
  Solve := fun g _ d _ => (g, d);
  Save := fun _ _ d r _ => (d, r);
  StampDuration := fun d => d;
  convertAllStatesToGlobal := fun _ r _ => r
|}.

(** Example inputs. *)

Definition off : SensorConfig := mkSensorConfig false (OtherFactor 0) [].
Definition on : SensorConfig := mkSensorConfig true (OtherFactor 0) [].

Definition at_time (t : Q) : SensorData := mkSensorData (Some Point3) t [0; 0; 0] [1; 1; 1].

(** Nothing active. *)
Definition Bare : FactorGraphConfig :=
  mkConfig off off off off 60 (mkSolverOptions []) "in" "out".

(** Only the prior, at height 5 and with 2 for each deviation. *)
Definition PriorOnly : FactorGraphConfig :=
  mkConfig off off off (mkSensorConfig true Prior3 [0; 0; 5; 2; 2; 2])
           60 (mkSolverOptions []) "in" "out".

(** Inertial and odometry prediction. *)
Definition Moving : FactorGraphConfig :=
  mkConfig off on on off 60 (mkSolverOptions []) "in" "out".

(** A run on three timestamps, and a run that starts at 30 s. *)
Definition ThreeFixes : SensorDataSet := [at_time 30; at_time 31; at_time 90].

(** The objects [CreateGraphAndSolve] starts with. *)
Definition Fresh : State :=
  mkAppState EmptyGraph [] NewConverter [] (NewData IterationSummary 0).

End Timeline.

(** ** The same code in double precision

    The definitions of this part compute with IEEE 754 binary64 numbers
    (Rocq's primitive [float]), as the compiled code does: every sum,
    difference, product and quotient is rounded to the nearest double, a
    division by zero gives an infinity or NaN, and comparisons with NaN are
    false.  What the files under study take from the rest of the library is
    left open: the objects of the library are the types of a [Library], its
    functions the operations of it. *)

Module Binary64.

Import Floats.
Local Open Scope float_scope.

(** *** Numbers *)

Module Num.

(** [a < b], [a > b], [a >= b] and [a == b] on doubles. *)
Definition ltb (a b : float) : bool := a <? b.
Definition gtb (a b : float) : bool := b <? a.
Definition geb (a b : float) : bool := b <=? a.
Definition eqb (a b : float) : bool := a =? b.

(** The literals [0.1] and [1.1] of the source: the doubles nearest to
    one tenth and to eleven tenths. *)
Definition literal_0_1 : float := 0x1.999999999999ap-4.
Definition literal_1_1 : float := 0x1.199999999999ap+0.

(** C's [fmod(x, y)]: the exact value of [x - n*y] for the integer [n]
    that gives a result with the sign of [x] and a magnitude below that
    of [y]; NaN if [x] is infinite or [y] is zero, [x] if [y] is
    infinite.  With the two finite numbers written on their common
    exponent [e] as [X * 2^e] and [Y * 2^e], the result is
    [(X mod Y) * 2^e], which is a double again. *)
Definition SFfmod (x y : spec_float) : spec_float :=
  match x, y with
  | S754_nan, _ => S754_nan
  | _, S754_nan => S754_nan
  | S754_infinity _, _ => S754_nan
  | _, S754_zero _ => S754_nan
  | S754_zero s, _ => S754_zero s
  | S754_finite _ _ _, S754_infinity _ => x
  | S754_finite sx mx ex, S754_finite _ my ey =>
      let e := Z.min ex ey in
      let X := (Zpos mx * 2 ^ (ex - e))%Z in
      let Y := (Zpos my * 2 ^ (ey - e))%Z in
      let R := (X mod Y)%Z in
      binary_normalize prec emax (if sx then - R else R)%Z e sx
  end.

Definition fmod (x y : float) : float :=
  SF2Prim (SFfmod (Prim2SF x) (Prim2SF y)).

(** The conversion of a [size_t] to [double], rounded to nearest. *)
Definition of_size (n : nat) : float :=
  SF2Prim (binary_normalize prec emax (Z.of_nat n) 0 false).

End Num.

(** *** Vectors *)

Definition Vector := list float.

Module Vec.

(** [Vector v(n); v.setZero();] *)
Definition zero (n : nat) : Vector := repeat 0 n.

(** [a += b].  Eigen demands equal sizes; on such inputs this is the
    componentwise sum.  (On inputs Eigen rejects, the model keeps the
    common prefix.) *)
Fixpoint add (a b : Vector) : Vector :=
  match a, b with
  | x :: a', y :: b' => (x + y) :: add a' b'
  | _, _ => []
  end.

(** [v.cwiseInverse()]: [1/x] for each coefficient. *)
Definition cwiseInverse (v : Vector) : Vector := map (fun x => 1 / x) v.

(** [v /= s] *)
Definition div (v : Vector) (s : float) : Vector := map (fun x => x / s) v.

(** [v(i)], with 0 outside the vector. *)
Definition at_ (v : Vector) (i : nat) : float := nth i v 0.

(** [v(i) = x] *)
Fixpoint set (v : Vector) (i : nat) (x : float) : Vector :=
  match v, i with
  | [], _ => []
  | _ :: v', O => x :: v'
  | y :: v', S i' => y :: set v' i' x
  end.

(** [v.tail(n)]: the last [n] coefficients. *)
Definition tail (v : Vector) (n : nat) : Vector := skipn (length v - n) v.

End Vec.

(** *** Measurements

    As in the first part, a measurement is its type, timestamp, mean and
    the coefficients of its covariance. *)

Record SensorData : Type := mkSensorData {
  getType : option DataType;
  getTimestamp : float;
  getMean : Vector;
  getCovariance : Vector
}.

Definition setTimestamp (d : SensorData) (t : float) : SensorData :=
  mkSensorData (getType d) t (getMean d) (getCovariance d).

Definition setMean (d : SensorData) (m : Vector) : SensorData :=
  mkSensorData (getType d) (getTimestamp d) m (getCovariance d).

Definition setCovariance (d : SensorData) (c : Vector) : SensorData :=
  mkSensorData (getType d) (getTimestamp d) (getMean d) c.

Definition DefaultSensorData : SensorData := mkSensorData None 0 [] [].

(** *** Resampling.cpp *)

Module Resampling.

Definition Logged (A : Type) : Type := (A * list string)%type.

Definition ret {A} (a : A) : Logged A := (a, []).

Definition bind {A B} (m : Logged A) (f : A -> Logged B) : Logged B :=
  let (a, l1) := m in let (b, l2) := f a in (b, l1 ++ l2).

Definition PRINT_ERROR (msg : string) : Logged unit := (tt, [msg]).

Definition NoMeasurement : string := "There is no Measurement!"%string.

(** The three accumulators of the loop in [AverageMeasurement]. *)
Record Sums : Type := mkSums {
  Time : float;
  MeanSum : Vector;
  Info : Vector
}.

(** One pass of [for (const SensorData & Measurement : Input)]. *)
Definition accumulate (s : Sums) (Measurement : SensorData) : Sums :=
  mkSums (Time s + getTimestamp Measurement)
         (Vec.add (MeanSum s) (getMean Measurement))
         (Vec.add (Info s) (Vec.cwiseInverse (getCovariance Measurement))).

Definition AverageMeasurement (Input : list SensorData) : Logged SensorData :=
  match Input with
  | [] =>
      (** catch empty vectors *)
      bind (PRINT_ERROR NoMeasurement) (fun _ => ret DefaultSensorData)
  | [single] =>
      (** return single element vectors directly *)
      ret single
  | front :: _ =>
      (** create vectors *)
      let start := mkSums 0 (Vec.zero (length (getMean front)))
                            (Vec.zero (length (getCovariance front))) in
      let s := fold_left accumulate Input start in
      let Mean := Vec.div (MeanSum s) (Num.of_size (length Input)) in
      let Time := Time s / Num.of_size (length Input) in
      let Output := last Input DefaultSensorData in
      let Output := setTimestamp Output Time in
      let Output := setMean Output Mean in
      let Output := setCovariance Output (Vec.cwiseInverse (Info s)) in
      ret Output
  end.

(** The variables the loop of [SampleMeasurementsDown] updates. *)
Record Sampler : Type := mkSampler {
  Output : list SensorData;
  AveragingWindow : list SensorData;
  TimeNext : float;
  Errors : list string
}.

(** One pass of [for (const SensorData &Sensor : Input)]. *)
Definition sample_step (SampleTime TimeMax : float) (st : Sampler) (Sensor : SensorData)
  : Sampler :=
  (** group measurements in periods of sample time length *)
  let Window := AveragingWindow st ++ [Sensor] in
  (** average when period is over *)
  if Num.geb (getTimestamp Sensor) (TimeNext st)
     || Num.eqb (getTimestamp Sensor) TimeMax
  then
    let (Average, logged) := AverageMeasurement Window in
    (** set timestamp to last used measurements *)
    let Stamped := setTimestamp Average (getTimestamp (last Window DefaultSensorData)) in
    (** set end of new window and clear old one *)
    mkSampler (Output st ++ [Stamped]) [] (TimeNext st + SampleTime)
              (Errors st ++ logged)
  else
    mkSampler (Output st) Window (TimeNext st) (Errors st).

Definition SampleMeasurementsDown (Input : list SensorData) (SampleTime : float)
  : Logged (list SensorData) :=
  match Input with
  | [] => bind (PRINT_ERROR NoMeasurement) (fun _ => ret [])
  | front :: _ =>
      let Time := getTimestamp front in
      let TimeNext := Time + SampleTime in
      let TimeMax := getTimestamp (last Input DefaultSensorData) in
      let st := fold_left (sample_step SampleTime TimeMax) Input
                          (mkSampler [] [] TimeNext []) in
      (Output st, Errors st)
  end.

(** The words of the description of the average, for doubles: a sum is
    taken in the order of the input, starting from zero, and every
    operation is rounded. *)

Definition sum (xs : list float) : float := fold_left PrimFloat.add xs 0.

Definition arithmetic_mean (xs : list float) : float :=
  sum xs / Num.of_size (length xs).

(** Inverse of the sum of the inverses. *)
Definition fused (xs : list float) : float := 1 / sum (map (fun x => 1 / x) xs).

(** The [i]-th coefficients of a family of vectors. *)
Definition component (i : nat) (vs : list Vector) : list float :=
  map (fun v => Vec.at_ v i) vs.

End Resampling.

(** *** App_GNSS.cpp *)

Module App.

(** The factor types: the file names [libRSF::FactorType::Prior3] and
    hands the others through. *)
Inductive FactorType : Type :=
| Prior3
| OtherFactor (tag : nat).

Definition FactorType_eqb (a b : FactorType) : bool :=
  match a, b with
  | Prior3, Prior3 => true
  | OtherFactor m, OtherFactor n => Nat.eqb m n
  | _, _ => false
  end.

(** The fields of the configuration the file reads. *)
Record SensorConfig : Type := mkSensorConfig {
  IsActive : bool;
  Type_ : FactorType;
  Param : Vector
}.

Record SolverOptions : Type := mkSolverOptions {
  Tolerances : list float
}.

Record FactorGraphConfig : Type := mkConfig {
  GNSS : SensorConfig;
  IMU : SensorConfig;
  Odom : SensorConfig;
  Prior : SensorConfig;
  SolverConfig : SolverOptions;
  InputFile : string;
  OutputFile : string
}.

(** [libRSF::StateID(Name, Time)] and [libRSF::StateID(Name, Time,
    Number)], as written in the source. *)
Inductive StateID : Type :=
| StateID2 (ID : string) (Timestamp : float)
| StateID3 (ID : string) (Timestamp : float) (Number : nat).

(** A [libRSF::GaussianDiagonal<3>] after the one call that fills it. *)
Inductive GaussianDiagonal3 : Type :=
| SqrtInformationDiagonal (v : Vector)
| StdDevSharedDiagonal (s : float).

(** What the file uses and does not define: the objects of the library,
    the methods of the factor graph, the helpers of the application pool,
    the solver entry points, and input and output.  Each function takes
    what the source passes, and gives back what the source lets it change
    (arguments taken by non-const reference). *)
Class Library : Type := {
  FactorGraph : Type;
  SensorDataSet : Type;
  StateDataSet : Type;
  TangentPlaneConverter : Type;
  Data : Type;
  (** the name of the position series, [#define]d in the headers *)
  POSITION_STATE : string;
  (** default-constructed objects *)
  NewGraph : FactorGraph;
  NewConverter : TangentPlaneConverter;
  (** [libRSF::Data D(Type, Time);] and its setters *)
  NewData : DataType -> float -> Data;
  DataSetMean : Data -> Vector -> Data;
  DataSetTimestamp : Data -> float -> Data;
  (** [Summary.setValueScalar(DurationTotal, IterationTimer.getSeconds())] *)
  StampDuration : Data -> Data;
  isInitialized : TangentPlaneConverter -> bool;
  (** methods of the factor graph *)
  addState : FactorGraph -> string -> DataType -> float -> FactorGraph;
  addFactor :
    FactorGraph -> FactorType -> StateID -> Data -> GaussianDiagonal3 -> FactorGraph;
  setAllConstantOutsideWindow : FactorGraph -> float -> float -> FactorGraph;
  (** [Graph.getStateData().getElement(Name, Time).getMean()] *)
  getElementMean : FactorGraph -> string -> float -> Vector;
  (** [Graph.solve(Options)] *)
  solve : FactorGraph -> SolverOptions -> FactorGraph;
  (** helpers *)
  ReadDataFromFile : string -> SensorDataSet;
  GetFirstTimestamp : SensorDataSet -> FactorGraphConfig -> option float;
  GetLastTimestamp : SensorDataSet -> FactorGraphConfig -> option float;
  IncrementTime :
    FactorGraphConfig -> SensorDataSet -> float -> float -> float ->
    bool * (float * float);
  InitWithGNSS :
    FactorGraph -> SensorDataSet -> FactorGraphConfig -> TangentPlaneConverter ->
    float -> float -> FactorGraph * SensorDataSet * TangentPlaneConverter;
  InitIMU :
    FactorGraph -> SensorDataSet -> float -> float -> FactorGraph * SensorDataSet;
  InitOdom : FactorGraph -> FactorType -> float -> FactorGraph;
  AddIMU :
    FactorGraph -> FactorGraphConfig -> SensorDataSet -> float -> float -> FactorGraph;
  AddOdometry :
    FactorGraph -> FactorType -> DataType -> SensorDataSet -> float -> float ->
    FactorGraph;
  AddGNSS :
    FactorGraph -> FactorGraphConfig -> SensorDataSet -> float -> float -> FactorGraph;
  (** [Solve(Graph, Config, Summary, ForceSolve)] *)
  Solve : FactorGraph -> FactorGraphConfig -> Data -> bool -> FactorGraph * Data;
  Save :
    FactorGraph -> FactorGraphConfig -> Data -> StateDataSet -> bool ->
    Data * StateDataSet;
  convertAllStatesToGlobal :
    TangentPlaneConverter -> StateDataSet -> string -> StateDataSet
}.

(** The calls that leave the file, with the arguments that tell them
    apart; the measurement handed to [addFactor] is not part of the
    label. *)
Inductive Call : Type :=
| CallReadDataFromFile (File : string)
| CallPRINT_ERROR (Message : string)
| CallInitWithGNSS (TimeInitial Sigma : float)
| CallInitIMU (TimeInitial Window : float)
| CallInitOdom (TimeInitial : float)
| CallAddState (Name : string) (Type_ : DataType) (Timestamp : float)
| CallAddFactor (Kind : FactorType) (State : StateID) (Noise : GaussianDiagonal3)
| CallSetAllConstantOutsideWindow (TimeWindow CurrentTime : float)
| CallGetElement (Name : string) (Timestamp : float)
| CallAddIMU (TimeOld TimeNow : float)
| CallAddOdometry (TimeOld TimeNow : float)
| CallAddGNSS (TimeOld TimeNow : float)
| CallGraphSolve
| CallSolve (ForceSolve : bool)
| CallSave (Final : bool)
| CallPrintProgress (Percent : float)
| CallWriteDataToFile (File Name : string) (Append : bool)
| CallConvertAllStatesToGlobal
| CallPrintReport.

(** The objects [CreateGraphAndSolve] owns and hands around by
    reference. *)
Record State {Lib : Library} : Type := mkAppState {
  Graph : FactorGraph;
  Measurements : SensorDataSet;
  LocalFrame : TangentPlaneConverter;
  Result : StateDataSet;
  Summary : Data
}.

Arguments mkAppState {Lib} _ _ _ _ _.

Definition setGraph {Lib : Library} (s : State) (g : FactorGraph) : State :=
  mkAppState g (Measurements s) (LocalFrame s) (Result s) (Summary s).

Definition setSummary {Lib : Library} (s : State) (d : Data) : State :=
  mkAppState (Graph s) (Measurements s) (LocalFrame s) (Result s) d.

Definition setResult {Lib : Library} (s : State) (r : StateDataSet) : State :=
  mkAppState (Graph s) (Measurements s) (LocalFrame s) r (Summary s).

(** A computation changes the state and records the calls it makes. *)
Definition M {Lib : Library} (A : Type) : Type := State -> A * State * list Call.

Definition ret {Lib : Library} {A} (a : A) : M A := fun s => (a, s, []).

Definition bind {Lib : Library} {A B} (m : M A) (f : A -> M B) : M B :=
  fun s =>
    let '(a, s1, c1) := m s in
    let '(b, s2, c2) := f a s1 in
    (b, s2, c1 ++ c2).

Declare Scope b64_scope.
Delimit Scope b64_scope with b64.
Notation "m1 ;; m2" := (bind m1 (fun _ => m2))
  (at level 61, right associativity) : b64_scope.
Notation "x <- m1 ;; m2" := (bind m1 (fun x => m2))
  (at level 61, m1 at next level, right associativity) : b64_scope.
Open Scope b64_scope.

Definition get {Lib : Library} : M State := fun s => (s, s, []).
Definition put {Lib : Library} (s : State) : M unit := fun _ => (tt, s, []).
Definition call {Lib : Library} (c : Call) : M unit := fun s => (tt, s, [c]).
Definition onGraph {Lib : Library} (f : FactorGraph -> FactorGraph) : M unit :=
  fun s => (tt, setGraph s (f (Graph s)), []).
Definition when {Lib : Library} (b : bool) (m : M unit) : M unit :=
  if b then m else ret tt.

Definition calls_of {Lib : Library} {A} (m : M A) (s : State) : list Call :=
  snd (m s).
Definition state_of {Lib : Library} {A} (m : M A) (s : State) : State :=
  snd (fst (m s)).

Section WithLibrary.

Context {Lib : Library}.

(** **** Predict *)

Definition Predict (Config : FactorGraphConfig) (TimeOld TimeNow : float) : M unit :=
  (** IMU *)
  when (IsActive (IMU Config))
    (s <- get ;;
     call (CallAddIMU TimeOld TimeNow) ;;
     put (setGraph s (AddIMU (Graph s) Config (Measurements s) TimeOld TimeNow))) ;;
  (** Odometry *)
  when (IsActive (Odom Config))
    (s <- get ;;
     call (CallAddOdometry TimeOld TimeNow) ;;
     put (setGraph s (AddOdometry (Graph s) (Type_ (Odom Config)) Odom3
                                  (Measurements s) TimeOld TimeNow))).

(** **** Measure *)

Definition Measure (Config : FactorGraphConfig) (TimeOld TimeNow : float) : M unit :=
  (** pseudo range measurements from GNSS *)
  when (IsActive (GNSS Config))
    (s <- get ;;
     call (CallAddGNSS TimeOld TimeNow) ;;
     put (setGraph s (AddGNSS (Graph s) Config (Measurements s) TimeOld TimeNow))) ;;
  (** optional prior for the first position *)
  when (IsActive (Prior Config) && FactorType_eqb (Type_ (Prior Config)) Prior3)
    (s <- get ;;
     (** prior position *)
     let PriorPoint := NewData Point3 TimeNow in
     (** define prior point *)
     call (CallGetElement POSITION_STATE TimeNow) ;;
     let Point := getElementMean (Graph s) POSITION_STATE TimeNow in
     let Point := Vec.set Point 2 (Vec.at_ (Param (Prior Config)) 2) in
     let PriorPoint := DataSetMean PriorPoint Point in
     (** prior uncertainty *)
     let PriorNoise := SqrtInformationDiagonal (Vec.tail (Param (Prior Config)) 3) in
     (** prior factor *)
     call (CallAddFactor Prior3 (StateID2 POSITION_STATE TimeNow) PriorNoise) ;;
     put (setGraph s (addFactor (Graph s) Prior3 (StateID2 POSITION_STATE TimeNow)
                                PriorPoint PriorNoise))).

(** **** InitGraph *)

Definition InitGraph (Config : FactorGraphConfig) (TimeInitial : float) : M unit :=
  IsInitialized <-
    (if IsActive (GNSS Config) then
       (** use the first GNSS measurements to init the position as well
           as the tangent plane *)
       s <- get ;;
       call (CallInitWithGNSS TimeInitial Num.literal_0_1) ;;
       (let '(g, m, f) :=
          InitWithGNSS (Graph s) (Measurements s) Config (LocalFrame s)
                       TimeInitial Num.literal_0_1 in
        put (mkAppState g m f (Result s) (Summary s))) ;;
       ret true
     else ret false) ;;
  (if IsActive (IMU Config) then
     (** uses all IMU measurements in the first 2 seconds to init the
         IMU biases *)
     s <- get ;;
     call (CallInitIMU TimeInitial 2) ;;
     (let '(g, m) := InitIMU (Graph s) (Measurements s) TimeInitial 2 in
      put (mkAppState g m (LocalFrame s) (Result s) (Summary s)))
   else if IsActive (Odom Config) then
     (** add generic rotation prior *)
     s <- get ;;
     call (CallInitOdom TimeInitial) ;;
     put (setGraph s (InitOdom (Graph s) (Type_ (Odom Config)) TimeInitial))
   else ret tt) ;;
  (** add prior if no initialization was done *)
  when (negb IsInitialized)
    (s <- get ;;
     (** add the first position *)
     call (CallAddState POSITION_STATE Point3 TimeInitial) ;;
     let g := addState (Graph s) POSITION_STATE Point3 TimeInitial in
     (** add position prior at [0,0,0] *)
     let Pos := NewData Point3 TimeInitial in
     let Pos := DataSetMean Pos (Vec.zero 3) in
     let Gauss := StdDevSharedDiagonal 1 in
     call (CallAddFactor Prior3 (StateID3 POSITION_STATE TimeInitial 0) Gauss) ;;
     let g := addFactor g Prior3 (StateID3 POSITION_STATE TimeInitial 0) Pos Gauss in
     (** freeze initial states *)
     call (CallSetAllConstantOutsideWindow 1 TimeInitial) ;;
     put (setGraph s (setAllConstantOutsideWindow g 1 TimeInitial))).

(** **** CreateGraphAndSolve *)

(** [Solve(Graph, Config, Summary, ForceSolve)] *)
Definition doSolve (Config : FactorGraphConfig) (ForceSolve : bool) : M unit :=
  s <- get ;;
  call (CallSolve ForceSolve) ;;
  (let '(g, d) := Solve (Graph s) Config (Summary s) ForceSolve in
   put (setSummary (setGraph s g) d)).

(** [Summary.setValueScalar(DurationTotal, IterationTimer.getSeconds())] *)
Definition doStampDuration : M unit :=
  s <- get ;; put (setSummary s (StampDuration (Summary s))).

(** [Save(Graph, Config, Summary, Result, Final)] *)
Definition doSave (Config : FactorGraphConfig) (Final : bool) : M unit :=
  s <- get ;;
  call (CallSave Final) ;;
  (let '(d, r) := Save (Graph s) Config (Summary s) (Result s) Final in
   put (setResult (setSummary s d) r)).

(** The body of the [do ... while] loop.  The timer is left out: what it
    writes into the summary is [StampDuration]. *)
Definition Iteration (Config : FactorGraphConfig)
           (TimeFirst TimeLast TimeOld TimeNow : float) : M unit :=
  (** update current timestamp and reset durations *)
  s <- get ;;
  put (setSummary s (NewData IterationSummary TimeNow)) ;;
  (** predict next state *)
  when (Num.gtb TimeNow TimeFirst) (Predict Config TimeOld TimeNow) ;;
  (** add measurements *)
  Measure Config TimeOld TimeNow ;;
  (** refine error model initially *)
  when (Num.eqb TimeNow TimeFirst)
    (call CallGraphSolve ;;
     onGraph (fun g => solve g (SolverConfig Config))) ;;
  (** solve graph, force solve every 60 seconds *)
  doSolve Config
          (Num.ltb (Num.fmod TimeNow 60) ((TimeNow - TimeOld) * Num.literal_1_1)) ;;
  (** save iteration timestamp *)
  doStampDuration ;;
  (** save result *)
  doSave Config false ;;
  (** print progress every 10% *)
  call (CallPrintProgress ((TimeNow - TimeFirst) / (TimeLast - TimeFirst) * 100)).

(** One pass of the loop body, as the loop saw it: the values of
    [TimeOld] and [TimeNow], the objects when the pass began, the calls
    made, and the objects when it ended. *)
Record Step : Type := mkStep {
  StepTimeOld : float;
  StepTimeNow : float;
  StepBefore : State;
  StepCalls : list Call;
  StepAfter : State
}.

Record LoopResult : Type := mkLoopResult {
  LoopSteps : list Step;
  (** [false] when the passes allowed were used up before
      [IncrementTime] answered [false] *)
  LoopFinished : bool;
  LoopTimeOld : float;
  LoopTimeNow : float;
  LoopState : State
}.

(** [do { ... } while (IncrementTime(Config, Measurements, TimeOld,
    TimeNow, TimeLast));], for at most [fuel] passes. *)
Fixpoint UpdateLoop (fuel : nat) (Config : FactorGraphConfig)
         (TimeFirst TimeLast TimeOld TimeNow : float) (s : State) : LoopResult :=
  match fuel with
  | O => mkLoopResult [] false TimeOld TimeNow s
  | S fuel' =>
      let '(_, s1, calls) := Iteration Config TimeFirst TimeLast TimeOld TimeNow s in
      let step := mkStep TimeOld TimeNow s calls s1 in
      match IncrementTime Config (Measurements s1) TimeOld TimeNow TimeLast with
      | (true, (TimeOld', TimeNow')) =>
          let r := UpdateLoop fuel' Config TimeFirst TimeLast TimeOld' TimeNow' s1 in
          mkLoopResult (step :: LoopSteps r) (LoopFinished r)
                       (LoopTimeOld r) (LoopTimeNow r) (LoopState r)
      | (false, (TimeOld', TimeNow')) =>
          mkLoopResult [step] true TimeOld' TimeNow' s1
      end
  end.

(** What follows the loop. *)
Definition Finish (TESTMODE : bool) (Config : FactorGraphConfig) (TimeNow : float)
  : M unit :=
  (** calculate and save final solution *)
  s <- get ;;
  put (setSummary s (DataSetTimestamp (Summary s) TimeNow)) ;;
  doSolve Config true ;;
  doStampDuration ;;
  doSave Config true ;;
  (** convert back in a global frame *)
  s <- get ;;
  when (IsActive (GNSS Config) && isInitialized (LocalFrame s))
    ((** save position in a local coordinate system (don't do this for
         automated tests) *)
     when (negb TESTMODE)
       (call (CallWriteDataToFile (OutputFile Config ++ "_local") POSITION_STATE
                                  false)) ;;
     (** convert to global frame *)
     call CallConvertAllStatesToGlobal ;;
     put (setResult s (convertAllStatesToGlobal (LocalFrame s) (Result s)
                                                POSITION_STATE))) ;;
  (** print last report *)
  call CallPrintReport.

Definition NoFirstTimestamp : string :=
  "Could not find first Timestamp! Exit now!"%string.
Definition NoLastTimestamp : string :=
  "Could not find last Timestamp! Exit now!"%string.

(** A run of [CreateGraphAndSolve]: the value it returns ([None] when
    the loop was cut short by [fuel]), the calls before the loop, the
    passes of the loop, the calls after it, and the objects at the
    end. *)
Record Run : Type := mkRun {
  Returned : option Z;
  Prologue : list Call;
  Steps : list Step;
  Epilogue : list Call;
  Final : State
}.

(** The objects as declared at the top of [CreateGraphAndSolve], with the
    measurements read. *)
Definition Declared (Config : FactorGraphConfig) (Result0 : StateDataSet) : State :=
  mkAppState NewGraph (ReadDataFromFile (InputFile Config)) NewConverter Result0
             (NewData IterationSummary 0).

(** [TESTMODE] is the compile-time switch of the same name; [Result0] is
    the result set the caller passes in.  The source asks for the first
    timestamp twice in a row; the second answer is the one it tests. *)
Definition CreateGraphAndSolve (TESTMODE : bool) (fuel : nat)
           (Config : FactorGraphConfig) (Result0 : StateDataSet) : Run :=
  (** read input data *)
  let read := [CallReadDataFromFile (InputFile Config)] in
  let s0 := Declared Config Result0 in
  (** get relevant timestamps *)
  match GetFirstTimestamp (Measurements s0) Config with
  | None => mkRun (Some 1%Z) (read ++ [CallPRINT_ERROR NoFirstTimestamp]) [] [] s0
  | Some TimeFirst =>
      match GetLastTimestamp (Measurements s0) Config with
      | None => mkRun (Some 1%Z) (read ++ [CallPRINT_ERROR NoLastTimestamp]) [] [] s0
      | Some TimeLast =>
          (** init factor graph *)
          let '(_, s1, init) := InitGraph Config TimeFirst s0 in
          (** update loop *)
          let r := UpdateLoop fuel Config TimeFirst TimeLast
                              (TimeFirst - 1) TimeFirst s1 in
          if LoopFinished r then
            let '(_, s2, fin) := Finish TESTMODE Config (LoopTimeNow r) (LoopState r) in
            (** successful end *)
            mkRun (Some 0%Z) (read ++ init) (LoopSteps r) fin s2
          else
            mkRun None (read ++ init) (LoopSteps r) [] (LoopState r)
      end
  end.

End WithLibrary.

End App.

(** *** What the statements need *)

Module Props.

Import App.

Section WithLibrary.

Context {Lib : Library}.

(** The assumptions on [IncrementTime], a helper the application calls
    and does not define. *)

(** On success the old [TimeNow] becomes [TimeOld]. *)
Definition keeps_previous : Prop :=
  forall Config m TimeOld TimeNow TimeLast TimeOld' TimeNow',
    IncrementTime Config m TimeOld TimeNow TimeLast = (true, (TimeOld', TimeNow')) ->
    TimeOld' = TimeNow.

(** On success time moves forward. *)
Definition moves_forward : Prop :=
  forall Config m TimeOld TimeNow TimeLast TimeOld' TimeNow',
    IncrementTime Config m TimeOld TimeNow TimeLast = (true, (TimeOld', TimeNow')) ->
    Num.ltb TimeNow TimeNow' = true.

(** The passes are those of the [do ... while] loop: each pass after the
    first is the one [IncrementTime] announced at the end of the pass
    before it, and begins with the objects as that pass left them; after
    the last pass [IncrementTime] answered [false] if the loop has ended,
    and [true] if the passes allowed were used up. *)
Fixpoint chained (Config : FactorGraphConfig) (TimeLast : float) (ended : bool)
         (steps : list Step) : Prop :=
  match steps with
  | [] => True
  | [st] =>
      fst (IncrementTime Config (Measurements (StepAfter st))
                         (StepTimeOld st) (StepTimeNow st) TimeLast)
      = negb ended
  | st :: (next :: _) as rest =>
      IncrementTime Config (Measurements (StepAfter st))
                    (StepTimeOld st) (StepTimeNow st) TimeLast
      = (true, (StepTimeOld next, StepTimeNow next))
      /\ StepBefore next = StepAfter st
      /\ chained Config TimeLast ended rest
  end.

(** Whether a run has returned. *)
Definition has_returned (run : Run) : bool :=
  match Returned run with
  | Some _ => true
  | None => false
  end.

(** Each pass takes over the [TimeNow] of the pass before it as its
    [TimeOld]. *)
Fixpoint follows (Previous : float) (steps : list Step) : Prop :=
  match steps with
  | [] => True
  | st :: rest => StepTimeOld st = Previous /\ follows (StepTimeNow st) rest
  end.

(** "[(TimeNow mod 60) < 1.1 x (TimeNow - TimeOld)]", in doubles. *)
Definition forceSolve (TimeOld TimeNow : float) : bool :=
  Num.ltb (Num.fmod TimeNow 60) (Num.literal_1_1 * (TimeNow - TimeOld)).

Definition is_Solve (c : Call) : bool :=
  match c with
  | CallSolve _ => true
  | _ => false
  end.

(** The calls of the prediction phase. *)
Definition is_motion_call (c : Call) : bool :=
  match c with
  | CallAddIMU _ _ | CallAddOdometry _ _ => true
  | _ => false
  end.

(** One call for each active motion sensor. *)
Definition motion_calls (Config : FactorGraphConfig) (TimeOld TimeNow : float)
  : list Call :=
  (if IsActive (IMU Config) then [CallAddIMU TimeOld TimeNow] else [])
  ++ (if IsActive (Odom Config) then [CallAddOdometry TimeOld TimeNow] else []).

(** The graph with the motion model of each active motion sensor added
    between [TimeOld] and [TimeNow]. *)
Definition predicted (Config : FactorGraphConfig) (m : SensorDataSet)
           (TimeOld TimeNow : float) (g : FactorGraph) : FactorGraph :=
  let g := if IsActive (IMU Config) then AddIMU g Config m TimeOld TimeNow else g in
  if IsActive (Odom Config)
  then AddOdometry g (Type_ (Odom Config)) Odom3 m TimeOld TimeNow
  else g.

(** The objects at the start of a pass, once the summary is renewed. *)
Definition renewed (TimeNow : float) (s : State) : State :=
  setSummary s (NewData IterationSummary TimeNow).

(** What a pass does from [Measure] on. *)
Definition from_Measure (Config : FactorGraphConfig)
           (TimeFirst TimeLast TimeOld TimeNow : float) : M unit :=
  Measure Config TimeOld TimeNow ;;
  when (Num.eqb TimeNow TimeFirst)
    (call CallGraphSolve ;;
     onGraph (fun g => solve g (SolverConfig Config))) ;;
  doSolve Config
          (Num.ltb (Num.fmod TimeNow 60) ((TimeNow - TimeOld) * Num.literal_1_1)) ;;
  doStampDuration ;;
  doSave Config false ;;
  call (CallPrintProgress ((TimeNow - TimeFirst) / (TimeLast - TimeFirst) * 100)).

(** The calls of [Measure]. *)
Definition measure_calls (Config : FactorGraphConfig) (TimeOld TimeNow : float)
  : list Call :=
  (if IsActive (GNSS Config) then [CallAddGNSS TimeOld TimeNow] else [])
  ++ (if IsActive (Prior Config) && FactorType_eqb (Type_ (Prior Config)) Prior3
      then [CallGetElement POSITION_STATE TimeNow;
            CallAddFactor Prior3 (StateID2 POSITION_STATE TimeNow)
                          (SqrtInformationDiagonal (Vec.tail (Param (Prior Config)) 3))]
      else []).

(** The calls of one pass of the loop, in order. *)
Definition pass_calls (Config : FactorGraphConfig)
           (TimeFirst TimeLast TimeOld TimeNow : float) : list Call :=
  (if Num.gtb TimeNow TimeFirst then motion_calls Config TimeOld TimeNow else [])
  ++ measure_calls Config TimeOld TimeNow
  ++ (if Num.eqb TimeNow TimeFirst then [CallGraphSolve] else [])
  ++ [CallSolve (Num.ltb (Num.fmod TimeNow 60)
                         ((TimeNow - TimeOld) * Num.literal_1_1));
      CallSave false;
      CallPrintProgress ((TimeNow - TimeFirst) / (TimeLast - TimeFirst) * 100)].

End WithLibrary.

End Props.

(** *** A library to run the application on examples

    A stand-in for the library that keeps a record of what is asked of it:
    the graph is the list of the operations applied to it, the
    measurements are their timestamps in increasing order, and the time
    helpers walk through them. *)

Module Recorder.

Import App.

Inductive Entry : Type :=
| ByInitWithGNSS (TimeInitial : float)
| ByInitIMU (TimeInitial : float)
| ByInitOdom (TimeInitial : float)
| ByAddIMU (TimeOld TimeNow : float)
| ByAddOdometry (TimeOld TimeNow : float)
| ByAddGNSS (TimeOld TimeNow : float)
| StateAdded (Name : string) (Timestamp : float)
| FactorAdded (State : StateID) (Mean : Vector) (Noise : GaussianDiagonal3)
| ConstantOutside (TimeWindow CurrentTime : float)
| Refined
| Solved (ForceSolve : bool).

(** The first timestamp after [t]. *)
Definition next_after (t : float) (ts : list float) : option float :=
  find (fun u => Num.ltb t u) ts.

Definition increment (ts : list float) (TimeOld TimeNow TimeLast : float)
  : bool * (float * float) :=
  match next_after TimeNow ts with
  | Some t =>
      if Num.gtb t TimeLast then (false, (TimeOld, TimeNow))
      else (true, (TimeNow, t))
  | None => (false, (TimeOld, TimeNow))
  end.

Definition Lib (Stamps : list float) : Library := {|
  FactorGraph := list Entry;
  SensorDataSet := list float;
  StateDataSet := list float;
  TangentPlaneConverter := bool;
  Data := (float * Vector)%type;
  POSITION_STATE := "Position"%string;
  NewGraph := [];
  NewConverter := false;
  NewData := fun _ t => (t, []);
  DataSetMean := fun d m => (fst d, m);
  DataSetTimestamp := fun d t => (t, snd d);
  StampDuration := fun d => d;
  isInitialized := fun f => f;
  addState := fun g Name _ t => g ++ [StateAdded Name t];
  addFactor := fun g _ k d n => g ++ [FactorAdded k (snd d) n];
  setAllConstantOutsideWindow := fun g w t => g ++ [ConstantOutside w t];
  getElementMean := fun _ _ _ => [0; 0; 0];
  solve := fun g _ => g ++ [Refined];
  ReadDataFromFile := fun _ => Stamps;
  GetFirstTimestamp := fun m _ => hd_error m;
  GetLastTimestamp := fun m _ => hd_error (rev m);
  IncrementTime := fun _ m TimeOld TimeNow TimeLast =>
                     increment m TimeOld TimeNow TimeLast;
  InitWithGNSS := fun g m _ _ TimeInitial _ =>
                    (g ++ [ByInitWithGNSS TimeInitial], m, true);
  InitIMU := fun g m TimeInitial _ => (g ++ [ByInitIMU TimeInitial], m);
  InitOdom := fun g _ TimeInitial => g ++ [ByInitOdom TimeInitial];
  AddIMU := fun g _ _ TimeOld TimeNow => g ++ [ByAddIMU TimeOld TimeNow];
  AddOdometry := fun g _ _ _ TimeOld TimeNow => g ++ [ByAddOdometry TimeOld TimeNow];
  AddGNSS := fun g _ _ TimeOld TimeNow => g ++ [ByAddGNSS TimeOld TimeNow];
  Solve := fun g _ d ForceSolve => (g ++ [Solved ForceSolve], d);
  Save := fun _ _ d r _ => (d, r ++ [fst d]);
  convertAllStatesToGlobal := fun _ r _ => r
|}.

(** Example inputs. *)

Definition off : SensorConfig := mkSensorConfig false (OtherFactor 0) [].
Definition on : SensorConfig := mkSensorConfig true (OtherFactor 0) [].

(** Nothing active. *)
Definition Bare : FactorGraphConfig :=
  mkConfig off off off off (mkSolverOptions []) "in" "out".

(** Inertial and odometry prediction. *)
Definition Moving : FactorGraphConfig :=
  mkConfig off on on off (mkSolverOptions []) "in" "out".

(** Measurements at 30 s, 31 s and 90 s, and at 5 s and 55 s. *)
Definition ThreeFixes : list float := [30; 31; 90].
Definition FiftyApart : list float := [5; 55].

(** Three measurements to average: timestamps one tenth each, first
    coefficients of the means one, two and three tenths. *)
Definition ThreeReadings : list SensorData :=
  [mkSensorData (Some Point3) Num.literal_0_1 [Num.literal_0_1; 1] [-2; 0];
   mkSensorData (Some Point3) Num.literal_0_1 [0x1.999999999999ap-3; 2] [2; 1];
   mkSensorData (Some Point3) Num.literal_0_1 [0x1.3333333333333p-2; 4] [4; 1]].

(** Two measurements whose covariances are opposite. *)
Definition Opposed : list SensorData :=
  [mkSensorData (Some Point3) 0 [1] [-2];
   mkSensorData (Some Point3) 1 [3] [2]].

(** Two measurements at 1e16 s and 1e16 + 2 s, where doubles are two
    apart. *)
Definition FarOut : list SensorData :=
  [mkSensorData (Some Point3) 0x1.1c37937e08p+53 [1] [1];
   mkSensorData (Some Point3) 0x1.1c37937e08001p+53 [3] [1]].

End Recorder.

End Binary64.

(** * Properties *)

(** ** Numbers and vectors *)

Lemma ltb_lt (a b : Q) : Num.ltb a b = true <-> a < b.
Proof.
  unfold Num.ltb. rewrite negb_true_iff. split; intro H.
  - apply Qnot_le_lt. intro L. apply Qle_bool_iff in L. congruence.
  - destruct (Qle_bool b a) eqn:E; [|reflexivity].
    apply Qle_bool_iff in E. exfalso. exact (Qlt_not_le _ _ H E).
Qed.

Lemma ltb_ge (a b : Q) : Num.ltb a b = false <-> b <= a.
Proof.
  unfold Num.ltb. rewrite negb_false_iff. apply Qle_bool_iff.
Qed.

Lemma eqb_refl (a : Q) : Num.eqb a a = true.
Proof. unfold Num.eqb. apply Qeq_bool_iff. reflexivity. Qed.

Lemma trunc_floor (q : Q) : 0 <= q -> Num.trunc q = Qfloor q.
Proof.
  destruct q as [n d]. unfold Qle, Num.trunc, Qfloor. simpl. intro H.
  apply Z.quot_div_nonneg; lia.
Qed.

(** From time 0 on, [fmod(x, 60)] is the remainder of [x] in [[0, 60)]. *)
Lemma fmod_is_floor_mod (x : Q) :
  0 <= x ->
  Num.fmod x 60 == x - inject_Z (Qfloor (x / 60)) * 60
  /\ 0 <= Num.fmod x 60 /\ Num.fmod x 60 < 60.
Proof.
  intro Hx. unfold Num.fmod.
  assert (Hq : 0 <= x / 60).
  { apply Qle_shift_div_l; [reflexivity|]. lra. }
  rewrite (trunc_floor _ Hq).
  pose proof (Qfloor_le (x / 60)) as Hlo.
  pose proof (Qlt_floor (x / 60)) as Hhi.
  rewrite inject_Z_plus in Hhi. change (inject_Z 1) with 1 in Hhi.
  assert (E : x == x / 60 * 60) by field.
  set (f := inject_Z (Qfloor (x / 60))) in *.
  set (q := x / 60) in *.
  split; [reflexivity|].
  split; lra.
Qed.

(** ** Resampling *)

Section ResamplingFacts.

Import Resampling.

Lemma AverageMeasurement_quiet (Window : list SensorData) :
  Window <> [] -> snd (AverageMeasurement Window) = [].
Proof.
  destruct Window as [|a [|b w]]; [congruence| |]; reflexivity.
Qed.

(** One pass of the loop either closes the window or extends it. *)
Lemma sample_step_cases (SampleTime TimeMax : Q) (st : Sampler) (Sensor : SensorData) :
  let Window := AveragingWindow st ++ [Sensor] in
  let st' := sample_step SampleTime TimeMax st Sensor in
  if Num.geb (getTimestamp Sensor) (TimeNext st)
     || Num.eqb (getTimestamp Sensor) TimeMax
  then Resampling.Output st' = Resampling.Output st ++ [flush Window]
       /\ AveragingWindow st' = []
       /\ TimeNext st' = TimeNext st + SampleTime
       /\ Errors st' = Errors st
  else Resampling.Output st' = Resampling.Output st
       /\ AveragingWindow st' = Window
       /\ TimeNext st' = TimeNext st
       /\ Errors st' = Errors st.
Proof.
  cbv zeta. unfold sample_step, flush.
  destruct (Num.geb (getTimestamp Sensor) (TimeNext st)
            || Num.eqb (getTimestamp Sensor) TimeMax).
  - pose proof (AverageMeasurement_quiet (AveragingWindow st ++ [Sensor])) as Hq.
    destruct (AverageMeasurement (AveragingWindow st ++ [Sensor])) as [avg lg].
    simpl in *. repeat split.
    rewrite Hq; [apply app_nil_r|].
    intro H. apply app_eq_nil in H. destruct H; discriminate.
  - simpl. repeat split.
Qed.

(** The loop of [SampleMeasurementsDown] and the windows it goes
    through. *)
Lemma sample_loop_windows (SampleTime TimeMax : Q) (Input : list SensorData)
      (st : Sampler) :
  let r := fold_left (sample_step SampleTime TimeMax) Input st in
  let w := windows_from SampleTime TimeMax (TimeNext st) (AveragingWindow st) Input in
  Resampling.Output r = Resampling.Output st ++ map flush (fst w)
  /\ AveragingWindow r = snd w
  /\ Errors r = Errors st.
Proof.
  revert st. induction Input as [|Sensor rest IH]; intro st; cbv zeta.
  - simpl. rewrite app_nil_r. auto.
  - change (fold_left (sample_step SampleTime TimeMax) (Sensor :: rest) st)
      with (fold_left (sample_step SampleTime TimeMax) rest
                      (sample_step SampleTime TimeMax st Sensor)).
    pose proof (sample_step_cases SampleTime TimeMax st Sensor) as Hs.
    specialize (IH (sample_step SampleTime TimeMax st Sensor)).
    cbv zeta in IH, Hs. destruct IH as (Ho & Hw & He).
    rewrite Ho, Hw, He. clear Ho Hw He. simpl windows_from.
    destruct (Num.geb (getTimestamp Sensor) (TimeNext st)
              || Num.eqb (getTimestamp Sensor) TimeMax);
      destruct Hs as (H1 & H2 & H3 & H4); rewrite H1, H2, H3, H4.
    + destruct (windows_from SampleTime TimeMax (TimeNext st + SampleTime) [] rest)
        as [ws left].
      simpl. rewrite <- app_assoc. auto.
    + auto.
Qed.

Lemma windows_from_cover (SampleTime TimeMax : Q) (Input : list SensorData) :
  forall TimeNext Window,
    let w := windows_from SampleTime TimeMax TimeNext Window Input in
    concat (fst w) ++ snd w = Window ++ Input
    /\ Forall (fun W => W <> []) (fst w).
Proof.
  induction Input as [|Sensor rest IH]; intros TimeNext Window; simpl.
  - rewrite app_nil_r. auto.
  - destruct (Num.geb (getTimestamp Sensor) TimeNext
              || Num.eqb (getTimestamp Sensor) TimeMax).
    + specialize (IH (TimeNext + SampleTime) []).
      destruct (windows_from SampleTime TimeMax (TimeNext + SampleTime) [] rest)
        as [ws left].
      simpl in *. destruct IH as [Hc Hn]. split.
      * rewrite <- !app_assoc. simpl. rewrite Hc. reflexivity.
      * constructor; [|exact Hn].
        intro H. apply app_eq_nil in H. destruct H; discriminate.
    + specialize (IH TimeNext (Window ++ [Sensor])).
      rewrite <- app_assoc in IH. exact IH.
Qed.

(** The measurement that carries the largest timestamp closes its
    window, so nothing is left over after the last one. *)
Lemma windows_from_flushed (SampleTime TimeMax : Q) (Input : list SensorData) :
  forall TimeNext Window,
    Input <> [] ->
    Num.eqb (getTimestamp (last Input DefaultSensorData)) TimeMax = true ->
    snd (windows_from SampleTime TimeMax TimeNext Window Input) = [].
Proof.
  induction Input as [|Sensor rest IH]; intros TimeNext Window Hne Hlast;
    [congruence|].
  simpl. destruct rest as [|Sensor' rest'].
  - simpl in Hlast. rewrite Hlast, orb_true_r. reflexivity.
  - assert (Hne' : Sensor' :: rest' <> []) by discriminate.
    change (last (Sensor :: Sensor' :: rest') DefaultSensorData)
      with (last (Sensor' :: rest') DefaultSensorData) in Hlast.
    destruct (Num.geb (getTimestamp Sensor) TimeNext
              || Num.eqb (getTimestamp Sensor) TimeMax).
    + pose proof (IH (TimeNext + SampleTime) [] Hne' Hlast) as H.
      destruct (windows_from SampleTime TimeMax (TimeNext + SampleTime) []
                             (Sensor' :: rest')).
      exact H.
    + apply IH; assumption.
Qed.

End ResamplingFacts.

(** C7.  On an empty input both utilities log the condition and return:
    [SampleMeasurementsDown] the empty vector, [AverageMeasurement] the
    default-constructed measurement. *)
Theorem empty_input_logged_and_empty :
  forall SampleTime : Q,
    Resampling.SampleMeasurementsDown [] SampleTime = ([], [Resampling.NoMeasurement])
    /\ Resampling.AverageMeasurement [] = (DefaultSensorData, [Resampling.NoMeasurement]).
Proof.
  intro SampleTime. split; reflexivity.
Qed.

(** C10.  [AverageMeasurement] returns the only element of a one-element
    input as it is, and logs nothing. *)
Theorem AverageMeasurement_single :
  forall m : SensorData, Resampling.AverageMeasurement [m] = (m, []).
Proof.
  intro m. reflexivity.
Qed.


(** ** The application *)

Section AppFacts.

Import Engine App Props.

Context {Pool : AppPool}.

Lemma Iteration_calls (Config : FactorGraphConfig)
      (TimeFirst TimeLast TimeOld TimeNow : Q) (s : State) :
  calls_of (Iteration Config TimeFirst TimeLast TimeOld TimeNow) s
  = pass_calls Config TimeFirst TimeLast TimeOld TimeNow.
Proof.
  unfold calls_of, pass_calls, Iteration, Predict, Measure, doSolve,
    doStampDuration, doSave, when, onGraph, bind, get, put, call, ret.
  destruct (Num.gtb TimeNow TimeFirst), (IsActive (IMU Config)),
    (IsActive (Odom Config)), (IsActive (GNSS Config)), (Num.eqb TimeNow TimeFirst),
    (IsActive (Prior Config) && FactorType_eqb (Type_ (Prior Config)) Prior3);
    cbn -[Num.ltb Num.fmod Qminus Qmult Qdiv];
    repeat match goal with
           | |- context [Solve ?a ?b ?c ?d] => destruct (Solve a b c d)
           | |- context [Save ?a ?b ?c ?d ?e] => destruct (Save a b c d e)
           end;
    reflexivity.
Qed.

Lemma Iteration_Measurements (Config : FactorGraphConfig)
      (TimeFirst TimeLast TimeOld TimeNow : Q) (s : State) :
  Measurements (state_of (Iteration Config TimeFirst TimeLast TimeOld TimeNow) s)
  = Measurements s.
Proof.
  unfold state_of, Iteration, Predict, Measure, doSolve,
    doStampDuration, doSave, when, onGraph, bind, get, put, call, ret.
  destruct (Num.gtb TimeNow TimeFirst), (IsActive (IMU Config)),
    (IsActive (Odom Config)), (IsActive (GNSS Config)), (Num.eqb TimeNow TimeFirst),
    (IsActive (Prior Config) && FactorType_eqb (Type_ (Prior Config)) Prior3);
    cbn -[Num.ltb Num.fmod Qminus Qmult Qdiv AddPrior];
    repeat match goal with
           | |- context [Solve ?a ?b ?c ?d] => destruct (Solve a b c d)
           | |- context [Save ?a ?b ?c ?d ?e] => destruct (Save a b c d e)
           end;
    reflexivity.
Qed.

(** One more pass of the loop. *)
Lemma UpdateLoop_S (fuel : nat) (Config : FactorGraphConfig)
      (TimeFirst TimeLast TimeOld TimeNow : Q) (s : State) :
  let s1 := state_of (Iteration Config TimeFirst TimeLast TimeOld TimeNow) s in
  let step := mkStep TimeOld TimeNow
                     (pass_calls Config TimeFirst TimeLast TimeOld TimeNow) in
  UpdateLoop (S fuel) Config TimeFirst TimeLast TimeOld TimeNow s
  = match IncrementTime Config (Measurements s) TimeOld TimeNow TimeLast with
    | (true, (TimeOld', TimeNow')) =>
        let r := UpdateLoop fuel Config TimeFirst TimeLast TimeOld' TimeNow' s1 in
        mkLoopResult (step :: LoopSteps r) (LoopFinished r)
                     (LoopTimeOld r) (LoopTimeNow r) (LoopState r)
    | (false, (TimeOld', TimeNow')) =>
        mkLoopResult [step] true TimeOld' TimeNow' s1
    end.
Proof.
  cbv zeta.
  rewrite <- (Iteration_Measurements Config TimeFirst TimeLast TimeOld TimeNow s).
  rewrite <- (Iteration_calls Config TimeFirst TimeLast TimeOld TimeNow s).
  unfold state_of, calls_of. cbn [UpdateLoop].
  destruct (Iteration Config TimeFirst TimeLast TimeOld TimeNow s) as [[u s1] calls].
  reflexivity.
Qed.

Lemma UpdateLoop_calls (fuel : nat) (Config : FactorGraphConfig)
      (TimeFirst TimeLast : Q) :
  forall TimeOld TimeNow s,
    Forall (fun st => StepCalls st
                      = pass_calls Config TimeFirst TimeLast
                                   (StepTimeOld st) (StepTimeNow st))
           (LoopSteps (UpdateLoop fuel Config TimeFirst TimeLast TimeOld TimeNow s)).
Proof.
  induction fuel as [|fuel IH]; intros TimeOld TimeNow s.
  - constructor.
  - rewrite UpdateLoop_S. cbv zeta.
    destruct (IncrementTime Config (Measurements s) TimeOld TimeNow TimeLast)
      as [[|] [TimeOld' TimeNow']]; cbn [LoopSteps].
    + constructor; [reflexivity|apply IH].
    + constructor; [reflexivity|constructor].
Qed.

Lemma UpdateLoop_first (fuel : nat) (Config : FactorGraphConfig)
      (TimeFirst TimeLast TimeOld TimeNow : Q) (s : State) :
  exists rest,
    LoopSteps (UpdateLoop (S fuel) Config TimeFirst TimeLast TimeOld TimeNow s)
    = mkStep TimeOld TimeNow (pass_calls Config TimeFirst TimeLast TimeOld TimeNow)
             :: rest.
Proof.
  rewrite UpdateLoop_S. cbv zeta.
  destruct (IncrementTime Config (Measurements s) TimeOld TimeNow TimeLast)
    as [[|] [TimeOld' TimeNow']]; cbn [LoopSteps]; eexists; reflexivity.
Qed.



Lemma UpdateLoop_Measurements (fuel : nat) (Config : FactorGraphConfig)
      (TimeFirst TimeLast : Q) :
  forall TimeOld TimeNow s,
    Measurements
      (LoopState (UpdateLoop fuel Config TimeFirst TimeLast TimeOld TimeNow s))
    = Measurements s.
Proof.
  induction fuel as [|fuel IH]; intros TimeOld TimeNow s; [reflexivity|].
  rewrite UpdateLoop_S. cbv zeta.
  destruct (IncrementTime Config (Measurements s) TimeOld TimeNow TimeLast)
    as [[|] [TimeOld' TimeNow']]; cbn [LoopState].
  - rewrite IH. apply Iteration_Measurements.
  - apply Iteration_Measurements.
Qed.

(** With enough passes allowed the loop comes to its end. *)
Lemma UpdateLoop_finishes (rank : SensorDataSet -> Q -> nat)
      (Config : FactorGraphConfig) (TimeFirst TimeLast : Q) :
  bounded_by Pool rank ->
  forall fuel TimeOld TimeNow s,
    (rank (Measurements s) TimeNow < fuel)%nat ->
    LoopFinished (UpdateLoop fuel Config TimeFirst TimeLast TimeOld TimeNow s) = true.
Proof.
  intro Hb. induction fuel as [|fuel IH]; intros TimeOld TimeNow s Hr; [lia|].
  rewrite UpdateLoop_S. cbv zeta.
  destruct (IncrementTime Config (Measurements s) TimeOld TimeNow TimeLast)
    as [[|] [TimeOld' TimeNow']] eqn:E; cbn [LoopFinished]; [|reflexivity].
  apply IH. rewrite Iteration_Measurements.
  apply Hb in E. lia.
Qed.

(** *** CreateGraphAndSolve *)


(** The run, once both timestamps are known. *)
Lemma CreateGraphAndSolve_started (TESTMODE : bool) (fuel : nat)
      (Config : FactorGraphConfig) (Result0 : StateDataSet) (TimeFirst TimeLast : Q) :
  let Input := ReadDataFromFile (InputFile Config) in
  let s0 := mkAppState EmptyGraph Input NewConverter Result0
                       (NewData IterationSummary 0) in
  let s1 := state_of (InitGraph Config TimeFirst) s0 in
  let r := UpdateLoop fuel Config TimeFirst TimeLast (TimeFirst - 1) TimeFirst s1 in
  let run := CreateGraphAndSolve TESTMODE fuel Config Result0 in
  GetFirstTimestamp Input Config = Some TimeFirst ->
  GetLastTimestamp Input Config = Some TimeLast ->
  Steps run = LoopSteps r
  /\ Returned run = (if LoopFinished r then Some 0%Z else None)
  /\ Epilogue run
     = (if LoopFinished r
        then calls_of (Finish TESTMODE Config (LoopTimeNow r)) (LoopState r)
        else []).
Proof.
  cbv zeta. intros HF HL.
  unfold CreateGraphAndSolve, state_of, calls_of. rewrite HF, HL.
  destruct (InitGraph Config TimeFirst _) as [[u s1] init]. cbn [fst snd].
  destruct (LoopFinished _).
  - destruct (Finish TESTMODE Config _ _) as [[u' s2] fin]. auto.
  - auto.
Qed.


(** With the assumption that bounds [IncrementTime], enough passes make
    the run return, and it returns 0 once both timestamps are found. *)
Lemma CreateGraphAndSolve_returns (rank : SensorDataSet -> Q -> nat)
      (TESTMODE : bool) (Config : FactorGraphConfig) (Result0 : StateDataSet) :
  bounded_by Pool rank ->
  exists fuel code,
    Returned (CreateGraphAndSolve TESTMODE fuel Config Result0) = Some code.
Proof.
  intro Hb.
  destruct (GetFirstTimestamp (ReadDataFromFile (InputFile Config)) Config)
    as [TimeFirst|] eqn:HF.
  - destruct (GetLastTimestamp (ReadDataFromFile (InputFile Config)) Config)
      as [TimeLast|] eqn:HL.
    + pose (s1 := state_of (InitGraph Config TimeFirst)
                           (mkAppState EmptyGraph (ReadDataFromFile (InputFile Config))
                                       NewConverter Result0
                                       (NewData IterationSummary 0))).
      exists (S (rank (Measurements s1) TimeFirst)), 0%Z.
      destruct (CreateGraphAndSolve_started
                  TESTMODE (S (rank (Measurements s1) TimeFirst))
                  Config Result0 TimeFirst TimeLast HF HL) as (_ & HR & _).
      rewrite HR. fold s1.
      rewrite (UpdateLoop_finishes rank Config TimeFirst TimeLast Hb); [reflexivity|].
      lia.
    + exists O, 1%Z. unfold CreateGraphAndSolve. rewrite HF, HL. reflexivity.
  - exists O, 1%Z. unfold CreateGraphAndSolve. rewrite HF. reflexivity.
Qed.

(** *** InitGraph without any sensor *)

Lemma InitGraph_fallback (Config : FactorGraphConfig) (TimeInitial : Q) (s : State) :
  IsActive (GNSS Config) = false ->
  IsActive (IMU Config) = false ->
  IsActive (Odom Config) = false ->
  InitGraph Config TimeInitial s
  = (tt, setGraph s (AddAnchor TimeInitial (Graph s)), []).
Proof.
  intros HG HI HO. unfold InitGraph. rewrite HG, HI, HO. reflexivity.
Qed.

Lemma same_key_refl (k : StateID) : same_key k k = true.
Proof.
  unfold same_key. rewrite String.eqb_refl, eqb_refl, Nat.eqb_refl. reflexivity.
Qed.

Lemma inside_window (t : Q) : Num.ltb t (t - 1) = false.
Proof. apply ltb_ge. lra. Qed.

Lemma AddAnchor_EmptyGraph (TimeInitial : Q) :
  let k := mkStateID POSITION_STATE TimeInitial 0 in
  AddAnchor TimeInitial EmptyGraph
  = mkGraph [mkState k Point3 [0; 0; 0] false]
            [mkFactor Prior3 [k] (mkSensorData (Some Point3) TimeInitial [0; 0; 0] [])
                      (mkGaussianDiagonal [/ 1; / 1; / 1])].
Proof.
  cbv zeta. unfold AddAnchor, addState, addFactor, has_state, find_state.
  cbn [EmptyGraph StateData Factors find snd app forallb Key].
  rewrite same_key_refl.
  cbn [andb snd StateData Factors app].
  unfold setAllConstantOutsideWindow.
  cbn [StateData Factors map Key Timestamp].
  rewrite inside_window. reflexivity.
Qed.

End AppFacts.

(** ** The example pool meets the assumptions on [IncrementTime] *)

Section TimelineFacts.

Import Engine App Props Timeline.

Lemma fold_qmin_In (l : list Q) (a : Q) : In (fold_left qmin l a) (a :: l).
Proof.
  revert a. induction l as [|x l IH]; intro a; simpl; [auto|].
  destruct (IH (qmin a x)) as [H|H].
  - rewrite <- H. unfold qmin. destruct (Qle_bool a x); auto.
  - auto.
Qed.

Lemma minimum_In (ts : list Q) (u : Q) : minimum ts = Some u -> In u ts.
Proof.
  destruct ts as [|t rest]; simpl; [discriminate|].
  intro H. injection H as <-. apply fold_qmin_In.
Qed.

Lemma next_after_later (t u : Q) (ts : list Q) :
  next_after t ts = Some u -> In u ts /\ t < u.
Proof.
  unfold next_after. intro H. apply minimum_In in H.
  apply filter_In in H. destruct H as [Hin Hlt].
  split; [exact Hin|]. apply ltb_lt. exact Hlt.
Qed.

Lemma filter_length_le (p q : Q -> bool) (l : list Q) :
  (forall x, p x = true -> q x = true) ->
  (length (filter p l) <= length (filter q l))%nat.
Proof.
  intro Hpq. induction l as [|x l IH]; simpl; [lia|].
  destruct (p x) eqn:Ep.
  - rewrite (Hpq x Ep). simpl. lia.
  - destruct (q x); simpl; lia.
Qed.

Lemma filter_length_lt (p q : Q -> bool) (l : list Q) (u : Q) :
  (forall x, p x = true -> q x = true) ->
  In u l -> q u = true -> p u = false ->
  (length (filter p l) < length (filter q l))%nat.
Proof.
  intros Hpq Hin Hq Hp. induction l as [|x l IH]; simpl; [contradiction|].
  destruct Hin as [->|Hin].
  - rewrite Hp, Hq. simpl.
    pose proof (filter_length_le p q l Hpq). lia.
  - specialize (IH Hin). destruct (p x) eqn:Ep.
    + rewrite (Hpq x Ep). simpl. lia.
    + destruct (q x); simpl; lia.
Qed.

Lemma increment_success (m : SensorDataSet) (TimeOld TimeNow TimeLast TimeOld' TimeNow' : Q) :
  increment m TimeOld TimeNow TimeLast = (true, (TimeOld', TimeNow')) ->
  TimeOld' = TimeNow /\ In TimeNow' (stamps m) /\ TimeNow < TimeNow'.
Proof.
  unfold increment.
  destruct (next_after TimeNow (stamps m)) as [u|] eqn:E; [|discriminate].
  destruct (Num.gtb u TimeLast); [discriminate|].
  intro H. injection H as <- <-.
  apply next_after_later in E. tauto.
Qed.


Lemma Pool_bounded (Config : FactorGraphConfig) (Data : SensorDataSet) :
  bounded_by (Timeline.Pool Config Data) remaining.
Proof.
  intros c m o n l o' n' H. simpl in H.
  apply increment_success in H. destruct H as (_ & Hin & Hlt).
  unfold remaining. apply (filter_length_lt _ _ _ n').
  - intros x Hx. apply ltb_lt. apply ltb_lt in Hx.
    eapply Qlt_trans; eassumption.
  - exact Hin.
  - apply ltb_lt. exact Hlt.
  - apply ltb_ge. apply Qle_refl.
Qed.

End TimelineFacts.

(** ** The calls of one pass, by kind *)

Section PassFacts.

Import Engine App Props.

Lemma pass_Solve (Config : FactorGraphConfig) (TimeFirst TimeLast TimeOld TimeNow : Q) :
  filter is_Solve (pass_calls Config TimeFirst TimeLast TimeOld TimeNow)
  = [CallSolve TimeNow
               (Num.ltb (Num.fmod TimeNow 60) ((TimeNow - TimeOld) * (11 # 10)))].
Proof.
  unfold pass_calls.
  destruct (Num.gtb TimeNow TimeFirst), (IsActive (IMU Config)),
    (IsActive (Odom Config)), (IsActive (GNSS Config)), (Num.eqb TimeNow TimeFirst);
    reflexivity.
Qed.



End PassFacts.

(** ** The claims about the application *)

Import Engine App Props.


(** C4, as amended.  When the first or the last timestamp cannot be
    found, [CreateGraphAndSolve] logs the error and returns 1 with nothing
    done on the graph.  The calls it makes are exactly two: the reading of
    the input, and [PRINT_ERROR] with the message about the first timestamp
    when that one is missing, and with the message about the last
    timestamp otherwise.  There is no pass of the loop and no call after
    it, and the graph is still empty.  [main] then logs its own error,
    writes no output file, and gives the exit status 0. *)
Theorem missing_timestamp_stops_before_graph_work :
  forall (Pool : AppPool) (fuel : nat) (ArgV : list string),
    let Config := ReadCommandLineOptions ArgV in
    let Input := ReadDataFromFile (InputFile Config) in
    GetFirstTimestamp Input Config = None \/ GetLastTimestamp Input Config = None ->
    let run := CreateGraphAndSolve false fuel Config [] in
    Returned run = Some 1%Z
    /\ Prologue run
       = [CallReadDataFromFile (InputFile Config);
          CallPRINT_ERROR (match GetFirstTimestamp Input Config with
                           | None => NoFirstTimestamp
                           | Some _ => NoLastTimestamp
                           end)]
    /\ Steps run = []
    /\ Epilogue run = []
    /\ filter is_graph_call (Prologue run) = []
    /\ Graph (Final run) = EmptyGraph
    /\ main fuel ArgV = (Some 0%Z, run, [CallPRINT_ERROR SomethingWrong]).
Proof.
  intros Pool fuel ArgV. cbv zeta. intro H.
  set (Config := ReadCommandLineOptions ArgV) in *.
  assert (Hrun : CreateGraphAndSolve false fuel Config []
                 = mkRun (Some 1%Z)
                         [CallReadDataFromFile (InputFile Config);
                          CallPRINT_ERROR
                            (match GetFirstTimestamp
                                     (ReadDataFromFile (InputFile Config)) Config with
                             | None => NoFirstTimestamp
                             | Some _ => NoLastTimestamp
                             end)]
                         [] []
                         (mkAppState EmptyGraph (ReadDataFromFile (InputFile Config))
                                     NewConverter [] (NewData IterationSummary 0))).
  { unfold CreateGraphAndSolve. destruct H as [H|H]; rewrite H.
    - reflexivity.
    - destruct (GetFirstTimestamp _ _); reflexivity. }
  unfold main. fold Config. rewrite Hrun.
  cbn. repeat split.
Qed.

(** C1.  With GNSS, IMU and odometry inactive, [InitGraph] on the fresh
    graph adds the position variable at the initial timestamp and a prior
    factor on it with standard deviation 1; the call
    [setAllConstantOutsideWindow(1.0, TimeInitial)] that follows leaves that
    variable free, because its timestamp is not below [TimeInitial - 1.0]. *)
Theorem fallback_anchor_stays_free :
  forall (Pool : AppPool) (Config : FactorGraphConfig) (TimeInitial : Q) (s : State),
    IsActive (GNSS Config) = false ->
    IsActive (IMU Config) = false ->
    IsActive (Odom Config) = false ->
    Graph s = EmptyGraph ->
    let g := Graph (state_of (InitGraph Config TimeInitial) s) in
    let k := mkStateID POSITION_STATE TimeInitial 0 in
    StateData g = [mkState k Point3 [0; 0; 0] false]
    /\ (exists f, Factors g = [f]
                  /\ FactorKind f = Prior3
                  /\ States f = [k]
                  /\ StdDev (Noise f) = [1; 1; 1])
    /\ calls_of (InitGraph Config TimeInitial) s = []
    /\ ~ anchor_frozen TimeInitial g.
Proof.
  intros Pool Config TimeInitial s HG HI HO Hs. cbv zeta.
  unfold state_of, calls_of. rewrite (InitGraph_fallback _ _ _ HG HI HO).
  cbn [fst snd]. unfold setGraph. cbn [Graph]. rewrite Hs, AddAnchor_EmptyGraph.
  cbn [StateData Factors].
  split; [reflexivity|]. split.
  - eexists. split; [reflexivity|]. repeat split.
  - split; [reflexivity|].
    intros (v & Hv & _ & Hc). injection Hv as <-. discriminate.
Qed.

(** C5, as amended.  With only the prior active, [InitGraph] on the fresh
    graph leaves exactly one position variable, at the initial timestamp
    and with mean [0,0,0], and exactly one prior factor, centred at
    [0,0,0], whose standard deviation is 1 on every axis whatever the
    parameter vector of the configuration says. *)
Theorem prior_only_init_uses_unit_deviation :
  forall (Pool : AppPool) (Config : FactorGraphConfig) (TimeInitial : Q) (s : State),
    IsActive (GNSS Config) = false ->
    IsActive (IMU Config) = false ->
    IsActive (Odom Config) = false ->
    IsActive (Prior Config) = true ->
    Graph s = EmptyGraph ->
    let g := Graph (state_of (InitGraph Config TimeInitial) s) in
    (exists v, StateData g = [v]
               /\ states_named g POSITION_STATE = [v]
               /\ Timestamp (Key v) = TimeInitial
               /\ Mean v = [0; 0; 0])
    /\ (exists f, Factors g = [f]
                  /\ factors_of_kind g Prior3 = [f]
                  /\ getMean (Measurement f) = [0; 0; 0]
                  /\ StdDev (Noise f) = [1; 1; 1]).
Proof.
  intros Pool Config TimeInitial s HG HI HO _ Hs. cbv zeta.
  unfold state_of. rewrite (InitGraph_fallback _ _ _ HG HI HO).
  cbn [fst snd]. unfold setGraph. cbn [Graph]. rewrite Hs, AddAnchor_EmptyGraph.
  split; eexists; repeat split.
Qed.

(** ** The claims on examples *)

(** The passes of a run on three fixes, with inertial and odometry
    prediction: the solver calls and the prediction calls of each pass. *)
Example three_fixes_run :
  let run := @CreateGraphAndSolve (Timeline.Pool Timeline.Moving Timeline.ThreeFixes)
                                  true 5 Timeline.Moving [] in
  Returned run = Some 0%Z
  /\ map (fun st => (StepTimeOld st, StepTimeNow st,
                     filter is_solver_call (StepCalls st),
                     filter is_motion_call (StepCalls st)))
         (Steps run)
     = [ (30 - 1, 30, [CallGraphSolve; CallSolve 30 false], []);
         (30, 31, [CallSolve 31 false], [CallAddIMU 30 31; CallAddOdometry 30 31]);
         (31, 90, [CallSolve 90 true], [CallAddIMU 31 90; CallAddOdometry 31 90]) ]
  /\ filter is_solver_call (Epilogue run) = [CallSolve 90 true].
Proof.
  vm_compute. repeat split.
Qed.

Example one_window_per_period :
  map (map getTimestamp)
      (fst (Resampling.Windows
              (map Timeline.at_time [0; 1 # 2; 1; 3 # 2; 2; 5 # 2]) 1))
  = [[0; 1 # 2; 1]; [3 # 2; 2]; [5 # 2]].
Proof.
  reflexivity.
Qed.

(** The prior of the configuration enters the graph in [Measure]: a second
    prior factor, at the current mean with the height replaced, and with
    the last three parameters as square-root information. *)
Example configured_prior_added_by_Measure :
  let P := Timeline.Pool Timeline.PriorOnly [] in
  let s := state_of (@InitGraph P Timeline.PriorOnly 0) Timeline.Fresh in
  let g := Graph (state_of (@Measure P Timeline.PriorOnly (0 - 1) 0) s) in
  map (fun f => (getMean (Measurement f), SqrtInformationDiagonal (Noise f)))
      (factors_of_kind g Prior3)
  = [([0; 0; 0], [/ 1; / 1; / 1]); ([0; 0; 5], [2; 2; 2])].
Proof.
  reflexivity.
Qed.

(** Runs of the example pool return, whatever the data. *)
Corollary Timeline_run_returns :
  forall (TESTMODE : bool) (Config : FactorGraphConfig) (Data : SensorDataSet)
         (Result0 : StateDataSet),
  exists fuel code,
    Returned (@CreateGraphAndSolve (Timeline.Pool Config Data)
                                   TESTMODE fuel Config Result0) = Some code.
Proof.
  intros TESTMODE Config Data Result0.
  apply (CreateGraphAndSolve_returns Timeline.remaining).
  apply Pool_bounded.
Qed.


(** C4, the claim as written fails: with no timestamp to be found the
    process still ends with exit status 0. *)
Lemma exit_status_zero_without_timestamps :
  @GetFirstTimestamp (Timeline.Pool Timeline.Bare [])
                     (@ReadDataFromFile (Timeline.Pool Timeline.Bare [])
                                        (InputFile Timeline.Bare))
                     Timeline.Bare = None
  /\ ~ nonzero_exit (fst (fst (@main (Timeline.Pool Timeline.Bare []) 1 []))).
Proof.
  split; [reflexivity|].
  intros (code & H & Hne). vm_compute in H. injection H as <-.
  apply Hne. reflexivity.
Qed.

(** C5, the claim as written fails: with deviations 2 configured, the prior
    factor [InitGraph] adds has deviation 1. *)
Lemma configured_deviation_not_used :
  ~ prior_as_configured
      Timeline.PriorOnly 0
      (Graph (state_of (@InitGraph (Timeline.Pool Timeline.PriorOnly [])
                                   Timeline.PriorOnly 0)
                       Timeline.Fresh)).
Proof.
  intros [_ (f & Hf & Hsd)].
  vm_compute in Hf. injection Hf as <-.
  vm_compute in Hsd. inversion Hsd as [|? ? ? ? Hq _]. discriminate Hq.
Qed.

(** ** The theorems at concrete inputs *)


Lemma missing_timestamp_stops_before_graph_work_witness :
  let P := Timeline.Pool Timeline.Bare [] in
  let Config := @ReadCommandLineOptions P [] in
  let Input := @ReadDataFromFile P (InputFile Config) in
  let run := @CreateGraphAndSolve P false 1 Config [] in
  (@GetFirstTimestamp P Input Config = None \/ @GetLastTimestamp P Input Config = None)
  /\ (Returned run = Some 1%Z
      /\ Prologue run
         = [CallReadDataFromFile (InputFile Config);
            CallPRINT_ERROR (match @GetFirstTimestamp P Input Config with
                             | None => NoFirstTimestamp
                             | Some _ => NoLastTimestamp
                             end)]
      /\ Steps run = []
      /\ Epilogue run = []
      /\ filter is_graph_call (Prologue run) = []
      /\ Graph (Final run) = EmptyGraph
      /\ @main P 1 [] = (Some 0%Z, run, [CallPRINT_ERROR SomethingWrong])).
Proof.
  cbv zeta.
  split; [left; reflexivity|].
  apply (missing_timestamp_stops_before_graph_work (Timeline.Pool Timeline.Bare []) 1 []).
  left; reflexivity.
Defined.

Lemma fallback_anchor_stays_free_witness :
  let P := Timeline.Pool Timeline.Bare [] in
  let g := Graph (state_of (@InitGraph P Timeline.Bare 0) Timeline.Fresh) in
  let k := mkStateID POSITION_STATE 0 0 in
  IsActive (GNSS Timeline.Bare) = false
  /\ IsActive (IMU Timeline.Bare) = false
  /\ IsActive (Odom Timeline.Bare) = false
  /\ Graph Timeline.Fresh = EmptyGraph
  /\ (StateData g = [mkState k Point3 [0; 0; 0] false]
      /\ (exists f, Factors g = [f]
                    /\ FactorKind f = Prior3
                    /\ States f = [k]
                    /\ StdDev (Noise f) = [1; 1; 1])
      /\ calls_of (@InitGraph P Timeline.Bare 0) Timeline.Fresh = []
      /\ ~ anchor_frozen 0 g).
Proof.
  cbv zeta.
  split; [reflexivity|]. split; [reflexivity|].
  split; [reflexivity|]. split; [reflexivity|].
  apply (fallback_anchor_stays_free (Timeline.Pool Timeline.Bare [])
                                    Timeline.Bare 0 Timeline.Fresh);
    reflexivity.
Defined.

Lemma prior_only_init_uses_unit_deviation_witness :
  let P := Timeline.Pool Timeline.PriorOnly [] in
  let g := Graph (state_of (@InitGraph P Timeline.PriorOnly 0) Timeline.Fresh) in
  IsActive (GNSS Timeline.PriorOnly) = false
  /\ IsActive (IMU Timeline.PriorOnly) = false
  /\ IsActive (Odom Timeline.PriorOnly) = false
  /\ IsActive (Prior Timeline.PriorOnly) = true
  /\ Graph Timeline.Fresh = EmptyGraph
  /\ ((exists v, StateData g = [v]
                 /\ states_named g POSITION_STATE = [v]
                 /\ Timestamp (Key v) = 0
                 /\ Mean v = [0; 0; 0])
      /\ (exists f, Factors g = [f]
                    /\ factors_of_kind g Prior3 = [f]
                    /\ getMean (Measurement f) = [0; 0; 0]
                    /\ StdDev (Noise f) = [1; 1; 1])).
Proof.
  cbv zeta.
  split; [reflexivity|]. split; [reflexivity|]. split; [reflexivity|].
  split; [reflexivity|]. split; [reflexivity|].
  apply (prior_only_init_uses_unit_deviation (Timeline.Pool Timeline.PriorOnly [])
                                             Timeline.PriorOnly 0 Timeline.Fresh);
    reflexivity.
Defined.

(** * Further properties *)

(** ** Resampling: what the output looks like *)

Section SamplingFacts.

Import Resampling.

(** The output of [SampleMeasurementsDown] on data, in terms of the
    windows. *)
Lemma sample_facts (Input : list SensorData) (SampleTime : Q) :
  Input <> [] ->
  exists ws,
    concat ws = Input
    /\ Forall (fun W => W <> []) ws
    /\ SampleMeasurementsDown Input SampleTime = (map flush ws, []).
Proof.
  intro Hne. destruct Input as [|front rest]; [congruence|].
  remember (front :: rest) as Input eqn:HI.
  pose (TimeMax := getTimestamp (last Input DefaultSensorData)).
  pose (TimeNext := getTimestamp front + SampleTime).
  pose (start := mkSampler [] [] TimeNext []).
  assert (HS : SampleMeasurementsDown Input SampleTime
               = (Resampling.Output (fold_left (sample_step SampleTime TimeMax) Input start),
                  Errors (fold_left (sample_step SampleTime TimeMax) Input start)))
    by (subst Input; reflexivity).
  pose proof (windows_from_cover SampleTime TimeMax Input TimeNext []) as [Hc Hn].
  pose proof (windows_from_flushed SampleTime TimeMax Input TimeNext [] Hne
                                   (eqb_refl _)) as Hl.
  pose proof (sample_loop_windows SampleTime TimeMax Input start) as Hloop.
  cbv zeta in Hloop. destruct Hloop as (Ho & _ & He).
  exists (fst (windows_from SampleTime TimeMax TimeNext [] Input)).
  rewrite Hl, app_nil_r in Hc.
  split; [exact Hc|]. split; [exact Hn|].
  rewrite HS, Ho, He. reflexivity.
Qed.


Lemma flush_Timestamp (W : list SensorData) :
  getTimestamp (flush W) = getTimestamp (last W DefaultSensorData).
Proof. reflexivity. Qed.


Lemma last_In (W : list SensorData) (d : SensorData) :
  W <> [] -> In (last W d) W.
Proof.
  intro H. destruct (exists_last H) as (l & a & ->).
  rewrite last_last. apply in_or_app. right. left. reflexivity.
Qed.

Lemma flush_single (m : SensorData) : flush [m] = m.
Proof. destruct m. reflexivity. Qed.

End SamplingFacts.



Section SortedFacts.

Import Resampling.

Lemma Qle_Transitive : Relations_1.Transitive Qle.
Proof. intros x y z. apply Qle_trans. Qed.

Lemma StronglySorted_app_inv (l1 l2 : list Q) :
  StronglySorted Qle (l1 ++ l2) ->
  StronglySorted Qle l2 /\ (forall x y, In x l1 -> In y l2 -> x <= y).
Proof.
  induction l1 as [|a l1 IH]; simpl; intro H.
  - split; [exact H|]. intros x y [].
  - inversion H as [|? ? Hs Ha]; subst.
    destruct (IH Hs) as [H2 Hxy]. split; [exact H2|].
    intros x y [<-|Hx] Hy.
    + rewrite Forall_forall in Ha. apply Ha. apply in_or_app. right. exact Hy.
    + apply Hxy; assumption.
Qed.

Lemma window_ends_sorted (ws : list (list SensorData)) :
  Forall (fun W => W <> []) ws ->
  StronglySorted Qle (map getTimestamp (concat ws)) ->
  StronglySorted Qle (map getTimestamp (map flush ws)).
Proof.
  induction 1 as [|W ws HW Hn IH]; simpl; intro Hs; [constructor|].
  rewrite map_app in Hs. apply StronglySorted_app_inv in Hs.
  destruct Hs as [Hs Hxy]. constructor; [apply IH; exact Hs|].
  apply Forall_forall. intros t Ht.
  apply in_map_iff in Ht. destruct Ht as (o & <- & Ho).
  apply in_map_iff in Ho. destruct Ho as (W' & <- & HW').
  rewrite !flush_Timestamp. apply Hxy.
  - apply in_map. apply last_In. exact HW.
  - apply in_map. apply in_concat. exists W'. split; [exact HW'|].
    apply last_In. rewrite Forall_forall in Hn. apply Hn. exact HW'.
Qed.

End SortedFacts.

(** X3.  [SampleMeasurementsDown] keeps the order of time: on an input
    with non-decreasing timestamps the output has non-decreasing
    timestamps. *)
Theorem SampleMeasurementsDown_keeps_order :
  forall (Input : list SensorData) (SampleTime : Q),
    Sorted Qle (map getTimestamp Input) ->
    Sorted Qle (map getTimestamp
                    (fst (Resampling.SampleMeasurementsDown Input SampleTime))).
Proof.
  intros Input SampleTime Hs.
  destruct Input as [|front rest]; [constructor|].
  assert (Hne : front :: rest <> []) by discriminate.
  destruct (sample_facts (front :: rest) SampleTime Hne) as (ws & Hc & Hn & ->).
  cbn [fst]. apply StronglySorted_Sorted. apply window_ends_sorted; [exact Hn|].
  rewrite Hc. apply Sorted_StronglySorted; [exact Qle_Transitive|exact Hs].
Qed.

Lemma SampleMeasurementsDown_keeps_order_witness :
  let Input := map Timeline.at_time [0; 1 # 2; 1; 3 # 2; 2; 5 # 2] in
  Sorted Qle (map getTimestamp Input)
  /\ Sorted Qle (map getTimestamp
                     (fst (Resampling.SampleMeasurementsDown Input 1))).
Proof.
  cbv zeta.
  assert (H : Sorted Qle (map getTimestamp
                              (map Timeline.at_time [0; 1 # 2; 1; 3 # 2; 2; 5 # 2]))).
  { simpl. repeat constructor; unfold Qle; simpl; lia. }
  split; [exact H|].
  exact (SampleMeasurementsDown_keeps_order _ 1 H).
Defined.



Section ClosingFacts.

Import Resampling.

Lemma geb_le (a b : Q) : Num.geb a b = true <-> b <= a.
Proof. unfold Num.geb. apply Qle_bool_iff. Qed.

Lemma eqb_eq (a b : Q) : Num.eqb a b = true <-> a == b.
Proof. unfold Num.eqb. apply Qeq_bool_iff. Qed.


(** When every measurement closes the window it enters, the loop hands the
    measurements through one by one. *)
Lemma fold_each_closes (SampleTime TimeMax : Q) (Reach : Q -> Prop)
      (Input : list SensorData) :
  (forall T, Reach T -> Reach (T + SampleTime)) ->
  (forall x T, In x Input -> Reach T ->
               Num.geb (getTimestamp x) T || Num.eqb (getTimestamp x) TimeMax = true) ->
  forall st,
    Reach (TimeNext st) -> AveragingWindow st = [] ->
    let r := fold_left (sample_step SampleTime TimeMax) Input st in
    Resampling.Output r = Resampling.Output st ++ Input /\ Errors r = Errors st.
Proof.
  intros Hstep. induction Input as [|x rest IH]; intros Hclose st HR HW; cbv zeta.
  - simpl. rewrite app_nil_r. auto.
  - change (fold_left (sample_step SampleTime TimeMax) (x :: rest) st)
      with (fold_left (sample_step SampleTime TimeMax) rest
                      (sample_step SampleTime TimeMax st x)).
    pose proof (sample_step_cases SampleTime TimeMax st x) as Hs. cbv zeta in Hs.
    rewrite (Hclose x (TimeNext st) (or_introl eq_refl) HR) in Hs.
    destruct Hs as (H1 & H2 & H3 & H4).
    assert (Hrest : forall y T, In y rest -> Reach T ->
                                Num.geb (getTimestamp y) T
                                || Num.eqb (getTimestamp y) TimeMax = true)
      by (intros y T Hy; apply Hclose; right; exact Hy).
    specialize (IH Hrest (sample_step SampleTime TimeMax st x)).
    rewrite H3 in IH. specialize (IH (Hstep _ HR) H2). cbv zeta in IH.
    destruct IH as [Ho He]. rewrite Ho, He, H1, H4, HW.
    simpl. rewrite flush_single, <- app_assoc. auto.
Qed.

End ClosingFacts.

(** X4.  When all measurements carry the timestamp of the last one, each
    of them closes its own window: [SampleMeasurementsDown] returns the
    input as it is, whatever the sample time, and averages nothing. *)
Theorem SampleMeasurementsDown_equal_times :
  forall (Input : list SensorData) (SampleTime : Q),
    Input <> [] ->
    (forall x, In x Input ->
               getTimestamp x == getTimestamp (last Input DefaultSensorData)) ->
    Resampling.SampleMeasurementsDown Input SampleTime = (Input, []).
Proof.
  intros Input SampleTime Hne Hall.
  destruct Input as [|front rest]; [congruence|].
  remember (front :: rest) as Input eqn:HI.
  pose (TimeMax := getTimestamp (last Input DefaultSensorData)).
  pose (start := Resampling.mkSampler [] [] (getTimestamp front + SampleTime) []).
  assert (HS : Resampling.SampleMeasurementsDown Input SampleTime
               = (Resampling.Output
                    (fold_left (Resampling.sample_step SampleTime TimeMax) Input start),
                  Resampling.Errors
                    (fold_left (Resampling.sample_step SampleTime TimeMax) Input start)))
    by (subst Input; reflexivity).
  destruct (fold_each_closes SampleTime TimeMax (fun _ => True) Input
                             (fun _ _ => I)) with (st := start) as [Ho He];
    [|exact I|reflexivity|].
  - intros x T Hx _. apply orb_true_iff. right. apply eqb_eq. apply Hall. exact Hx.
  - rewrite HS, Ho, He. reflexivity.
Qed.

(** X5.  With a sample time that is zero or negative, and no measurement
    earlier than the first, every measurement closes its own window:
    [SampleMeasurementsDown] returns the input as it is. *)
Theorem SampleMeasurementsDown_no_period :
  forall (Input : list SensorData) (SampleTime : Q),
    Input <> [] ->
    SampleTime <= 0 ->
    (forall x, In x Input ->
               getTimestamp (hd DefaultSensorData Input) <= getTimestamp x) ->
    Resampling.SampleMeasurementsDown Input SampleTime = (Input, []).
Proof.
  intros Input SampleTime Hne HS0 Hall.
  destruct Input as [|front rest]; [congruence|].
  remember (front :: rest) as Input eqn:HI.
  pose (TimeMax := getTimestamp (last Input DefaultSensorData)).
  pose (start := Resampling.mkSampler [] [] (getTimestamp front + SampleTime) []).
  assert (HS : Resampling.SampleMeasurementsDown Input SampleTime
               = (Resampling.Output
                    (fold_left (Resampling.sample_step SampleTime TimeMax) Input start),
                  Resampling.Errors
                    (fold_left (Resampling.sample_step SampleTime TimeMax) Input start)))
    by (subst Input; reflexivity).
  assert (Hhd : hd DefaultSensorData Input = front) by (subst Input; reflexivity).
  rewrite Hhd in Hall.
  destruct (fold_each_closes SampleTime TimeMax
                             (fun T => T <= getTimestamp front) Input)
    with (st := start) as [Ho He].
  - intros T HT. lra.
  - intros x T Hx HT. apply orb_true_iff. left. apply geb_le.
    eapply Qle_trans; [exact HT|]. apply Hall. exact Hx.
  - simpl. lra.
  - reflexivity.
  - rewrite HS, Ho, He. reflexivity.
Qed.

Lemma SampleMeasurementsDown_equal_times_witness :
  let Input := map Timeline.at_time [5; 5; 5] in
  Input <> []
  /\ (forall x, In x Input ->
                getTimestamp x == getTimestamp (last Input DefaultSensorData))
  /\ Resampling.SampleMeasurementsDown Input 10 = (Input, []).
Proof.
  cbv zeta.
  assert (H1 : map Timeline.at_time [5; 5; 5] <> []) by discriminate.
  assert (H2 : forall x, In x (map Timeline.at_time [5; 5; 5]) ->
                         getTimestamp x
                         == getTimestamp (last (map Timeline.at_time [5; 5; 5])
                                               DefaultSensorData)).
  { simpl. intros x [<-|[<-|[<-|[]]]]; reflexivity. }
  split; [exact H1|]. split; [exact H2|].
  exact (SampleMeasurementsDown_equal_times _ 10 H1 H2).
Defined.

Lemma SampleMeasurementsDown_no_period_witness :
  let Input := map Timeline.at_time [0; 1; 2] in
  Input <> []
  /\ 0 <= 0
  /\ (forall x, In x Input ->
                getTimestamp (hd DefaultSensorData Input) <= getTimestamp x)
  /\ Resampling.SampleMeasurementsDown Input 0 = (Input, []).
Proof.
  cbv zeta.
  assert (H1 : map Timeline.at_time [0; 1; 2] <> []) by discriminate.
  assert (H2 : 0 <= 0) by (unfold Qle; simpl; lia).
  assert (H3 : forall x, In x (map Timeline.at_time [0; 1; 2]) ->
                         getTimestamp (hd DefaultSensorData
                                          (map Timeline.at_time [0; 1; 2]))
                         <= getTimestamp x).
  { simpl. intros x [<-|[<-|[<-|[]]]]; unfold Qle; simpl; lia. }
  split; [exact H1|]. split; [exact H2|]. split; [exact H3|].
  exact (SampleMeasurementsDown_no_period _ 0 H1 H2 H3).
Defined.

(** ** InitGraph: which initialisation runs *)

(** X9.  The graph [InitGraph] leaves is the one the initialisation helpers
    produced, and the fallback (position variable, unit prior, window
    call) is applied on top of it exactly when GNSS is not active: an
    active IMU or odometry does not keep the fallback from running, and an
    active GNSS always does. *)
Theorem InitGraph_graph :
  forall (Pool : AppPool) (Config : FactorGraphConfig) (TimeInitial : Q) (s : State),
    let seeded :=
      if IsActive (GNSS Config)
      then InitWithGNSS (Graph s) (Measurements s) Config (LocalFrame s)
                        TimeInitial (1 # 10)
      else (Graph s, Measurements s, LocalFrame s) in
    let g := fst (fst seeded) in
    let m := snd (fst seeded) in
    let g' :=
      if IsActive (IMU Config) then fst (InitIMU g m TimeInitial 2)
      else if IsActive (Odom Config) then InitOdom g (Type_ (Odom Config)) TimeInitial
           else g in
    Graph (state_of (InitGraph Config TimeInitial) s)
    = if IsActive (GNSS Config) then g' else AddAnchor TimeInitial g'.
Proof.
  intros Pool Config TimeInitial s. cbv zeta.
  unfold state_of, InitGraph, when, onGraph, bind, get, put, call, ret.
  destruct (IsActive (GNSS Config)), (IsActive (IMU Config)), (IsActive (Odom Config));
    repeat (cbn -[AddAnchor];
            match goal with
            | |- context [InitWithGNSS ?a ?b ?c ?d ?e ?f] =>
                destruct (InitWithGNSS a b c d e f) as [[? ?] ?]
            | |- context [InitIMU ?a ?b ?c ?d] => destruct (InitIMU a b c d)
            end);
    reflexivity.
Qed.

(** ** Measure: the prior of the configuration *)

Section MeasureFacts.

Context {Pool : AppPool}.

(** The graph [Measure] leaves: the GNSS helper first, the prior second. *)
Lemma Measure_graph (Config : FactorGraphConfig) (TimeOld TimeNow : Q) (s : State) :
  let g1 := if IsActive (GNSS Config)
            then AddGNSS (Graph s) Config (Measurements s) TimeOld TimeNow
            else Graph s in
  Graph (state_of (Measure Config TimeOld TimeNow) s)
  = if IsActive (Prior Config) && FactorType_eqb (Type_ (Prior Config)) Prior3
    then AddPrior Config TimeNow g1 else g1.
Proof.
  cbv zeta.
  unfold state_of, Measure, when, onGraph, bind, get, put, call, ret.
  destruct (IsActive (GNSS Config)),
    (IsActive (Prior Config) && FactorType_eqb (Type_ (Prior Config)) Prior3);
    reflexivity.
Qed.

Lemma has_state_find (g : FactorGraph) (k : StateID) :
  has_state g k = match find_state g k with Some _ => true | None => false end.
Proof. reflexivity. Qed.

End MeasureFacts.

(** X10.  With the prior active, of type [Prior3], and the position
    variable of [TimeNow] in the graph, [Measure] appends one prior factor
    on that variable and changes nothing else.  The factor is centred at
    the current mean of the variable with only the height (component 2)
    taken from the parameters, and the last three parameters are its
    square-root information. *)
Theorem Measure_adds_prior_at_current_mean :
  forall (Pool : AppPool) (Config : FactorGraphConfig) (TimeOld TimeNow : Q)
         (s : State) (v : StateVariable),
    let g1 := if IsActive (GNSS Config)
              then AddGNSS (Graph s) Config (Measurements s) TimeOld TimeNow
              else Graph s in
    let k := mkStateID POSITION_STATE TimeNow 0 in
    IsActive (Prior Config) = true ->
    Type_ (Prior Config) = Prior3 ->
    find_state g1 k = Some v ->
    Graph (state_of (Measure Config TimeOld TimeNow) s)
    = mkGraph
        (StateData g1)
        (Factors g1
         ++ [mkFactor Prior3 [k]
                      (mkSensorData (Some Point3) TimeNow
                                    (Vec.set (Mean v) 2
                                             (Vec.at_ (Param (Prior Config)) 2))
                                    [])
                      (mkGaussianDiagonal (Vec.tail (Param (Prior Config)) 3))]).
Proof.
  intros Pool Config TimeOld TimeNow s v. cbv zeta. intros HA HT Hv.
  rewrite Measure_graph. cbv zeta. rewrite HA, HT. cbn [andb FactorType_eqb].
  unfold AddPrior, addFactor, getElementMean. cbn [forallb].
  rewrite has_state_find, Hv. reflexivity.
Qed.

(** X11.  [Measure] adds no prior when the prior is not active or when
    its type is not [Prior3]: the graph is then the one the GNSS helper
    left (or the graph as it was, with GNSS inactive), whether or not it
    holds a position variable at [TimeNow]. *)
Theorem Measure_adds_no_prior :
  forall (Pool : AppPool) (Config : FactorGraphConfig) (TimeOld TimeNow : Q)
         (s : State),
    let g1 := if IsActive (GNSS Config)
              then AddGNSS (Graph s) Config (Measurements s) TimeOld TimeNow
              else Graph s in
    IsActive (Prior Config) = false \/ Type_ (Prior Config) <> Prior3 ->
    Graph (state_of (Measure Config TimeOld TimeNow) s) = g1.
Proof.
  intros Pool Config TimeOld TimeNow s. cbv zeta. intro H.
  rewrite Measure_graph. cbv zeta.
  destruct H as [H|H].
  - rewrite H. reflexivity.
  - destruct (Type_ (Prior Config)); [congruence|].
    rewrite andb_false_r. reflexivity.
Qed.

Lemma Measure_adds_prior_at_current_mean_witness :
  let P := Timeline.Pool Timeline.PriorOnly [] in
  let s := state_of (@InitGraph P Timeline.PriorOnly 0) Timeline.Fresh in
  let k := mkStateID POSITION_STATE 0 0 in
  let v := mkState k Point3 [0; 0; 0] false in
  let g1 := if IsActive (GNSS Timeline.PriorOnly)
            then @AddGNSS P (Graph s) Timeline.PriorOnly (Measurements s) (0 - 1) 0
            else Graph s in
  IsActive (Prior Timeline.PriorOnly) = true
  /\ Type_ (Prior Timeline.PriorOnly) = Prior3
  /\ find_state g1 k = Some v
  /\ Graph (state_of (@Measure P Timeline.PriorOnly (0 - 1) 0) s)
     = mkGraph
         (StateData g1)
         (Factors g1
          ++ [mkFactor Prior3 [k]
                       (mkSensorData (Some Point3) 0
                                     (Vec.set (Mean v) 2
                                              (Vec.at_ (Param (Prior Timeline.PriorOnly)) 2))
                                     [])
                       (mkGaussianDiagonal
                          (Vec.tail (Param (Prior Timeline.PriorOnly)) 3))]).
Proof.
  cbv zeta.
  split; [reflexivity|]. split; [reflexivity|]. split; [reflexivity|].
  apply (Measure_adds_prior_at_current_mean
           (Timeline.Pool Timeline.PriorOnly []) Timeline.PriorOnly (0 - 1) 0
           (state_of (@InitGraph (Timeline.Pool Timeline.PriorOnly [])
                                 Timeline.PriorOnly 0) Timeline.Fresh)
           (mkState (mkStateID POSITION_STATE 0 0) Point3 [0; 0; 0] false));
    reflexivity.
Defined.

Lemma Measure_adds_no_prior_witness :
  let P := Timeline.Pool Timeline.Bare [] in
  let s := state_of (@InitGraph P Timeline.Bare 0) Timeline.Fresh in
  let g1 := if IsActive (GNSS Timeline.Bare)
            then @AddGNSS P (Graph s) Timeline.Bare (Measurements s) (0 - 1) 0
            else Graph s in
  (IsActive (Prior Timeline.Bare) = false \/ Type_ (Prior Timeline.Bare) <> Prior3)
  /\ Graph (state_of (@Measure P Timeline.Bare (0 - 1) 0) s) = g1.
Proof.
  cbv zeta.
  split; [left; reflexivity|].
  apply (Measure_adds_no_prior
           (Timeline.Pool Timeline.Bare []) Timeline.Bare (0 - 1) 0
           (state_of (@InitGraph (Timeline.Pool Timeline.Bare []) Timeline.Bare 0)
                     Timeline.Fresh)).
  left; reflexivity.
Defined.

(** ** The schedule of forced solves *)

Section ScheduleFacts.

Lemma trunc_opp (q : Q) : Num.trunc (- q) = (- Num.trunc q)%Z.
Proof.
  destruct q as [n d]. unfold Num.trunc. simpl.
  apply Z.quot_opp_l. discriminate.
Qed.

Lemma div_opp (x y : Q) : - x / y = - (x / y).
Proof.
  destruct x as [n d], y as [n' d']. unfold Qdiv, Qmult, Qopp, Qinv. simpl.
  destruct n'; simpl; rewrite ?Z.mul_opp_l; reflexivity.
Qed.

Lemma opp_opp (x : Q) : - - x = x.
Proof.
  destruct x as [n d]. unfold Qopp. simpl. rewrite Z.opp_involutive. reflexivity.
Qed.

Lemma fmod_opp (x : Q) : Num.fmod (- x) 60 == - Num.fmod x 60.
Proof.
  unfold Num.fmod. rewrite div_opp, trunc_opp, inject_Z_opp. ring.
Qed.

(** [fmod] takes the sign of its first argument. *)
Lemma fmod_nonpos (x : Q) : x <= 0 -> Num.fmod x 60 <= 0.
Proof.
  intro Hx. rewrite <- (opp_opp x), fmod_opp.
  assert (H : 0 <= - x) by lra.
  destruct (fmod_is_floor_mod (- x) H) as (_ & Hlo & _). lra.
Qed.


Context {Pool : AppPool}.

(** The one call of [Solve] in a pass of the loop. *)
Lemma Iteration_Solve (Config : FactorGraphConfig)
      (TimeFirst TimeLast TimeOld TimeNow : Q) (s : State) :
  filter is_Solve (calls_of (Iteration Config TimeFirst TimeLast TimeOld TimeNow) s)
  = [CallSolve TimeNow
               (Num.ltb (Num.fmod TimeNow 60) ((TimeNow - TimeOld) * (11 # 10)))].
Proof.
  rewrite Iteration_calls. apply pass_Solve.
Qed.

End ScheduleFacts.



(** X14.  From time 0 on, a pass whose time has not advanced
    ([TimeNow <= TimeOld]) is never solved with the force flag. *)
Theorem Solve_not_forced_without_advance :
  forall (Pool : AppPool) (Config : FactorGraphConfig)
         (TimeFirst TimeLast TimeOld TimeNow : Q) (s : State),
    0 <= TimeNow ->
    TimeNow <= TimeOld ->
    filter is_Solve (calls_of (Iteration Config TimeFirst TimeLast TimeOld TimeNow) s)
    = [CallSolve TimeNow false].
Proof.
  intros Pool Config TimeFirst TimeLast TimeOld TimeNow s H0 Hle.
  rewrite Iteration_Solve. f_equal. f_equal. apply ltb_ge.
  destruct (fmod_is_floor_mod TimeNow H0) as (_ & Hlo & _). lra.
Qed.

(** X15.  Before time 0 the remainder of [fmod] is not positive, so every
    pass whose time has advanced is solved with the force flag. *)
Theorem Solve_forced_before_time_zero :
  forall (Pool : AppPool) (Config : FactorGraphConfig)
         (TimeFirst TimeLast TimeOld TimeNow : Q) (s : State),
    TimeNow <= 0 ->
    TimeOld < TimeNow ->
    filter is_Solve (calls_of (Iteration Config TimeFirst TimeLast TimeOld TimeNow) s)
    = [CallSolve TimeNow true].
Proof.
  intros Pool Config TimeFirst TimeLast TimeOld TimeNow s H0 Hlt.
  rewrite Iteration_Solve. f_equal. f_equal. apply ltb_lt.
  pose proof (fmod_nonpos TimeNow H0). lra.
Qed.

(** ** Whole runs *)

Section RunFacts.

Context {Pool : AppPool}.


Lemma pass_Save (Config : FactorGraphConfig)
      (TimeFirst TimeLast TimeOld TimeNow : Q) :
  filter is_Save (pass_calls Config TimeFirst TimeLast TimeOld TimeNow)
  = [CallSave false].
Proof.
  unfold pass_calls.
  destruct (Num.gtb TimeNow TimeFirst), (IsActive (IMU Config)),
    (IsActive (Odom Config)), (IsActive (GNSS Config)), (Num.eqb TimeNow TimeFirst);
    reflexivity.
Qed.

Lemma pass_no_write (Config : FactorGraphConfig)
      (TimeFirst TimeLast TimeOld TimeNow : Q) :
  filter is_write (pass_calls Config TimeFirst TimeLast TimeOld TimeNow) = [].
Proof.
  unfold pass_calls.
  destruct (Num.gtb TimeNow TimeFirst), (IsActive (IMU Config)),
    (IsActive (Odom Config)), (IsActive (GNSS Config)), (Num.eqb TimeNow TimeFirst);
    reflexivity.
Qed.

Lemma InitGraph_no_write (Config : FactorGraphConfig) (TimeInitial : Q) (s : State) :
  filter is_write (calls_of (InitGraph Config TimeInitial) s) = [].
Proof.
  unfold calls_of, InitGraph, when, onGraph, bind, get, put, call, ret.
  destruct (IsActive (GNSS Config)), (IsActive (IMU Config)), (IsActive (Odom Config));
    repeat (cbn;
            match goal with
            | |- context [InitWithGNSS ?a ?b ?c ?d ?e ?f] =>
                destruct (InitWithGNSS a b c d e f) as [[? ?] ?]
            | |- context [InitIMU ?a ?b ?c ?d] => destruct (InitIMU a b c d)
            end);
    reflexivity.
Qed.

(** The calls after the loop, and the frame they leave alone. *)
Lemma Finish_calls (TESTMODE : bool) (Config : FactorGraphConfig)
      (TimeNow : Q) (s : State) :
  calls_of (Finish TESTMODE Config TimeNow) s
  = [CallSolve TimeNow true; CallSave true]
    ++ (if IsActive (GNSS Config) && isInitialized (LocalFrame s)
        then (if TESTMODE then []
              else [CallWriteDataToFile (OutputFile Config ++ "_local")
                                        POSITION_STATE false])
             ++ [CallConvertAllStatesToGlobal]
        else [])
    ++ [CallPrintReport]
  /\ LocalFrame (state_of (Finish TESTMODE Config TimeNow) s) = LocalFrame s.
Proof.
  unfold calls_of, state_of, Finish, doSolve, doStampDuration, doSave, when,
    bind, get, put, call, ret.
  cbn -[Num.ltb Num.fmod Qminus Qmult Qdiv].
  repeat match goal with
         | |- context [Solve ?a ?b ?c ?d] => destruct (Solve a b c d)
         | |- context [Save ?a ?b ?c ?d ?e] => destruct (Save a b c d e)
         end.
  cbn.
  destruct (IsActive (GNSS Config)), TESTMODE; cbn;
    try destruct (isInitialized (LocalFrame s)); split; reflexivity.
Qed.

(** The run, once both timestamps are known, with its prologue and its
    final state. *)
Lemma CreateGraphAndSolve_run (TESTMODE : bool) (fuel : nat)
      (Config : FactorGraphConfig) (Result0 : StateDataSet) (TimeFirst TimeLast : Q) :
  let s0 := initial_state Pool Config Result0 in
  let s1 := state_of (InitGraph Config TimeFirst) s0 in
  let r := UpdateLoop fuel Config TimeFirst TimeLast (TimeFirst - 1) TimeFirst s1 in
  GetFirstTimestamp (ReadDataFromFile (InputFile Config)) Config = Some TimeFirst ->
  GetLastTimestamp (ReadDataFromFile (InputFile Config)) Config = Some TimeLast ->
  CreateGraphAndSolve TESTMODE fuel Config Result0
  = if LoopFinished r
    then mkRun (Some 0%Z)
               ([CallReadDataFromFile (InputFile Config)]
                ++ calls_of (InitGraph Config TimeFirst) s0)
               (LoopSteps r)
               (calls_of (Finish TESTMODE Config (LoopTimeNow r)) (LoopState r))
               (state_of (Finish TESTMODE Config (LoopTimeNow r)) (LoopState r))
    else mkRun None
               ([CallReadDataFromFile (InputFile Config)]
                ++ calls_of (InitGraph Config TimeFirst) s0)
               (LoopSteps r) [] (LoopState r).
Proof.
  cbv zeta. intros HF HL.
  unfold CreateGraphAndSolve, initial_state, state_of, calls_of. rewrite HF, HL.
  destruct (InitGraph Config TimeFirst _) as [[u s1] init]. cbn [fst snd].
  destruct (LoopFinished _); [|reflexivity].
  destruct (Finish TESTMODE Config _ _) as [[u' s2] fin]. reflexivity.
Qed.

(** The run without timestamps. *)
Lemma CreateGraphAndSolve_stopped (TESTMODE : bool) (fuel : nat)
      (Config : FactorGraphConfig) (Result0 : StateDataSet) :
  GetFirstTimestamp (ReadDataFromFile (InputFile Config)) Config = None
  \/ GetLastTimestamp (ReadDataFromFile (InputFile Config)) Config = None ->
  exists msg,
    CreateGraphAndSolve TESTMODE fuel Config Result0
    = mkRun (Some 1%Z) [CallReadDataFromFile (InputFile Config); CallPRINT_ERROR msg]
            [] [] (initial_state Pool Config Result0).
Proof.
  unfold CreateGraphAndSolve, initial_state. intros [H|H]; rewrite H.
  - eexists. reflexivity.
  - destruct (GetFirstTimestamp _ _); eexists; reflexivity.
Qed.

Lemma UpdateLoop_length (rank : SensorDataSet -> Q -> nat)
      (Config : FactorGraphConfig) (TimeFirst TimeLast : Q) :
  bounded_by Pool rank ->
  forall fuel TimeOld TimeNow s,
    (length (LoopSteps (UpdateLoop fuel Config TimeFirst TimeLast TimeOld TimeNow s))
     <= S (rank (Measurements s) TimeNow))%nat.
Proof.
  intro Hb. induction fuel as [|fuel IH]; intros TimeOld TimeNow s; [simpl; lia|].
  rewrite UpdateLoop_S. cbv zeta.
  destruct (IncrementTime Config (Measurements s) TimeOld TimeNow TimeLast)
    as [[|] [TimeOld' TimeNow']] eqn:E; cbn [LoopSteps length]; [|lia].
  apply Hb in E.
  specialize (IH TimeOld' TimeNow'
                 (state_of (Iteration Config TimeFirst TimeLast TimeOld TimeNow) s)).
  rewrite Iteration_Measurements in IH. lia.
Qed.

(** Past the bound, the number of passes allowed plays no part. *)
Lemma UpdateLoop_fuel (rank : SensorDataSet -> Q -> nat)
      (Config : FactorGraphConfig) (TimeFirst TimeLast : Q) :
  bounded_by Pool rank ->
  forall fuel fuel' TimeOld TimeNow s,
    (rank (Measurements s) TimeNow < fuel)%nat ->
    (rank (Measurements s) TimeNow < fuel')%nat ->
    UpdateLoop fuel Config TimeFirst TimeLast TimeOld TimeNow s
    = UpdateLoop fuel' Config TimeFirst TimeLast TimeOld TimeNow s.
Proof.
  intro Hb. induction fuel as [|fuel IH]; intros fuel' TimeOld TimeNow s H H'; [lia|].
  destruct fuel' as [|fuel']; [lia|].
  rewrite !UpdateLoop_S. cbv zeta.
  destruct (IncrementTime Config (Measurements s) TimeOld TimeNow TimeLast)
    as [[|] [TimeOld' TimeNow']] eqn:E; [|reflexivity].
  apply Hb in E.
  rewrite (IH fuel' TimeOld' TimeNow'
              (state_of (Iteration Config TimeFirst TimeLast TimeOld TimeNow) s));
    [reflexivity| |]; rewrite Iteration_Measurements; lia.
Qed.

Lemma filter_concat_nil (p : Call -> bool) (ls : list (list Call)) :
  Forall (fun l => filter p l = []) ls -> filter p (concat ls) = [].
Proof.
  induction 1 as [|l ls Hl _ IH]; simpl; [reflexivity|].
  rewrite filter_app, Hl, IH. reflexivity.
Qed.

End RunFacts.


Lemma saves_of_steps (steps : list Step) :
  Forall (fun st => filter is_Save (StepCalls st) = [CallSave false]) steps ->
  filter is_Save (concat (map StepCalls steps))
  = repeat (CallSave false) (length steps).
Proof.
  induction 1 as [|st sts Hst _ IH]; [reflexivity|].
  cbn [map concat length repeat]. rewrite filter_app, Hst, IH. reflexivity.
Qed.

(** X18.  A run that returns 0 saves the result once in every pass, not
    as final, and once after the loop, as final: in all one save more than
    there are passes. *)
Theorem result_saved_every_pass_and_at_end :
  forall (Pool : AppPool) (TESTMODE : bool) (fuel : nat)
         (Config : FactorGraphConfig) (Result0 : StateDataSet),
    let run := CreateGraphAndSolve TESTMODE fuel Config Result0 in
    Returned run = Some 0%Z ->
    Forall (fun st => filter is_Save (StepCalls st) = [CallSave false]) (Steps run)
    /\ filter is_Save (Epilogue run) = [CallSave true]
    /\ filter is_Save (all_calls run)
       = repeat (CallSave false) (length (Steps run)) ++ [CallSave true].
Proof.
  intros Pool TESTMODE fuel Config Result0. cbv zeta. intro HR.
  destruct (GetFirstTimestamp (ReadDataFromFile (InputFile Config)) Config)
    as [TimeFirst|] eqn:HF;
    [|destruct (CreateGraphAndSolve_stopped TESTMODE fuel Config Result0
                                            (or_introl HF)) as [msg E];
      rewrite E in HR; discriminate].
  destruct (GetLastTimestamp (ReadDataFromFile (InputFile Config)) Config)
    as [TimeLast|] eqn:HL;
    [|destruct (CreateGraphAndSolve_stopped TESTMODE fuel Config Result0
                                            (or_intror HL)) as [msg E];
      rewrite E in HR; discriminate].
  rewrite (CreateGraphAndSolve_run TESTMODE fuel Config Result0 TimeFirst TimeLast HF HL)
    in *.
  destruct (LoopFinished _); [|discriminate].
  unfold all_calls. cbn [Steps Epilogue Prologue].
  match goal with
  | |- context [UpdateLoop fuel Config TimeFirst TimeLast ?o ?n ?s] =>
      pose proof (UpdateLoop_calls fuel Config TimeFirst TimeLast o n s) as Hc;
      set (r := UpdateLoop fuel Config TimeFirst TimeLast o n s) in *
  end.
  destruct (Finish_calls TESTMODE Config (LoopTimeNow r) (LoopState r)) as [Hfin _].
  assert (Hsteps : Forall (fun st => filter is_Save (StepCalls st) = [CallSave false])
                          (LoopSteps r)).
  { eapply Forall_impl; [|exact Hc]. intros st Hst. cbv beta in Hst.
    rewrite Hst. apply pass_Save. }
  assert (Hfs : filter is_Save (calls_of (Finish TESTMODE Config (LoopTimeNow r))
                                         (LoopState r)) = [CallSave true]).
  { rewrite Hfin.
    destruct (IsActive (GNSS Config) && isInitialized (LocalFrame (LoopState r))),
      TESTMODE; reflexivity. }
  split; [exact Hsteps|]. split; [exact Hfs|].
  rewrite !filter_app, Hfs.
  assert (Hpro : filter is_Save
                        ([CallReadDataFromFile (InputFile Config)]
                         ++ calls_of (InitGraph Config TimeFirst)
                                     (initial_state Pool Config Result0)) = []).
  { unfold calls_of, InitGraph, when, onGraph, bind, get, put, call, ret.
    destruct (IsActive (GNSS Config)), (IsActive (IMU Config)),
      (IsActive (Odom Config));
      repeat (cbn;
              match goal with
              | |- context [InitWithGNSS ?a ?b ?c ?d ?e ?f] =>
                  destruct (InitWithGNSS a b c d e f) as [[? ?] ?]
              | |- context [InitIMU ?a ?b ?c ?d] => destruct (InitIMU a b c d)
              end);
      reflexivity. }
  rewrite <- filter_app, Hpro. cbn [app]. f_equal.
  apply saves_of_steps. exact Hsteps.
Qed.

(** X19.  After the loop the states are converted back to the global
    frame exactly when GNSS is active and the local frame was initialised;
    the local copy of the positions is written just before, unless the
    code is built in [TESTMODE].  With GNSS inactive nothing is converted
    and nothing is written. *)
Theorem conversion_only_with_initialised_frame :
  forall (Pool : AppPool) (TESTMODE : bool) (fuel : nat)
         (Config : FactorGraphConfig) (Result0 : StateDataSet),
    let run := CreateGraphAndSolve TESTMODE fuel Config Result0 in
    Returned run = Some 0%Z ->
    filter is_conversion_call (Epilogue run)
    = if IsActive (GNSS Config) && isInitialized (LocalFrame (Final run))
      then (if TESTMODE then []
            else [CallWriteDataToFile (OutputFile Config ++ "_local")
                                      POSITION_STATE false])
           ++ [CallConvertAllStatesToGlobal]
      else [].
Proof.
  intros Pool TESTMODE fuel Config Result0. cbv zeta. intro HR.
  destruct (GetFirstTimestamp (ReadDataFromFile (InputFile Config)) Config)
    as [TimeFirst|] eqn:HF;
    [|destruct (CreateGraphAndSolve_stopped TESTMODE fuel Config Result0
                                            (or_introl HF)) as [msg E];
      rewrite E in HR; discriminate].
  destruct (GetLastTimestamp (ReadDataFromFile (InputFile Config)) Config)
    as [TimeLast|] eqn:HL;
    [|destruct (CreateGraphAndSolve_stopped TESTMODE fuel Config Result0
                                            (or_intror HL)) as [msg E];
      rewrite E in HR; discriminate].
  rewrite (CreateGraphAndSolve_run TESTMODE fuel Config Result0 TimeFirst TimeLast HF HL)
    in *.
  destruct (LoopFinished _); [|discriminate].
  cbn [Epilogue Final].
  match goal with
  | |- context [calls_of (Finish TESTMODE Config ?t) ?s] =>
      destruct (Finish_calls TESTMODE Config t s) as [Hc Hf]; rewrite Hc, Hf;
      destruct (IsActive (GNSS Config) && isInitialized (LocalFrame s)), TESTMODE;
      reflexivity
  end.
Qed.

(** X20.  Built in [TESTMODE], [CreateGraphAndSolve] writes no file at
    all, whatever the input and however far the run gets. *)
Theorem TESTMODE_writes_no_file :
  forall (Pool : AppPool) (fuel : nat)
         (Config : FactorGraphConfig) (Result0 : StateDataSet),
    filter is_write (all_calls (CreateGraphAndSolve true fuel Config Result0)) = [].
Proof.
  intros Pool fuel Config Result0.
  destruct (GetFirstTimestamp (ReadDataFromFile (InputFile Config)) Config)
    as [TimeFirst|] eqn:HF;
    [|destruct (CreateGraphAndSolve_stopped true fuel Config Result0
                                            (or_introl HF)) as [msg E];
      rewrite E; reflexivity].
  destruct (GetLastTimestamp (ReadDataFromFile (InputFile Config)) Config)
    as [TimeLast|] eqn:HL;
    [|destruct (CreateGraphAndSolve_stopped true fuel Config Result0
                                            (or_intror HL)) as [msg E];
      rewrite E; reflexivity].
  rewrite (CreateGraphAndSolve_run true fuel Config Result0 TimeFirst TimeLast HF HL).
  match goal with
  | |- context [UpdateLoop fuel Config TimeFirst TimeLast ?o ?n ?s] =>
      pose proof (UpdateLoop_calls fuel Config TimeFirst TimeLast o n s) as Hc;
      set (r := UpdateLoop fuel Config TimeFirst TimeLast o n s) in *
  end.
  assert (Hsteps : filter is_write (concat (map StepCalls (LoopSteps r))) = []).
  { apply filter_concat_nil. apply Forall_map.
    eapply Forall_impl; [|exact Hc]. intros st Hst. cbv beta in Hst.
    rewrite Hst. apply pass_no_write. }
  destruct (LoopFinished r); unfold all_calls; cbn [Prologue Steps Epilogue];
    rewrite !filter_app, InitGraph_no_write, Hsteps; [|reflexivity].
  destruct (Finish_calls true Config (LoopTimeNow r) (LoopState r)) as [Hfin _].
  rewrite Hfin.
  destruct (IsActive (GNSS Config) && isInitialized (LocalFrame (LoopState r)));
    reflexivity.
Qed.

(** X21.  Given a bound on how often [IncrementTime] can succeed, and
    both timestamps, the run comes to its end and returns 0 as soon as more
    passes are allowed than the bound; it makes at least one pass (the loop
    tests after the body) and at most one more than the bound; and it is
    the same run for every larger number of passes allowed. *)
Theorem run_ends_within_bound :
  forall (Pool : AppPool) (rank : SensorDataSet -> Q -> nat)
         (TESTMODE : bool) (fuel : nat)
         (Config : FactorGraphConfig) (Result0 : StateDataSet) (TimeFirst TimeLast : Q),
    let m := Measurements (state_of (InitGraph Config TimeFirst)
                                    (initial_state Pool Config Result0)) in
    let run := CreateGraphAndSolve TESTMODE fuel Config Result0 in
    bounded_by Pool rank ->
    GetFirstTimestamp (ReadDataFromFile (InputFile Config)) Config = Some TimeFirst ->
    GetLastTimestamp (ReadDataFromFile (InputFile Config)) Config = Some TimeLast ->
    (rank m TimeFirst < fuel)%nat ->
    Returned run = Some 0%Z
    /\ (1 <= length (Steps run) <= S (rank m TimeFirst))%nat
    /\ (forall fuel', (rank m TimeFirst < fuel')%nat ->
                      CreateGraphAndSolve TESTMODE fuel' Config Result0 = run).
Proof.
  intros Pool rank TESTMODE fuel Config Result0 TimeFirst TimeLast. cbv zeta.
  intros Hb HF HL Hfuel.
  set (s1 := state_of (InitGraph Config TimeFirst) (initial_state Pool Config Result0))
    in *.
  assert (Hrun : forall f, (rank (Measurements s1) TimeFirst < f)%nat ->
                           CreateGraphAndSolve TESTMODE f Config Result0
                           = let r := UpdateLoop f Config TimeFirst TimeLast
                                                 (TimeFirst - 1) TimeFirst s1 in
                             mkRun (Some 0%Z)
                                   ([CallReadDataFromFile (InputFile Config)]
                                    ++ calls_of (InitGraph Config TimeFirst)
                                                (initial_state Pool Config Result0))
                                   (LoopSteps r)
                                   (calls_of (Finish TESTMODE Config (LoopTimeNow r))
                                             (LoopState r))
                                   (state_of (Finish TESTMODE Config (LoopTimeNow r))
                                             (LoopState r))).
  { intros f Hf.
    rewrite (CreateGraphAndSolve_run TESTMODE f Config Result0 TimeFirst TimeLast HF HL).
    fold s1.
    rewrite (UpdateLoop_finishes rank Config TimeFirst TimeLast Hb f _ _ s1 Hf).
    reflexivity. }
  rewrite (Hrun fuel Hfuel). cbv zeta. cbn [Returned Steps].
  split; [reflexivity|]. split.
  - split.
    + destruct fuel as [|fuel]; [lia|].
      destruct (UpdateLoop_first fuel Config TimeFirst TimeLast
                                 (TimeFirst - 1) TimeFirst s1) as [rest ->].
      simpl. lia.
    + apply (UpdateLoop_length rank Config TimeFirst TimeLast Hb).
  - intros fuel' Hfuel'. rewrite (Hrun fuel' Hfuel'). cbv zeta.
    rewrite (UpdateLoop_fuel rank Config TimeFirst TimeLast Hb fuel' fuel
                             (TimeFirst - 1) TimeFirst s1 Hfuel' Hfuel).
    reflexivity.
Qed.

(** X22.  From the command line to the files: with both timestamps found
    and the bound on [IncrementTime], [main] ends with exit status 0 after
    exporting four series to the output file, the positions first
    (overwriting the file), then orientation, angle and solve time
    (appended); it logs no error of its own. *)
Theorem main_exports_after_complete_run :
  forall (Pool : AppPool) (rank : SensorDataSet -> Q -> nat)
         (fuel : nat) (ArgV : list string) (TimeFirst TimeLast : Q),
    let Config := ReadCommandLineOptions ArgV in
    let m := Measurements (state_of (InitGraph Config TimeFirst)
                                    (initial_state Pool Config [])) in
    bounded_by Pool rank ->
    GetFirstTimestamp (ReadDataFromFile (InputFile Config)) Config = Some TimeFirst ->
    GetLastTimestamp (ReadDataFromFile (InputFile Config)) Config = Some TimeLast ->
    (rank m TimeFirst < fuel)%nat ->
    main fuel ArgV
    = (Some 0%Z, CreateGraphAndSolve false fuel Config [],
       [CallWriteDataToFile (OutputFile Config) POSITION_STATE false;
        CallWriteDataToFile (OutputFile Config) ORIENTATION_STATE true;
        CallWriteDataToFile (OutputFile Config) ANGLE_STATE true;
        CallWriteDataToFile (OutputFile Config) SOLVE_TIME_STATE true]).
Proof.
  intros Pool rank fuel ArgV TimeFirst TimeLast. cbv zeta. intros Hb HF HL Hfuel.
  unfold main.
  rewrite (CreateGraphAndSolve_run false fuel _ [] TimeFirst TimeLast HF HL).
  rewrite (UpdateLoop_finishes rank _ TimeFirst TimeLast Hb fuel _ _ _ Hfuel).
  reflexivity.
Qed.

(** X23.  [Predict] calls [AddIMU] and then [AddOdometry], each only when
    its sensor is active, and the odometry is added to the graph the IMU
    helper returned. *)
Theorem Predict_order :
  forall (Pool : AppPool) (Config : FactorGraphConfig) (TimeOld TimeNow : Q)
         (s : State),
    let g1 := if IsActive (IMU Config)
              then AddIMU (Graph s) Config (Measurements s) TimeOld TimeNow
              else Graph s in
    calls_of (Predict Config TimeOld TimeNow) s
    = (if IsActive (IMU Config) then [CallAddIMU TimeOld TimeNow] else [])
      ++ (if IsActive (Odom Config) then [CallAddOdometry TimeOld TimeNow] else [])
    /\ state_of (Predict Config TimeOld TimeNow) s
       = setGraph s (if IsActive (Odom Config)
                     then AddOdometry g1 (Type_ (Odom Config)) Odom3
                                      (Measurements s) TimeOld TimeNow
                     else g1).
Proof.
  intros Pool Config TimeOld TimeNow s. cbv zeta.
  unfold calls_of, state_of, Predict, when, bind, get, put, call, ret, setGraph.
  destruct (IsActive (IMU Config)), (IsActive (Odom Config)); cbn;
    split; try reflexivity; destruct s; reflexivity.
Qed.

(** ** The further properties at concrete inputs *)



Lemma Solve_not_forced_without_advance_witness :
  let P := Timeline.Pool Timeline.Bare Timeline.ThreeFixes in
  0 <= 60
  /\ 60 <= 60
  /\ filter is_Solve (calls_of (@Iteration P Timeline.Bare 30 90 60 60) Timeline.Fresh)
     = [CallSolve 60 false].
Proof.
  cbv zeta.
  assert (H1 : 0 <= 60) by (unfold Qle; simpl; lia).
  assert (H2 : 60 <= 60) by (unfold Qle; simpl; lia).
  split; [exact H1|]. split; [exact H2|].
  exact (Solve_not_forced_without_advance
           (Timeline.Pool Timeline.Bare Timeline.ThreeFixes)
           Timeline.Bare 30 90 60 60 Timeline.Fresh H1 H2).
Defined.

Lemma Solve_forced_before_time_zero_witness :
  let P := Timeline.Pool Timeline.Bare Timeline.ThreeFixes in
  - (25) <= 0
  /\ - (26) < - (25)
  /\ filter is_Solve
            (calls_of (@Iteration P Timeline.Bare (- (30)) 90 (- (26)) (- (25)))
                      Timeline.Fresh)
     = [CallSolve (- (25)) true].
Proof.
  cbv zeta.
  assert (H1 : - (25) <= 0) by (unfold Qle; simpl; lia).
  assert (H2 : - (26) < - (25)) by (unfold Qlt; simpl; lia).
  split; [exact H1|]. split; [exact H2|].
  exact (Solve_forced_before_time_zero
           (Timeline.Pool Timeline.Bare Timeline.ThreeFixes)
           Timeline.Bare (- (30)) 90 (- (26)) (- (25)) Timeline.Fresh H1 H2).
Defined.


Lemma result_saved_every_pass_and_at_end_witness :
  let P := Timeline.Pool Timeline.Moving Timeline.ThreeFixes in
  let run := @CreateGraphAndSolve P true 5 Timeline.Moving [] in
  Returned run = Some 0%Z
  /\ (Forall (fun st => filter is_Save (StepCalls st) = [CallSave false]) (Steps run)
      /\ filter is_Save (Epilogue run) = [CallSave true]
      /\ filter is_Save (all_calls run)
         = repeat (CallSave false) (length (Steps run)) ++ [CallSave true]).
Proof.
  cbv zeta.
  split; [vm_compute; reflexivity|].
  apply (result_saved_every_pass_and_at_end
           (Timeline.Pool Timeline.Moving Timeline.ThreeFixes)
           true 5 Timeline.Moving []).
  vm_compute; reflexivity.
Defined.

Lemma conversion_only_with_initialised_frame_witness :
  let Config := mkConfig Timeline.on Timeline.off Timeline.off Timeline.off
                         60 (mkSolverOptions []) "in" "out" in
  let P := Timeline.Pool Config Timeline.ThreeFixes in
  let run := @CreateGraphAndSolve P false 5 Config [] in
  Returned run = Some 0%Z
  /\ filter is_conversion_call (Epilogue run)
     = if IsActive (GNSS Config) && isInitialized (LocalFrame (Final run))
       then (if false then []
             else [CallWriteDataToFile (OutputFile Config ++ "_local")
                                       POSITION_STATE false])
            ++ [CallConvertAllStatesToGlobal]
       else [].
Proof.
  cbv zeta.
  split; [vm_compute; reflexivity|].
  apply (conversion_only_with_initialised_frame
           (Timeline.Pool
              (mkConfig Timeline.on Timeline.off Timeline.off Timeline.off
                        60 (mkSolverOptions []) "in" "out")
              Timeline.ThreeFixes)
           false 5
           (mkConfig Timeline.on Timeline.off Timeline.off Timeline.off
                     60 (mkSolverOptions []) "in" "out")
           []).
  vm_compute; reflexivity.
Defined.

Lemma run_ends_within_bound_witness :
  let P := Timeline.Pool Timeline.Moving Timeline.ThreeFixes in
  let Config := Timeline.Moving in
  let m := Measurements (state_of (@InitGraph P Config 30)
                                  (initial_state P Config [])) in
  let run := @CreateGraphAndSolve P true 5 Config [] in
  bounded_by P Timeline.remaining
  /\ @GetFirstTimestamp P (@ReadDataFromFile P (InputFile Config)) Config = Some 30
  /\ @GetLastTimestamp P (@ReadDataFromFile P (InputFile Config)) Config = Some 90
  /\ (Timeline.remaining m 30 < 5)%nat
  /\ (Returned run = Some 0%Z
      /\ (1 <= length (Steps run) <= S (Timeline.remaining m 30))%nat
      /\ (forall fuel', (Timeline.remaining m 30 < fuel')%nat ->
                        @CreateGraphAndSolve P true fuel' Config [] = run)).
Proof.
  cbv zeta.
  assert (H : (Timeline.remaining
                 (Measurements
                    (state_of (@InitGraph (Timeline.Pool Timeline.Moving
                                                         Timeline.ThreeFixes)
                                          Timeline.Moving 30)
                              (initial_state (Timeline.Pool Timeline.Moving
                                                            Timeline.ThreeFixes)
                                             Timeline.Moving [])))
                 30 < 5)%nat) by (vm_compute; lia).
  split; [apply Pool_bounded|].
  split; [reflexivity|]. split; [reflexivity|]. split; [exact H|].
  apply (run_ends_within_bound
           (Timeline.Pool Timeline.Moving Timeline.ThreeFixes)
           Timeline.remaining true 5 Timeline.Moving [] 30 90).
  - apply Pool_bounded.
  - reflexivity.
  - reflexivity.
  - exact H.
Defined.

Lemma main_exports_after_complete_run_witness :
  let P := Timeline.Pool Timeline.Moving Timeline.ThreeFixes in
  let Config := @ReadCommandLineOptions P [] in
  let m := Measurements (state_of (@InitGraph P Config 30)
                                  (initial_state P Config [])) in
  bounded_by P Timeline.remaining
  /\ @GetFirstTimestamp P (@ReadDataFromFile P (InputFile Config)) Config = Some 30
  /\ @GetLastTimestamp P (@ReadDataFromFile P (InputFile Config)) Config = Some 90
  /\ (Timeline.remaining m 30 < 5)%nat
  /\ @main P 5 []
     = (Some 0%Z, @CreateGraphAndSolve P false 5 Config [],
        [CallWriteDataToFile (OutputFile Config) POSITION_STATE false;
         CallWriteDataToFile (OutputFile Config) ORIENTATION_STATE true;
         CallWriteDataToFile (OutputFile Config) ANGLE_STATE true;
         CallWriteDataToFile (OutputFile Config) SOLVE_TIME_STATE true]).
Proof.
  cbv zeta.
  assert (H : (Timeline.remaining
                 (Measurements
                    (state_of (@InitGraph (Timeline.Pool Timeline.Moving
                                                         Timeline.ThreeFixes)
                                          Timeline.Moving 30)
                              (initial_state (Timeline.Pool Timeline.Moving
                                                            Timeline.ThreeFixes)
                                             Timeline.Moving [])))
                 30 < 5)%nat) by (vm_compute; lia).
  split; [apply Pool_bounded|].
  split; [reflexivity|]. split; [reflexivity|]. split; [exact H|].
  apply (main_exports_after_complete_run
           (Timeline.Pool Timeline.Moving Timeline.ThreeFixes)
           Timeline.remaining 5 [] 30 90).
  - apply Pool_bounded.
  - reflexivity.
  - reflexivity.
  - exact H.
Defined.

(** * Properties in double precision *)

(** ** The order of doubles *)

Section Binary64Order.

Import Floats.

Lemma SFcompare_not_below_itself (x : spec_float) : SFcompare x x <> Some Lt.
Proof.
  destruct x as [s|s| |s m e]; simpl; try discriminate; destruct s; try discriminate.
  - rewrite Z.compare_refl. change (Pos.compare_cont Eq m m) with (Pos.compare m m).
    rewrite Pos.compare_refl. discriminate.
  - rewrite Z.compare_refl. change (Pos.compare_cont Eq m m) with (Pos.compare m m).
    rewrite Pos.compare_refl. discriminate.
Qed.

Lemma SFcompare_below_trans (x y z : spec_float) :
  SFcompare x y = Some Lt -> SFcompare y z = Some Lt -> SFcompare x z = Some Lt.
Proof.
  destruct x as [sx|sx| |sx mx ex], y as [sy|sy| |sy my ey], z as [sz|sz| |sz mz ez];
    simpl; try discriminate; try reflexivity;
    try destruct sx; try destruct sy; try destruct sz; simpl;
    try discriminate; try reflexivity; intros H1 H2.
  all: change (Pos.compare_cont Eq) with Pos.compare in *.
  all: destruct (Z.compare_spec ex ey), (Z.compare_spec ey ez); try discriminate; subst.
  all: repeat match goal with
       | |- context [Z.compare ?a ?a] => rewrite Z.compare_refl
       | H : (?a < ?b)%Z |- context [Z.compare ?a ?b] =>
           rewrite (proj2 (Z.compare_lt_iff a b) H)
       | H : (?a < ?b)%Z |- context [Z.compare ?b ?a] =>
           rewrite (proj2 (Z.compare_gt_iff b a) H)
       end; try reflexivity.
  all: try (rewrite (proj2 (Z.compare_lt_iff ex ez)) by lia; reflexivity).
  all: try (rewrite (proj2 (Z.compare_gt_iff ex ez)) by lia; reflexivity).
  all: f_equal.
  all: try (destruct (Pos.compare_spec mx my), (Pos.compare_spec my mz); try discriminate;
            apply Pos.compare_lt_iff; lia).
  all: try (destruct (Pos.compare_spec mx my), (Pos.compare_spec my mz); try discriminate;
            destruct (Pos.compare_spec mx mz); try reflexivity; subst; lia).
Qed.

(** No double is below itself, NaN included. *)
Lemma double_ltb_irrefl (x : float) : Binary64.Num.ltb x x = false.
Proof.
  unfold Binary64.Num.ltb. rewrite ltb_spec. unfold SFltb.
  destruct (SFcompare (Prim2SF x) (Prim2SF x)) as [[]|] eqn:E; try reflexivity.
  exfalso. exact (SFcompare_not_below_itself _ E).
Qed.

Lemma double_gtb_irrefl (x : float) : Binary64.Num.gtb x x = false.
Proof.
  exact (double_ltb_irrefl x).
Qed.

Lemma double_ltb_trans (x y z : float) :
  Binary64.Num.ltb x y = true -> Binary64.Num.ltb y z = true ->
  Binary64.Num.ltb x z = true.
Proof.
  unfold Binary64.Num.ltb. rewrite !ltb_spec. unfold SFltb. intros H1 H2.
  destruct (SFcompare (Prim2SF x) (Prim2SF y)) as [[]|] eqn:E1; try discriminate.
  destruct (SFcompare (Prim2SF y) (Prim2SF z)) as [[]|] eqn:E2; try discriminate.
  now rewrite (SFcompare_below_trans _ _ _ E1 E2).
Qed.

End Binary64Order.

(** ** Averaging in double precision *)

Section Binary64Averaging.

Import Floats.
Import Binary64 Binary64.Resampling.
Local Open Scope float_scope.

Lemma double_add_length (a b : Vector) :
  length (Vec.add a b) = Nat.min (length a) (length b).
Proof.
  revert b. induction a as [|x a IH]; intros [|y b]; simpl; auto.
Qed.

Lemma double_add_at (a b : Vector) (i : nat) :
  (i < length (Vec.add a b))%nat ->
  Vec.at_ (Vec.add a b) i = Vec.at_ a i + Vec.at_ b i.
Proof.
  unfold Vec.at_. revert b i.
  induction a as [|x a IH]; intros [|y b] i; simpl; try lia.
  destruct i as [|i]; [reflexivity|]. intro H. apply IH. lia.
Qed.

Lemma double_zero_at (n i : nat) : Vec.at_ (Vec.zero n) i = 0.
Proof.
  unfold Vec.at_, Vec.zero. revert i.
  induction n as [|n IH]; intros [|i]; simpl; auto.
Qed.

Lemma double_cwiseInverse_at (v : Vector) (i : nat) :
  (i < length v)%nat -> Vec.at_ (Vec.cwiseInverse v) i = 1 / Vec.at_ v i.
Proof.
  unfold Vec.at_, Vec.cwiseInverse. intro H.
  rewrite (nth_indep _ 0 (1 / 0)) by (rewrite length_map; exact H).
  apply (map_nth (fun x => 1 / x)).
Qed.

Lemma double_div_at (v : Vector) (s : float) (i : nat) :
  (i < length v)%nat -> Vec.at_ (Vec.div v s) i = Vec.at_ v i / s.
Proof.
  unfold Vec.at_, Vec.div. intro H.
  rewrite (nth_indep _ 0 (0 / s)) by (rewrite length_map; exact H).
  apply (map_nth (fun x => x / s)).
Qed.

(** Summing vectors one after the other. *)

Lemma double_fold_add_length_le (vs : list Vector) (acc : Vector) :
  (length (fold_left Vec.add vs acc) <= length acc)%nat.
Proof.
  revert acc. induction vs as [|v vs IH]; intro acc; simpl; [lia|].
  specialize (IH (Vec.add acc v)). rewrite double_add_length in IH. lia.
Qed.

Lemma double_fold_add_length (vs : list Vector) (acc : Vector) (d : nat) :
  length acc = d -> Forall (fun v => length v = d) vs ->
  length (fold_left Vec.add vs acc) = d.
Proof.
  revert acc. induction vs as [|v vs IH]; intros acc Ha Hv; simpl; [exact Ha|].
  inversion Hv; subst. apply IH; [|assumption].
  rewrite double_add_length. lia.
Qed.

(** The sum is no longer than any of the vectors summed. *)
Lemma double_fold_add_within (vs : list Vector) (acc : Vector) (i : nat) :
  (i < length (fold_left Vec.add vs acc))%nat ->
  Forall (fun v => (i < length v)%nat) vs.
Proof.
  revert acc. induction vs as [|v vs IH]; intros acc Hi; simpl in *; constructor.
  - pose proof (double_fold_add_length_le vs (Vec.add acc v)) as Hle.
    rewrite double_add_length in Hle. lia.
  - exact (IH _ Hi).
Qed.

(** Each coefficient of the sum is the sum of the coefficients, added in
    the same order. *)
Lemma double_fold_add_at (vs : list Vector) (acc : Vector) (i : nat) :
  (i < length (fold_left Vec.add vs acc))%nat ->
  Vec.at_ (fold_left Vec.add vs acc) i
  = fold_left PrimFloat.add (component i vs) (Vec.at_ acc i).
Proof.
  revert acc. induction vs as [|v vs IH]; intros acc Hi; simpl in *.
  - reflexivity.
  - rewrite (IH _ Hi).
    pose proof (double_fold_add_length_le vs (Vec.add acc v)) as Hle.
    rewrite double_add_at by lia. reflexivity.
Qed.

Lemma double_accumulate_fold (Input : list SensorData) (s : Sums) :
  fold_left accumulate Input s =
  mkSums (fold_left PrimFloat.add (map getTimestamp Input) (Time s))
         (fold_left Vec.add (map getMean Input) (MeanSum s))
         (fold_left Vec.add
                    (map (fun m => Vec.cwiseInverse (getCovariance m)) Input)
                    (Info s)).
Proof.
  revert s. induction Input as [|m Input IH]; intro s; simpl.
  - destruct s; reflexivity.
  - rewrite IH. reflexivity.
Qed.

(** What [AverageMeasurement] computes on two or more measurements, before
    any reading of it. *)
Lemma double_AverageMeasurement_many (a b : SensorData) (rest : list SensorData) :
  let Input := a :: b :: rest in
  let size := Num.of_size (length Input) in
  AverageMeasurement Input
  = (mkSensorData
       (getType (last Input DefaultSensorData))
       (fold_left PrimFloat.add (map getTimestamp Input) 0 / size)
       (Vec.div (fold_left Vec.add (map getMean Input)
                           (Vec.zero (length (getMean a)))) size)
       (Vec.cwiseInverse
          (fold_left Vec.add
                     (map (fun m => Vec.cwiseInverse (getCovariance m)) Input)
                     (Vec.zero (length (getCovariance a))))),
     []).
Proof.
  cbv zeta. unfold AverageMeasurement.
  rewrite double_accumulate_fold. reflexivity.
Qed.

(** C9.  On two or more measurements whose means have one dimension,
    [AverageMeasurement] returns, in double precision: as timestamp the
    arithmetic mean of the timestamps; as mean, component by component,
    the arithmetic mean of the means; and as covariance, component by
    component, the inverse of the sum of the inverses of the input
    covariances, not their average.  Sums run over the input in order,
    each operation rounded to the nearest double.  Nothing is asked of the
    covariance entries: a zero entry has the inverse infinity, and a sum of
    inverses that is zero gives an infinite covariance. *)
Theorem AverageMeasurement_fuses :
  forall (Input : list SensorData) (d : nat),
    (2 <= length Input)%nat ->
    Forall (fun m => length (getMean m) = d) Input ->
    let out := fst (AverageMeasurement Input) in
    getTimestamp out = arithmetic_mean (map getTimestamp Input)
    /\ length (getMean out) = d
    /\ (forall i, (i < d)%nat ->
                  Vec.at_ (getMean out) i
                  = arithmetic_mean (component i (map getMean Input)))
    /\ (forall i, (i < length (getCovariance out))%nat ->
                  Vec.at_ (getCovariance out) i
                  = fused (component i (map getCovariance Input)))
    /\ (forall c, Forall (fun m => length (getCovariance m) = c) Input ->
                  length (getCovariance out) = c).
Proof.
  intros Input d Hlen Hdim.
  destruct Input as [|a [|b rest]]; simpl in Hlen; try lia.
  cbv zeta. rewrite double_AverageMeasurement_many. cbv zeta.
  remember (a :: b :: rest) as Input eqn:HI.
  assert (Ha : length (getMean a) = d)
    by (subst Input; inversion Hdim; assumption).
  assert (Hmeans : Forall (fun v => length v = d) (map getMean Input))
    by (apply Forall_map; exact Hdim).
  assert (Hl : length (fold_left Vec.add (map getMean Input)
                                 (Vec.zero (length (getMean a)))) = d).
  { apply double_fold_add_length; [|exact Hmeans].
    unfold Vec.zero. rewrite repeat_length. exact Ha. }
  cbn [fst getTimestamp getMean getCovariance].
  unfold arithmetic_mean, fused, sum.
  split; [|split; [|split; [|split]]].
  - rewrite !length_map. reflexivity.
  - unfold Vec.div. rewrite length_map. exact Hl.
  - intros i Hi.
    rewrite double_div_at by lia.
    rewrite double_fold_add_at by lia.
    rewrite double_zero_at. unfold component. rewrite !length_map. reflexivity.
  - intros i Hi. unfold Vec.cwiseInverse in Hi at 1. rewrite length_map in Hi.
    rewrite double_cwiseInverse_at by exact Hi.
    rewrite double_fold_add_at by exact Hi.
    rewrite double_zero_at.
    pose proof (double_fold_add_within _ _ _ Hi) as Hin.
    do 2 f_equal. unfold component. rewrite !map_map.
    apply map_ext_in. intros m Hm.
    apply double_cwiseInverse_at.
    rewrite Forall_forall in Hin.
    assert (Hm' : (i < length (Vec.cwiseInverse (getCovariance m)))%nat).
    { apply Hin. apply in_map_iff. exists m. split; [reflexivity|exact Hm]. }
    unfold Vec.cwiseInverse in Hm'. rewrite length_map in Hm'. exact Hm'.
  - intros c Hc. unfold Vec.cwiseInverse at 1. rewrite length_map.
    apply double_fold_add_length.
    + unfold Vec.zero. rewrite repeat_length.
      subst Input. inversion Hc; assumption.
    + apply Forall_map.
      eapply Forall_impl; [|exact Hc].
      intros m Hm. simpl. unfold Vec.cwiseInverse. rewrite length_map. exact Hm.
Qed.

End Binary64Averaging.

(** ** Sampling down in double precision *)

Section Binary64Sampling.

Import Floats.
Import Binary64 Binary64.Resampling.
Local Open Scope float_scope.

Lemma double_AverageMeasurement_quiet (Window : list SensorData) :
  Window <> [] -> snd (AverageMeasurement Window) = [].
Proof.
  destruct Window as [|a [|b w]]; [congruence| |]; reflexivity.
Qed.

(** One pass of the loop either closes the window or extends it. *)
Lemma double_sample_step_cases (SampleTime TimeMax : float) (st : Sampler)
      (Sensor : SensorData) :
  let Window := AveragingWindow st ++ [Sensor] in
  let st' := sample_step SampleTime TimeMax st Sensor in
  if Num.geb (getTimestamp Sensor) (TimeNext st)
     || Num.eqb (getTimestamp Sensor) TimeMax
  then Output st'
       = Output st ++ [setTimestamp (fst (AverageMeasurement Window))
                                    (getTimestamp (last Window DefaultSensorData))]
       /\ AveragingWindow st' = []
       /\ TimeNext st' = TimeNext st + SampleTime
       /\ Errors st' = Errors st
  else Output st' = Output st
       /\ AveragingWindow st' = Window
       /\ TimeNext st' = TimeNext st
       /\ Errors st' = Errors st.
Proof.
  cbv zeta. unfold sample_step.
  destruct (Num.geb (getTimestamp Sensor) (TimeNext st)
            || Num.eqb (getTimestamp Sensor) TimeMax).
  - pose proof (double_AverageMeasurement_quiet (AveragingWindow st ++ [Sensor])) as Hq.
    destruct (AverageMeasurement (AveragingWindow st ++ [Sensor])) as [avg lg].
    simpl in *. repeat split.
    rewrite Hq; [apply app_nil_r|].
    intro H. apply app_eq_nil in H. destruct H; discriminate.
  - simpl. repeat split.
Qed.

(** While no measurement closes the window, the loop only collects. *)
Lemma double_fold_none_closes (SampleTime TimeMax : float) (body : list SensorData) :
  forall st,
    (forall x, In x body ->
               Num.geb (getTimestamp x) (TimeNext st) = false
               /\ Num.eqb (getTimestamp x) TimeMax = false) ->
    fold_left (sample_step SampleTime TimeMax) body st
    = mkSampler (Output st) (AveragingWindow st ++ body) (TimeNext st) (Errors st).
Proof.
  induction body as [|x rest IH]; intros st H.
  - simpl. rewrite app_nil_r. destruct st; reflexivity.
  - change (fold_left (sample_step SampleTime TimeMax) (x :: rest) st)
      with (fold_left (sample_step SampleTime TimeMax) rest
                      (sample_step SampleTime TimeMax st x)).
    pose proof (double_sample_step_cases SampleTime TimeMax st x) as Hs.
    cbv zeta in Hs.
    destruct (H x (or_introl eq_refl)) as [Hg He]. rewrite Hg, He in Hs.
    cbn [orb] in Hs. destruct Hs as (H1 & H2 & H3 & H4).
    rewrite IH.
    + rewrite H1, H2, H3, H4, <- app_assoc. reflexivity.
    + intros y Hy. rewrite H3. apply H. right. exact Hy.
Qed.

(** X6.  When no measurement before the last reaches the end of the
    first period, which is [Time + SampleTime] rounded to a double, or
    carries the last timestamp, and the last timestamp is a number, the
    output is one measurement: the average of the whole input, with the
    timestamp of the last measurement. *)
Theorem SampleMeasurementsDown_one_period :
  forall (body : list SensorData) (final : SensorData) (SampleTime : float),
    (forall x, In x body ->
               Num.geb (getTimestamp x) (getTimestamp (hd final body) + SampleTime)
               = false
               /\ Num.eqb (getTimestamp x) (getTimestamp final) = false) ->
    Num.eqb (getTimestamp final) (getTimestamp final) = true ->
    SampleMeasurementsDown (body ++ [final]) SampleTime
    = ([setTimestamp (fst (AverageMeasurement (body ++ [final])))
                     (getTimestamp final)],
       []).
Proof.
  intros body final SampleTime H Hnum.
  pose (front := hd final body).
  pose (TimeMax := getTimestamp final).
  pose (start := mkSampler [] [] (getTimestamp front + SampleTime) []).
  assert (HS : SampleMeasurementsDown (body ++ [final]) SampleTime
               = (Output (fold_left (sample_step SampleTime TimeMax)
                                    (body ++ [final]) start),
                  Errors (fold_left (sample_step SampleTime TimeMax)
                                    (body ++ [final]) start))).
  { unfold SampleMeasurementsDown, TimeMax, start, front.
    rewrite last_last. destruct body; reflexivity. }
  rewrite HS, fold_left_app.
  rewrite (double_fold_none_closes SampleTime TimeMax body start).
  - unfold start.
    cbn [fold_left Output AveragingWindow TimeNext Errors].
    pose proof (double_sample_step_cases SampleTime TimeMax
                  (mkSampler [] ([] ++ body) (getTimestamp front + SampleTime) [])
                  final) as Hs.
    cbv zeta in Hs. cbn [Output AveragingWindow TimeNext Errors] in *.
    unfold TimeMax in Hs at 1. rewrite Hnum, orb_true_r in Hs.
    destruct Hs as (H1 & _ & _ & H4).
    rewrite H1, H4. rewrite last_last. reflexivity.
  - intros x Hx. exact (H x Hx).
Qed.

End Binary64Sampling.

(** ** The application in double precision *)

Section Binary64Product.

Import Floats.
Local Open Scope float_scope.

Lemma SFmul_comm (x y : spec_float) : SFmul prec emax x y = SFmul prec emax y x.
Proof.
  destruct x as [sx|sx| |sx mx ex], y as [sy|sy| |sy my ey]; simpl;
    try reflexivity; try (rewrite xorb_comm; reflexivity).
  rewrite xorb_comm, Pos.mul_comm, Z.add_comm. reflexivity.
Qed.

(** The rounded product of two doubles does not depend on their order. *)
Lemma double_mul_comm (x y : float) : x * y = y * x.
Proof.
  apply Prim2SF_inj. rewrite !mul_spec. apply SFmul_comm.
Qed.

End Binary64Product.

Section Binary64App.

Import Floats.
Import Binary64 Binary64.App Binary64.Props.
Local Open Scope float_scope.

Context {Lib : Library}.

Ltac run_helpers :=
  repeat match goal with
         | |- context [Solve ?a ?b ?c ?d] => destruct (Solve a b c d)
         | |- context [Save ?a ?b ?c ?d ?e] => destruct (Save a b c d e)
         | |- context [InitWithGNSS ?a ?b ?c ?d ?e ?f] =>
             destruct (InitWithGNSS a b c d e f) as [[? ?] ?]
         | |- context [InitIMU ?a ?b ?c ?d] => destruct (InitIMU a b c d)
         end.

Lemma double_Iteration_calls (Config : FactorGraphConfig)
      (TimeFirst TimeLast TimeOld TimeNow : float) (s : State) :
  calls_of (Iteration Config TimeFirst TimeLast TimeOld TimeNow) s
  = pass_calls Config TimeFirst TimeLast TimeOld TimeNow.
Proof.
  unfold calls_of, pass_calls, motion_calls, measure_calls, Iteration, Predict,
    Measure, doSolve, doStampDuration, doSave, when, onGraph, bind, get, put, call, ret.
  destruct (Num.gtb TimeNow TimeFirst), (IsActive (IMU Config)),
    (IsActive (Odom Config)), (IsActive (GNSS Config)), (Num.eqb TimeNow TimeFirst),
    (IsActive (Prior Config)
     && FactorType_eqb (Type_ (Prior Config)) Prior3);
    cbn -[Num.ltb Num.fmod PrimFloat.sub PrimFloat.mul PrimFloat.div];
    run_helpers; reflexivity.
Qed.

(** A pass is the renewal of the summary, the prediction when [TimeNow]
    is past [TimeFirst], and the rest from [Measure] on. *)
Lemma double_Iteration_state (Config : FactorGraphConfig)
      (TimeFirst TimeLast TimeOld TimeNow : float) (s : State) :
  state_of (Iteration Config TimeFirst TimeLast TimeOld TimeNow) s
  = state_of (from_Measure Config TimeFirst TimeLast TimeOld TimeNow)
             (renewed TimeNow
                (if Num.gtb TimeNow TimeFirst
                 then setGraph s (predicted Config (Measurements s) TimeOld TimeNow
                                            (Graph s))
                 else s)).
Proof.
  change (Iteration Config TimeFirst TimeLast TimeOld TimeNow)
    with (s <- get ;;
          put (setSummary s (NewData IterationSummary TimeNow)) ;;
          when (Num.gtb TimeNow TimeFirst) (Predict Config TimeOld TimeNow) ;;
          from_Measure Config TimeFirst TimeLast TimeOld TimeNow).
  unfold state_of, renewed, predicted, Predict, when, bind, get, put, call, ret,
    setSummary, setGraph.
  destruct (Num.gtb TimeNow TimeFirst), (IsActive (IMU Config)),
    (IsActive (Odom Config));
    cbn -[from_Measure];
    match goal with
    | |- context [from_Measure ?c ?a ?b ?o ?n ?x] =>
        destruct (from_Measure c a b o n x) as [[? ?] ?]
    end;
    reflexivity.
Qed.

(** One more pass of the loop. *)
Lemma double_UpdateLoop_S (fuel : nat) (Config : FactorGraphConfig)
      (TimeFirst TimeLast TimeOld TimeNow : float) (s : State) :
  let s1 := state_of (Iteration Config TimeFirst TimeLast TimeOld TimeNow) s in
  let step := mkStep TimeOld TimeNow s
                     (pass_calls Config TimeFirst TimeLast TimeOld TimeNow) s1 in
  UpdateLoop (S fuel) Config TimeFirst TimeLast TimeOld TimeNow s
  = match IncrementTime Config (Measurements s1) TimeOld TimeNow TimeLast with
    | (true, (TimeOld', TimeNow')) =>
        let r := UpdateLoop fuel Config TimeFirst TimeLast TimeOld' TimeNow' s1 in
        mkLoopResult (step :: LoopSteps r) (LoopFinished r)
                     (LoopTimeOld r) (LoopTimeNow r) (LoopState r)
    | (false, (TimeOld', TimeNow')) =>
        mkLoopResult [step] true TimeOld' TimeNow' s1
    end.
Proof.
  cbv zeta.
  rewrite <- (double_Iteration_calls Config TimeFirst TimeLast TimeOld TimeNow s).
  unfold state_of, calls_of. cbn [UpdateLoop].
  destruct (Iteration Config TimeFirst TimeLast TimeOld TimeNow s) as [[u s1] calls].
  reflexivity.
Qed.

Lemma double_UpdateLoop_first (fuel : nat) (Config : FactorGraphConfig)
      (TimeFirst TimeLast TimeOld TimeNow : float) (s : State) :
  exists rest,
    LoopSteps (UpdateLoop (S fuel) Config TimeFirst TimeLast TimeOld TimeNow s)
    = mkStep TimeOld TimeNow s
             (pass_calls Config TimeFirst TimeLast TimeOld TimeNow)
             (state_of (Iteration Config TimeFirst TimeLast TimeOld TimeNow) s)
             :: rest.
Proof.
  rewrite double_UpdateLoop_S. cbv zeta.
  destruct (IncrementTime Config _ TimeOld TimeNow TimeLast)
    as [[|] [TimeOld' TimeNow']]; cbn [LoopSteps]; eexists; reflexivity.
Qed.

(** Every pass recorded is a run of the loop body on the objects the pass
    began with. *)
Lemma double_UpdateLoop_passes (fuel : nat) (Config : FactorGraphConfig)
      (TimeFirst TimeLast : float) :
  forall TimeOld TimeNow s,
    Forall (fun st =>
              StepCalls st
              = pass_calls Config TimeFirst TimeLast (StepTimeOld st) (StepTimeNow st)
              /\ StepAfter st
                 = state_of (Iteration Config TimeFirst TimeLast
                                       (StepTimeOld st) (StepTimeNow st))
                            (StepBefore st))
           (LoopSteps (UpdateLoop fuel Config TimeFirst TimeLast TimeOld TimeNow s)).
Proof.
  induction fuel as [|fuel IH]; intros TimeOld TimeNow s.
  - constructor.
  - rewrite double_UpdateLoop_S. cbv zeta.
    destruct (IncrementTime Config _ TimeOld TimeNow TimeLast)
      as [[|] [TimeOld' TimeNow']]; cbn [LoopSteps].
    + constructor; [split; reflexivity|apply IH].
    + constructor; [split; reflexivity|constructor].
Qed.

Lemma double_UpdateLoop_chained (fuel : nat) (Config : FactorGraphConfig)
      (TimeFirst TimeLast : float) :
  forall TimeOld TimeNow s,
    let r := UpdateLoop fuel Config TimeFirst TimeLast TimeOld TimeNow s in
    chained Config TimeLast (LoopFinished r) (LoopSteps r).
Proof.
  induction fuel as [|fuel IH]; intros TimeOld TimeNow s; cbv zeta.
  - exact I.
  - rewrite double_UpdateLoop_S. cbv zeta.
    destruct (IncrementTime Config _ TimeOld TimeNow TimeLast)
      as [[|] [TimeOld' TimeNow']] eqn:E; cbn [LoopSteps LoopFinished].
    + specialize (IH TimeOld' TimeNow'
                     (state_of (Iteration Config TimeFirst TimeLast TimeOld TimeNow) s)).
      cbv zeta in IH.
      destruct fuel as [|fuel'].
      * cbn [UpdateLoop LoopSteps LoopFinished chained
             StepAfter StepTimeOld StepTimeNow negb].
        rewrite E. reflexivity.
      * destruct (double_UpdateLoop_first fuel' Config TimeFirst TimeLast
                    TimeOld' TimeNow'
                    (state_of (Iteration Config TimeFirst TimeLast TimeOld TimeNow) s))
          as [rest Hr].
        rewrite Hr in *.
        cbn [chained StepAfter StepBefore StepTimeOld StepTimeNow].
        split; [exact E|]. split; [reflexivity|exact IH].
    + cbn [chained StepAfter StepTimeOld StepTimeNow negb]. rewrite E. reflexivity.
Qed.

(** A loop that has not ended has made all the passes allowed. *)
Lemma double_UpdateLoop_cut (fuel : nat) (Config : FactorGraphConfig)
      (TimeFirst TimeLast : float) :
  forall TimeOld TimeNow s,
    let r := UpdateLoop fuel Config TimeFirst TimeLast TimeOld TimeNow s in
    LoopFinished r = false -> length (LoopSteps r) = fuel.
Proof.
  induction fuel as [|fuel IH]; intros TimeOld TimeNow s; cbv zeta.
  - reflexivity.
  - rewrite double_UpdateLoop_S. cbv zeta.
    destruct (IncrementTime Config _ TimeOld TimeNow TimeLast)
      as [[|] [TimeOld' TimeNow']]; cbn [LoopSteps LoopFinished length].
    + intro H. f_equal. exact (IH _ _ _ H).
    + discriminate.
Qed.

Lemma double_UpdateLoop_follows (fuel : nat) (Config : FactorGraphConfig)
      (TimeFirst TimeLast : float) :
  keeps_previous ->
  forall TimeOld TimeNow s,
    follows TimeOld
            (LoopSteps (UpdateLoop fuel Config TimeFirst TimeLast TimeOld TimeNow s)).
Proof.
  intro Hk. induction fuel as [|fuel IH]; intros TimeOld TimeNow s.
  - exact I.
  - rewrite double_UpdateLoop_S. cbv zeta.
    destruct (IncrementTime Config _ TimeOld TimeNow TimeLast)
      as [[|] [TimeOld' TimeNow']] eqn:E; cbn [LoopSteps follows StepTimeOld StepTimeNow].
    + split; [reflexivity|].
      apply Hk in E. subst TimeOld'. apply IH.
    + split; [reflexivity|exact I].
Qed.

(** Once past [TimeFirst], always past it. *)
Lemma double_UpdateLoop_past (fuel : nat) (Config : FactorGraphConfig)
      (TimeFirst TimeLast : float) :
  moves_forward ->
  forall TimeOld TimeNow s,
    Num.gtb TimeNow TimeFirst = true ->
    Forall (fun st => Num.gtb (StepTimeNow st) TimeFirst = true)
           (LoopSteps (UpdateLoop fuel Config TimeFirst TimeLast TimeOld TimeNow s)).
Proof.
  intro Hm. induction fuel as [|fuel IH]; intros TimeOld TimeNow s Hgt.
  - constructor.
  - rewrite double_UpdateLoop_S. cbv zeta.
    destruct (IncrementTime Config _ TimeOld TimeNow TimeLast)
      as [[|] [TimeOld' TimeNow']] eqn:E; cbn [LoopSteps].
    + constructor; [exact Hgt|]. apply IH.
      apply Hm in E. unfold Num.gtb in *.
      exact (double_ltb_trans _ _ _ Hgt E).
    + constructor; [exact Hgt|constructor].
Qed.

Lemma double_UpdateLoop_later (fuel : nat) (Config : FactorGraphConfig)
      (TimeFirst TimeLast : float) :
  moves_forward ->
  forall TimeOld s,
    Forall (fun st => Num.gtb (StepTimeNow st) TimeFirst = true)
           (tl (LoopSteps (UpdateLoop fuel Config TimeFirst TimeLast
                                      TimeOld TimeFirst s))).
Proof.
  intros Hm TimeOld s. destruct fuel as [|fuel]; [constructor|].
  rewrite double_UpdateLoop_S. cbv zeta.
  destruct (IncrementTime Config _ TimeOld TimeFirst TimeLast)
    as [[|] [TimeOld' TimeNow']] eqn:E; cbn [LoopSteps tl]; [|constructor].
  apply double_UpdateLoop_past; [exact Hm|].
  apply Hm in E. exact E.
Qed.

(** The run, once both timestamps are known. *)
Lemma double_CreateGraphAndSolve_started (TESTMODE : bool) (fuel : nat)
      (Config : FactorGraphConfig) (Result0 : StateDataSet)
      (TimeFirst TimeLast : float) :
  let s0 := Declared Config Result0 in
  let s1 := state_of (InitGraph Config TimeFirst) s0 in
  let r := UpdateLoop fuel Config TimeFirst TimeLast (TimeFirst - 1) TimeFirst s1 in
  let run := CreateGraphAndSolve TESTMODE fuel Config Result0 in
  GetFirstTimestamp (ReadDataFromFile (InputFile Config)) Config = Some TimeFirst ->
  GetLastTimestamp (ReadDataFromFile (InputFile Config)) Config = Some TimeLast ->
  Steps run = LoopSteps r
  /\ Prologue run
     = CallReadDataFromFile (InputFile Config)
         :: calls_of (InitGraph Config TimeFirst) s0
  /\ Returned run = (if LoopFinished r then Some 0%Z else None)
  /\ has_returned run = LoopFinished r.
Proof.
  cbv zeta. intros HF HL.
  unfold has_returned, CreateGraphAndSolve, state_of, calls_of.
  cbn [Declared Measurements]. rewrite HF, HL.
  destruct (InitGraph Config TimeFirst _) as [[u s1] init]. cbn [fst snd].
  destruct (LoopFinished _).
  - destruct (Finish TESTMODE Config _ _) as [[u' s2] fin]. auto.
  - auto.
Qed.

(** The calls of one pass, by kind. *)

Lemma double_pass_Solve (Config : FactorGraphConfig)
      (TimeFirst TimeLast TimeOld TimeNow : float) :
  filter is_Solve (pass_calls Config TimeFirst TimeLast TimeOld TimeNow)
  = [CallSolve (forceSolve TimeOld TimeNow)].
Proof.
  unfold pass_calls, motion_calls, measure_calls, forceSolve.
  rewrite (double_mul_comm Num.literal_1_1).
  destruct (Num.gtb TimeNow TimeFirst), (IsActive (IMU Config)),
    (IsActive (Odom Config)), (IsActive (GNSS Config)), (Num.eqb TimeNow TimeFirst),
    (IsActive (Prior Config)
     && FactorType_eqb (Type_ (Prior Config)) Prior3);
    reflexivity.
Qed.

Lemma double_pass_motion_calls (Config : FactorGraphConfig)
      (TimeFirst TimeLast TimeOld TimeNow : float) :
  filter is_motion_call (pass_calls Config TimeFirst TimeLast TimeOld TimeNow)
  = if Num.gtb TimeNow TimeFirst then motion_calls Config TimeOld TimeNow else [].
Proof.
  unfold pass_calls, motion_calls, measure_calls.
  destruct (Num.gtb TimeNow TimeFirst), (IsActive (IMU Config)),
    (IsActive (Odom Config)), (IsActive (GNSS Config)), (Num.eqb TimeNow TimeFirst),
    (IsActive (Prior Config)
     && FactorType_eqb (Type_ (Prior Config)) Prior3);
    reflexivity.
Qed.

End Binary64App.

(** ** The example library meets the assumptions on [IncrementTime] *)

Section RecorderFacts.

Import Floats.
Import Binary64 Binary64.App Binary64.Props.

Lemma Recorder_increment_success (ts : list float)
      (TimeOld TimeNow TimeLast TimeOld' TimeNow' : float) :
  Recorder.increment ts TimeOld TimeNow TimeLast = (true, (TimeOld', TimeNow')) ->
  TimeOld' = TimeNow /\ Num.ltb TimeNow TimeNow' = true.
Proof.
  unfold Recorder.increment, Recorder.next_after.
  destruct (find (fun u => Num.ltb TimeNow u) ts) as [t|] eqn:E; [|discriminate].
  destruct (Num.gtb t TimeLast); [discriminate|].
  intro H. injection H as <- <-.
  split; [reflexivity|]. apply find_some in E. apply E.
Qed.

Lemma Recorder_keeps_previous (Stamps : list float) :
  @keeps_previous (Recorder.Lib Stamps).
Proof.
  intros Config m TimeOld TimeNow TimeLast TimeOld' TimeNow' H.
  apply (Recorder_increment_success m TimeOld TimeNow TimeLast TimeOld' TimeNow' H).
Qed.

Lemma Recorder_moves_forward (Stamps : list float) :
  @moves_forward (Recorder.Lib Stamps).
Proof.
  intros Config m TimeOld TimeNow TimeLast TimeOld' TimeNow' H.
  apply (Recorder_increment_success m TimeOld TimeNow TimeLast TimeOld' TimeNow' H).
Qed.

End RecorderFacts.

(** ** The claims about the loop, in double precision *)

Section Binary64Claims.

Import Floats.
Import Binary64 Binary64.App Binary64.Props.
Local Open Scope float_scope.

(** C3.  A run that finds both timestamps makes a first pass with
    [TimeOld = TimeFirst - 1] and [TimeNow = TimeFirst]; every further pass
    is the one [IncrementTime] announced, with the [TimeNow] of the pass
    before it as its [TimeOld] (given that [IncrementTime] hands the old
    [TimeNow] on), and the passes go on until [IncrementTime] answers
    [false]; and every pass calls [Solve] once, with the force flag
    [fmod(TimeNow, 60) < 1.1 * (TimeNow - TimeOld)] as doubles compute it:
    1.1 is the double nearest to eleven tenths, and the difference and the
    product are rounded. *)
Theorem Solve_flag_follows_schedule :
  forall (Lib : Library) (TESTMODE : bool) (fuel : nat)
         (Config : FactorGraphConfig) (Result0 : StateDataSet)
         (TimeFirst TimeLast : float),
    @keeps_previous Lib ->
    GetFirstTimestamp (ReadDataFromFile (InputFile Config)) Config = Some TimeFirst ->
    GetLastTimestamp (ReadDataFromFile (InputFile Config)) Config = Some TimeLast ->
    (0 < fuel)%nat ->
    let run := CreateGraphAndSolve TESTMODE fuel Config Result0 in
    (exists first later,
        Steps run = first :: later
        /\ StepTimeOld first = TimeFirst - 1
        /\ StepTimeNow first = TimeFirst
        /\ follows TimeFirst later)
    /\ chained Config TimeLast (has_returned run) (Steps run)
    /\ (has_returned run = false -> length (Steps run) = fuel)
    /\ Forall (fun st =>
                 filter is_Solve (StepCalls st)
                 = [CallSolve (forceSolve (StepTimeOld st) (StepTimeNow st))])
              (Steps run).
Proof.
  intros Lib TESTMODE fuel Config Result0 TimeFirst TimeLast Hk HF HL Hfuel.
  cbv zeta.
  destruct (double_CreateGraphAndSolve_started TESTMODE fuel Config Result0
              TimeFirst TimeLast HF HL) as (HS & _ & _ & HR).
  rewrite HS, HR. clear HS HR.
  destruct fuel as [|fuel]; [lia|].
  set (s1 := state_of (InitGraph Config TimeFirst) (Declared Config Result0)).
  split; [|split; [|split]].
  - pose proof (double_UpdateLoop_follows (S fuel) Config TimeFirst TimeLast Hk
                  (TimeFirst - 1) TimeFirst s1) as Hf.
    destruct (double_UpdateLoop_first fuel Config TimeFirst TimeLast
                (TimeFirst - 1) TimeFirst s1) as [rest Hr].
    rewrite Hr in *. cbn [follows StepTimeOld StepTimeNow] in Hf.
    eexists. exists rest. split; [reflexivity|].
    cbn [StepTimeOld StepTimeNow]. destruct Hf as [_ Hf]. auto.
  - apply double_UpdateLoop_chained.
  - apply double_UpdateLoop_cut.
  - eapply Forall_impl; [|apply double_UpdateLoop_passes].
    intros st [Hst _]. rewrite Hst. apply double_pass_Solve.
Qed.

(** C6.  A run that finds both timestamps makes a first pass at
    [TimeFirst], on the objects [InitGraph] left, and that pass skips the
    prediction: it makes no call of [AddIMU] or [AddOdometry], and what it
    leaves is what the body from [Measure] on makes of the graph as it
    stood.  The passes go on until [IncrementTime] answers [false], and
    every later pass (each the one [IncrementTime] announced, given that
    [IncrementTime] moves time forward) has [TimeNow > TimeFirst],
    calls [AddIMU] when the IMU is active and then [AddOdometry] when the
    odometry is active, and hands the graph these two have extended to the
    body from [Measure] on. *)
Theorem Predict_skipped_at_first_pass_only :
  forall (Lib : Library) (TESTMODE : bool) (fuel : nat)
         (Config : FactorGraphConfig) (Result0 : StateDataSet)
         (TimeFirst TimeLast : float),
    @moves_forward Lib ->
    GetFirstTimestamp (ReadDataFromFile (InputFile Config)) Config = Some TimeFirst ->
    GetLastTimestamp (ReadDataFromFile (InputFile Config)) Config = Some TimeLast ->
    (0 < fuel)%nat ->
    let run := CreateGraphAndSolve TESTMODE fuel Config Result0 in
    exists first later,
      Steps run = first :: later
      /\ chained Config TimeLast (has_returned run) (Steps run)
      /\ (has_returned run = false -> length (Steps run) = fuel)
      /\ StepTimeNow first = TimeFirst
      /\ StepBefore first
         = state_of (InitGraph Config TimeFirst) (Declared Config Result0)
      /\ filter is_motion_call (StepCalls first) = []
      /\ StepAfter first
         = state_of (from_Measure Config TimeFirst TimeLast
                                  (StepTimeOld first) TimeFirst)
                    (renewed TimeFirst (StepBefore first))
      /\ Forall (fun st =>
                   Num.gtb (StepTimeNow st) TimeFirst = true
                   /\ filter is_motion_call (StepCalls st)
                      = motion_calls Config (StepTimeOld st) (StepTimeNow st)
                   /\ StepAfter st
                      = state_of (from_Measure Config TimeFirst TimeLast
                                               (StepTimeOld st) (StepTimeNow st))
                                 (renewed (StepTimeNow st)
                                    (setGraph (StepBefore st)
                                       (predicted Config (Measurements (StepBefore st))
                                                  (StepTimeOld st) (StepTimeNow st)
                                                  (Graph (StepBefore st))))))
                later.
Proof.
  intros Lib TESTMODE fuel Config Result0 TimeFirst TimeLast Hm HF HL Hfuel.
  cbv zeta.
  destruct (double_CreateGraphAndSolve_started TESTMODE fuel Config Result0
              TimeFirst TimeLast HF HL) as (HS & _ & _ & HR).
  rewrite HS, HR. clear HS HR.
  destruct fuel as [|fuel]; [lia|].
  set (s1 := state_of (InitGraph Config TimeFirst) (Declared Config Result0)).
  pose proof (double_UpdateLoop_cut (S fuel) Config TimeFirst TimeLast
                (TimeFirst - 1) TimeFirst s1) as Hcut.
  pose proof (double_UpdateLoop_later (S fuel) Config TimeFirst TimeLast Hm
                (TimeFirst - 1) s1) as Hlater.
  pose proof (double_UpdateLoop_passes (S fuel) Config TimeFirst TimeLast
                (TimeFirst - 1) TimeFirst s1) as Hpass.
  pose proof (double_UpdateLoop_chained (S fuel) Config TimeFirst TimeLast
                (TimeFirst - 1) TimeFirst s1) as Hch.
  destruct (double_UpdateLoop_first fuel Config TimeFirst TimeLast
              (TimeFirst - 1) TimeFirst s1) as [rest Hr].
  cbv zeta in Hch, Hcut.
  rewrite Hr in *. cbn [tl] in Hlater.
  inversion Hpass as [|? ? _ Hrest]; subst.
  eexists. exists rest. split; [reflexivity|].
  cbn [StepTimeOld StepTimeNow StepBefore StepCalls StepAfter].
  split; [exact Hch|]. split; [exact Hcut|].
  split; [reflexivity|]. split; [reflexivity|].
  split; [rewrite double_pass_motion_calls, double_gtb_irrefl; reflexivity|].
  split; [rewrite double_Iteration_state, double_gtb_irrefl; reflexivity|].
  apply Forall_forall. intros st Hin.
  rewrite Forall_forall in Hlater, Hrest.
  destruct (Hrest st Hin) as [Hc Ha].
  pose proof (Hlater st Hin) as Hgt.
  split; [exact Hgt|]. split.
  - rewrite Hc, double_pass_motion_calls, Hgt. reflexivity.
  - rewrite Ha, double_Iteration_state, Hgt. reflexivity.
Qed.


(** X8.  [InitGraph] makes these calls and no other, in this order:
    [InitWithGNSS] (with the initial uncertainty 0.1) when GNSS is active;
    then [InitIMU] (over the first 2 seconds) when the IMU is active, or
    else [InitOdom] when the odometry is active; and, when GNSS is not
    active, the three calls on the graph that set the anchor:
    [addState], [addFactor<Prior3>] with the shared standard deviation 1,
    and [setAllConstantOutsideWindow(1.0, TimeInitial)]. *)
Theorem InitGraph_calls :
  forall (Lib : Library) (Config : FactorGraphConfig) (TimeInitial : float)
         (s : State),
    calls_of (InitGraph Config TimeInitial) s
    = (if IsActive (GNSS Config)
       then [CallInitWithGNSS TimeInitial Num.literal_0_1] else [])
      ++ (if IsActive (IMU Config) then [CallInitIMU TimeInitial 2]
          else if IsActive (Odom Config) then [CallInitOdom TimeInitial] else [])
      ++ (if IsActive (GNSS Config) then []
          else [CallAddState POSITION_STATE Point3 TimeInitial;
                CallAddFactor Prior3 (StateID3 POSITION_STATE TimeInitial 0)
                              (StdDevSharedDiagonal 1);
                CallSetAllConstantOutsideWindow 1 TimeInitial]).
Proof.
  intros Lib Config TimeInitial s.
  unfold calls_of, InitGraph, when, onGraph, bind, get, put, call, ret.
  destruct (IsActive (GNSS Config)), (IsActive (IMU Config)), (IsActive (Odom Config));
    cbn;
    repeat match goal with
           | |- context [InitWithGNSS ?a ?b ?c ?d ?e ?f] =>
               destruct (InitWithGNSS a b c d e f) as [[? ?] ?]
           | |- context [InitIMU ?a ?b ?c ?d] => destruct (InitIMU a b c d)
           end;
    reflexivity.
Qed.

(** X16.  Every pass of the loop makes its calls in one fixed order:
    prediction ([AddIMU], [AddOdometry]; only past [TimeFirst]), [AddGNSS],
    the look-up of the position and [addFactor<Prior3>] for the prior of
    the configuration, the refining [Graph.solve] (only at [TimeFirst]),
    [Solve], [Save] (not final), [PrintProgress].  Which calls are made
    depends on the configuration and the timestamps only, not on the graph
    or on what the helpers return.  The force flag and the progress are the
    doubles the source computes. *)
Theorem every_pass_makes_the_same_calls :
  forall (Lib : Library) (TESTMODE : bool) (fuel : nat)
         (Config : FactorGraphConfig) (Result0 : StateDataSet)
         (TimeFirst TimeLast : float),
    GetFirstTimestamp (ReadDataFromFile (InputFile Config)) Config = Some TimeFirst ->
    GetLastTimestamp (ReadDataFromFile (InputFile Config)) Config = Some TimeLast ->
    Forall (fun st =>
              let TimeOld := StepTimeOld st in
              let TimeNow := StepTimeNow st in
              StepCalls st
              = (if Num.gtb TimeNow TimeFirst then
                   (if IsActive (IMU Config) then [CallAddIMU TimeOld TimeNow] else [])
                   ++ (if IsActive (Odom Config)
                       then [CallAddOdometry TimeOld TimeNow] else [])
                 else [])
                ++ (if IsActive (GNSS Config) then [CallAddGNSS TimeOld TimeNow] else [])
                ++ (if IsActive (Prior Config)
                       && FactorType_eqb (Type_ (Prior Config)) Prior3
                    then [CallGetElement POSITION_STATE TimeNow;
                          CallAddFactor Prior3 (StateID2 POSITION_STATE TimeNow)
                                        (SqrtInformationDiagonal
                                           (Vec.tail (Param (Prior Config)) 3))]
                    else [])
                ++ (if Num.eqb TimeNow TimeFirst then [CallGraphSolve] else [])
                ++ [CallSolve (Num.ltb (Num.fmod TimeNow 60)
                                       ((TimeNow - TimeOld) * Num.literal_1_1));
                    CallSave false;
                    CallPrintProgress ((TimeNow - TimeFirst)
                                       / (TimeLast - TimeFirst) * 100)])
           (Steps (CreateGraphAndSolve TESTMODE fuel Config Result0)).
Proof.
  intros Lib TESTMODE fuel Config Result0 TimeFirst TimeLast HF HL.
  destruct (double_CreateGraphAndSolve_started TESTMODE fuel Config Result0
              TimeFirst TimeLast HF HL) as (HS & _).
  rewrite HS. clear HS.
  eapply Forall_impl; [|apply double_UpdateLoop_passes].
  intros st [Hst _]. cbv zeta. rewrite Hst.
  unfold pass_calls, motion_calls, measure_calls.
  rewrite <- !app_assoc. reflexivity.
Qed.

End Binary64Claims.

(** ** Examples in double precision *)

Section Binary64Examples.

Import Floats.
Import Binary64 Binary64.App Binary64.Props.
Local Open Scope float_scope.

(** [fmod] on some doubles: the result has the sign of the first
    argument and is exact. *)
Example fmod_values :
  map (fun x => Num.fmod x 60) [55; 90; -90; 60; -60; 0x1p+60; infinity]
  = [55; 30; -30; 0; -0; 16; nan]
  /\ Num.fmod 7 0x1.3333333333333p-2 = 0x1.99999999999acp-4
  /\ Num.fmod 1 0 = nan.
Proof.
  vm_compute. repeat split.
Qed.

(** Averaging rounds: three timestamps of one tenth average to the next
    double above one tenth, the means 0.1, 0.2 and 0.3 to the next double
    above one fifth; the inverse of a zero covariance entry is infinite,
    which makes the fused covariance zero. *)
Example three_readings_average :
  Resampling.AverageMeasurement Recorder.ThreeReadings
  = (mkSensorData (Some Point3) 0x1.999999999999bp-4
                  [0x1.999999999999bp-3; 0x1.2aaaaaaaaaaabp+1] [4; 0],
     []).
Proof.
  vm_compute. reflexivity.
Qed.

(** Covariances -2 and 2: the inverses add up to zero, and the fused
    covariance is infinite. *)
Example opposed_covariances_average :
  Resampling.AverageMeasurement Recorder.Opposed
  = (mkSensorData (Some Point3) 0.5 [2] [infinity], []).
Proof.
  vm_compute. reflexivity.
Qed.

(** At 1e16 s a sample time of one second is lost in the rounding of
    [Time + SampleTime]: the first measurement closes a window of its
    own. *)
Example far_out_sampling :
  map getTimestamp (fst (Resampling.SampleMeasurementsDown Recorder.FarOut 1))
  = [0x1.1c37937e08p+53; 0x1.1c37937e08001p+53].
Proof.
  vm_compute. reflexivity.
Qed.

(** A last timestamp that is NaN closes no window: the comparisons with it
    are false, and the measurements collected are never averaged. *)
Example nan_timestamp_sampling :
  Resampling.SampleMeasurementsDown
    [mkSensorData (Some Point3) 0 [1] [1]; mkSensorData (Some Point3) nan [3] [1]] 10
  = ([], []).
Proof.
  vm_compute. reflexivity.
Qed.

(** Measurements at 5 s and 55 s: in the pass at 55 s the flag is set,
    because the product [(55 - 5) * 1.1] is rounded to the double just
    above 55. *)
Example fifty_apart_run :
  let run := @CreateGraphAndSolve (Recorder.Lib Recorder.FiftyApart)
                                  true 5 Recorder.Bare [] in
  Returned run = Some 0%Z
  /\ map (fun st => (StepTimeOld st, StepTimeNow st, filter is_Solve (StepCalls st)))
         (Steps run)
     = [(4, 5, [CallSolve false]); (5, 55, [CallSolve true])]
  /\ (55 - 5) * Num.literal_1_1 = 0x1.b800000000001p+5.
Proof.
  vm_compute. repeat split.
Qed.

(** Three fixes with inertial and odometry prediction: the calls of the
    run, and what the graph has received when each pass ends. *)
Example three_fixes_in_double :
  let run := @CreateGraphAndSolve (Recorder.Lib Recorder.ThreeFixes)
                                  true 5 Recorder.Moving [] in
  Returned run = Some 0%Z
  /\ Prologue run
     = [CallReadDataFromFile "in"; CallInitIMU 30 2;
        CallAddState "Position" Point3 30;
        CallAddFactor Prior3 (StateID3 "Position" 30 0) (StdDevSharedDiagonal 1);
        CallSetAllConstantOutsideWindow 1 30]
  /\ map (fun st => (StepTimeOld st, StepTimeNow st, StepCalls st)) (Steps run)
     = [ (29, 30,
          [CallGraphSolve; CallSolve false; CallSave false; CallPrintProgress 0]);
         (30, 31,
          [CallAddIMU 30 31; CallAddOdometry 30 31; CallSolve false; CallSave false;
           CallPrintProgress 0x1.aaaaaaaaaaaabp+0]);
         (31, 90,
          [CallAddIMU 31 90; CallAddOdometry 31 90; CallSolve true; CallSave false;
           CallPrintProgress 100]) ]
  /\ map (fun st => skipn 4 (@Graph (Recorder.Lib Recorder.ThreeFixes) (StepAfter st)))
         (Steps run)
     = [ [Recorder.Refined; Recorder.Solved false];
         [Recorder.Refined; Recorder.Solved false;
          Recorder.ByAddIMU 30 31; Recorder.ByAddOdometry 30 31; Recorder.Solved false];
         [Recorder.Refined; Recorder.Solved false;
          Recorder.ByAddIMU 30 31; Recorder.ByAddOdometry 30 31; Recorder.Solved false;
          Recorder.ByAddIMU 31 90; Recorder.ByAddOdometry 31 90; Recorder.Solved true] ].
Proof.
  vm_compute. repeat split.
Qed.

(** With one timestamp only, [TimeLast = TimeFirst] and the progress
    printed is [0/0 * 100], which is NaN. *)
Example single_fix_progress :
  let run := @CreateGraphAndSolve (Recorder.Lib [30]) true 5 Recorder.Bare [] in
  map StepCalls (Steps run)
  = [[CallGraphSolve; CallSolve false; CallSave false; CallPrintProgress nan]].
Proof.
  vm_compute. reflexivity.
Qed.

(** *** The theorems at concrete inputs *)

Lemma AverageMeasurement_fuses_witness :
  let Input := Recorder.ThreeReadings in
  let out := fst (Resampling.AverageMeasurement Input) in
  (2 <= length Input)%nat
  /\ Forall (fun m => length (getMean m) = 2%nat) Input
  /\ (getTimestamp out = Resampling.arithmetic_mean (map getTimestamp Input)
      /\ length (getMean out) = 2%nat
      /\ (forall i, (i < 2)%nat ->
                    Vec.at_ (getMean out) i
                    = Resampling.arithmetic_mean
                        (Resampling.component i (map getMean Input)))
      /\ (forall i, (i < length (getCovariance out))%nat ->
                    Vec.at_ (getCovariance out) i
                    = Resampling.fused
                        (Resampling.component i (map getCovariance Input)))
      /\ (forall c, Forall (fun m => length (getCovariance m) = c) Input ->
                    length (getCovariance out) = c)).
Proof.
  cbv zeta.
  assert (H1 : (2 <= length Recorder.ThreeReadings)%nat) by (simpl; lia).
  assert (H2 : Forall (fun m => length (getMean m) = 2%nat) Recorder.ThreeReadings)
    by (repeat constructor).
  split; [exact H1|]. split; [exact H2|].
  exact (AverageMeasurement_fuses Recorder.ThreeReadings 2 H1 H2).
Defined.

Lemma SampleMeasurementsDown_one_period_witness :
  let body := [mkSensorData (Some Point3) 0 [1] [1];
               mkSensorData (Some Point3) 1 [2] [1]] in
  let final := mkSensorData (Some Point3) 2 [3] [1] in
  (forall x, In x body ->
             Num.geb (getTimestamp x) (getTimestamp (hd final body) + 10) = false
             /\ Num.eqb (getTimestamp x) (getTimestamp final) = false)
  /\ Num.eqb (getTimestamp final) (getTimestamp final) = true
  /\ Resampling.SampleMeasurementsDown (body ++ [final]) 10
     = ([setTimestamp (fst (Resampling.AverageMeasurement (body ++ [final])))
                      (getTimestamp final)],
        []).
Proof.
  cbv zeta.
  assert (H : forall x,
             In x [mkSensorData (Some Point3) 0 [1] [1];
                   mkSensorData (Some Point3) 1 [2] [1]] ->
             Num.geb (getTimestamp x)
                     (getTimestamp
                        (hd (mkSensorData (Some Point3) 2 [3] [1])
                            [mkSensorData (Some Point3) 0 [1] [1];
                             mkSensorData (Some Point3) 1 [2] [1]]) + 10) = false
             /\ Num.eqb (getTimestamp x)
                        (getTimestamp (mkSensorData (Some Point3) 2 [3] [1])) = false).
  { intros x [<-|[<-|[]]]; split; reflexivity. }
  split; [exact H|]. split; [reflexivity|].
  exact (SampleMeasurementsDown_one_period _ _ 10 H eq_refl).
Defined.

Lemma Solve_flag_follows_schedule_witness :
  let L := Recorder.Lib Recorder.FiftyApart in
  let run := @CreateGraphAndSolve L true 5 Recorder.Bare [] in
  @keeps_previous L
  /\ @GetFirstTimestamp L (@ReadDataFromFile L (InputFile Recorder.Bare))
                        Recorder.Bare = Some 5
  /\ @GetLastTimestamp L (@ReadDataFromFile L (InputFile Recorder.Bare))
                       Recorder.Bare = Some 55
  /\ (0 < 5)%nat
  /\ ((exists first later,
          Steps run = first :: later
          /\ StepTimeOld first = 5 - 1
          /\ StepTimeNow first = 5
          /\ follows 5 later)
      /\ @chained L Recorder.Bare 55 (has_returned run) (Steps run)
      /\ (has_returned run = false -> length (Steps run) = 5%nat)
      /\ Forall (fun st =>
                   filter is_Solve (StepCalls st)
                   = [CallSolve (forceSolve (StepTimeOld st) (StepTimeNow st))])
                (Steps run)).
Proof.
  cbv zeta.
  split; [apply Recorder_keeps_previous|].
  split; [reflexivity|]. split; [reflexivity|]. split; [lia|].
  apply (Solve_flag_follows_schedule (Recorder.Lib Recorder.FiftyApart)
                                     true 5 Recorder.Bare [] 5 55).
  - apply Recorder_keeps_previous.
  - reflexivity.
  - reflexivity.
  - lia.
Defined.

Lemma Predict_skipped_at_first_pass_only_witness :
  let L := Recorder.Lib Recorder.ThreeFixes in
  let run := @CreateGraphAndSolve L true 5 Recorder.Moving [] in
  @moves_forward L
  /\ @GetFirstTimestamp L (@ReadDataFromFile L (InputFile Recorder.Moving))
                        Recorder.Moving = Some 30
  /\ @GetLastTimestamp L (@ReadDataFromFile L (InputFile Recorder.Moving))
                       Recorder.Moving = Some 90
  /\ (0 < 5)%nat
  /\ exists first later,
      Steps run = first :: later
      /\ @chained L Recorder.Moving 90 (has_returned run) (Steps run)
      /\ (has_returned run = false -> length (Steps run) = 5%nat)
      /\ StepTimeNow first = 30
      /\ StepBefore first
         = state_of (@InitGraph L Recorder.Moving 30) (@Declared L Recorder.Moving [])
      /\ filter is_motion_call (StepCalls first) = []
      /\ StepAfter first
         = state_of (@from_Measure L Recorder.Moving 30 90 (StepTimeOld first) 30)
                    (renewed 30 (StepBefore first))
      /\ Forall (fun st =>
                   Num.gtb (StepTimeNow st) 30 = true
                   /\ filter is_motion_call (StepCalls st)
                      = motion_calls Recorder.Moving (StepTimeOld st) (StepTimeNow st)
                   /\ StepAfter st
                      = state_of (@from_Measure L Recorder.Moving 30 90
                                                (StepTimeOld st) (StepTimeNow st))
                                 (renewed (StepTimeNow st)
                                    (setGraph (StepBefore st)
                                       (@predicted L Recorder.Moving
                                                   (Measurements (StepBefore st))
                                                   (StepTimeOld st) (StepTimeNow st)
                                                   (Graph (StepBefore st))))))
                later.
Proof.
  cbv zeta.
  split; [apply Recorder_moves_forward|].
  split; [reflexivity|]. split; [reflexivity|]. split; [lia|].
  apply (Predict_skipped_at_first_pass_only (Recorder.Lib Recorder.ThreeFixes)
                                            true 5 Recorder.Moving [] 30 90).
  - apply Recorder_moves_forward.
  - reflexivity.
  - reflexivity.
  - lia.
Defined.

Lemma every_pass_makes_the_same_calls_witness :
  let L := Recorder.Lib Recorder.ThreeFixes in
  @GetFirstTimestamp L (@ReadDataFromFile L (InputFile Recorder.Moving))
                     Recorder.Moving = Some 30
  /\ @GetLastTimestamp L (@ReadDataFromFile L (InputFile Recorder.Moving))
                       Recorder.Moving = Some 90
  /\ Forall (fun st =>
               let TimeOld := StepTimeOld st in
               let TimeNow := StepTimeNow st in
               StepCalls st
               = (if Num.gtb TimeNow 30 then
                    (if IsActive (IMU Recorder.Moving)
                     then [CallAddIMU TimeOld TimeNow] else [])
                    ++ (if IsActive (Odom Recorder.Moving)
                        then [CallAddOdometry TimeOld TimeNow] else [])
                  else [])
                 ++ (if IsActive (GNSS Recorder.Moving)
                     then [CallAddGNSS TimeOld TimeNow] else [])
                 ++ (if IsActive (Prior Recorder.Moving)
                        && FactorType_eqb (Type_ (Prior Recorder.Moving))
                                                 Prior3
                     then [CallGetElement (@POSITION_STATE L) TimeNow;
                           CallAddFactor Prior3
                                         (StateID2 (@POSITION_STATE L) TimeNow)
                                         (SqrtInformationDiagonal
                                            (Vec.tail (Param (Prior Recorder.Moving)) 3))]
                     else [])
                 ++ (if Num.eqb TimeNow 30 then [CallGraphSolve] else [])
                 ++ [CallSolve (Num.ltb (Num.fmod TimeNow 60)
                                        ((TimeNow - TimeOld) * Num.literal_1_1));
                     CallSave false;
                     CallPrintProgress ((TimeNow - 30) / (90 - 30) * 100)])
            (Steps (@CreateGraphAndSolve L true 5 Recorder.Moving [])).
Proof.
  cbv zeta.
  split; [reflexivity|]. split; [reflexivity|].
  apply (every_pass_makes_the_same_calls (Recorder.Lib Recorder.ThreeFixes)
                                         true 5 Recorder.Moving [] 30 90);
    reflexivity.
Defined.

End Binary64Examples.
